(** * st_visium_datasets.feature_barcode

    A shallow embedding of [src/st_visium_datasets/feature_barcode.py] and the
    properties of its two loaders:

    - [load_feature_barcode_matrix_df], which joins a MatrixMarket coordinate
      matrix with the feature and barcode listings of a 10x directory;
    - [load_prove_set_df], which reads a probe-set CSV and keeps the included
      probes.

    The module is a thin layer over [csv], [zip], [sum], [scipy.sparse] and
    [pandas]; the parts of those libraries that the module's behaviour
    depends on are modelled first, each one next to the library routine it
    follows. *)

From Stdlib Require Import List String Ascii Bool Arith ZArith NArith Lia Sorted.
Import ListNotations.

Set Implicit Arguments.

(** ** Python outcomes *)

(** Exception classes that can leave the module.  [Foreign] stands for
    whatever a collaborator outside the package raises
    ([get_nested_filepath], [gzip.open], [scipy.io.mmread], the operating
    system).  [Unmodelled] is not a Python exception: it marks an input on
    which this development does not describe the library. *)
Inductive exn : Type :=
| ValueError
| KeyError
| IndexError
| CsvError            (* _csv.Error *)
| ParserError         (* pandas.errors.ParserError *)
| EmptyDataError      (* pandas.errors.EmptyDataError *)
| Foreign (who : string)
| Unmodelled.

Inductive outcome (A : Type) : Type :=
| Ok (a : A)
| Raise (e : exn).

Arguments Ok {A} a.
Arguments Raise {A} e.

Definition obind {A B} (o : outcome A) (k : A -> outcome B) : outcome B :=
  match o with
  | Ok a => k a
  | Raise e => Raise e
  end.

(** ** Characters *)

Definition TAB : ascii := Eval cbv in ascii_of_nat 9.
Definition LF : ascii := Eval cbv in ascii_of_nat 10.
Definition CR : ascii := Eval cbv in ascii_of_nat 13.
Definition SPACE : ascii := Eval cbv in ascii_of_nat 32.
Definition QUOTE : ascii := Eval cbv in ascii_of_nat 34.
Definition HASH : ascii := Eval cbv in ascii_of_nat 35.
Definition COMMA : ascii := Eval cbv in ascii_of_nat 44.

Definition snoc (s : string) (c : ascii) : string :=
  (s ++ String c EmptyString)%string.

(** ** Python builtins used by the module *)

Module Py.

Section Builtins.
Variable A : Type.

(** [heads rows] is the list of first elements, or [None] as soon as one
    row is exhausted: one round of [zip]'s [next] calls. *)
Fixpoint heads (rows : list (list A)) : option (list A) :=
  match rows with
  | [] => Some []
  | [] :: _ => None
  | (x :: _) :: rest =>
      match heads rest with
      | Some hs => Some (x :: hs)
      | None => None
      end
  end.

Fixpoint zip_from (first : list A) (others : list (list A)) : list (list A) :=
  match first with
  | [] => []
  | x :: first' =>
      match heads others with
      | Some hs => (x :: hs) :: zip_from first' (map (@tl A) others)
      | None => []
      end
  end.

(** [zip( *rows )]: the tuples of the transposition, as many as the
    shortest row has elements; no tuple at all without arguments. *)
Definition zip_star (rows : list (list A)) : list (list A) :=
  match rows with
  | [] => []
  | first :: others => zip_from first others
  end.

(** [a, b, c = it]: exactly three items, [ValueError] otherwise. *)
Definition unpack3 (items : list (list A)) : outcome (list A * list A * list A) :=
  match items with
  | [a; b; c] => Ok (a, b, c)
  | _ => Raise ValueError
  end.

(** [sum(rows, [])]: left fold of list [+] from the empty list. *)
Definition sum_lists (rows : list (list A)) : list A :=
  fold_left (fun acc row => acc ++ row) rows [].

(** Length of the shortest row, and the [j]-th column of the rows
    ([d] where a row has no such element): what [zip_star] is measured
    against. *)
Definition min_fields (rows : list (list A)) : nat :=
  match rows with
  | [] => 0
  | first :: others =>
      fold_right Nat.min (List.length first) (map (@List.length A) others)
  end.

Definition column_at (d : A) (j : nat) (rows : list (list A)) : list A :=
  map (fun row => nth j row d) rows.

End Builtins.

End Py.

(** ** Text files opened in mode "rt" *)

Module TextIO.

(** Universal newlines (the default [newline=None] of the text layer):
    CR LF and a lone CR both read as LF. *)
Fixpoint universal_newlines (s : string) : string :=
  match s with
  | EmptyString => EmptyString
  | String c rest =>
      if Ascii.eqb c CR then
        match rest with
        | String c' rest' =>
            if Ascii.eqb c' LF then String LF (universal_newlines rest')
            else String LF (universal_newlines rest)
        | EmptyString => String LF EmptyString
        end
      else String c (universal_newlines rest)
  end.

(** Iterating the file: each line keeps its terminating LF; a last line
    without terminator is still yielded. *)
Fixpoint lines_from (cur : string) (s : string) : list string :=
  match s with
  | EmptyString =>
      match cur with
      | EmptyString => []
      | _ => [cur]
      end
  | String c rest =>
      if Ascii.eqb c LF then snoc cur c :: lines_from EmptyString rest
      else lines_from (snoc cur c) rest
  end.

Definition readlines (content : string) : list string :=
  lines_from EmptyString (universal_newlines content).

End TextIO.

(** ** csv.reader *)

(** The reader of CPython's [_csv] module for the dialect the module asks
    for: the [excel] defaults (quote character [QUOTE], [doublequote],
    no escape character, no [skipinitialspace], not [strict],
    [QUOTE_MINIMAL]) with the delimiter passed by the caller.  Without an
    escape character the two escape states are unreachable and are left
    out. *)
Module Csv.

Inductive state : Type :=
| START_RECORD
| START_FIELD
| IN_FIELD
| IN_QUOTED_FIELD
| QUOTE_IN_QUOTED_FIELD
| EAT_CRNL.

Definition state_eqb (a b : state) : bool :=
  match a, b with
  | START_RECORD, START_RECORD
  | START_FIELD, START_FIELD
  | IN_FIELD, IN_FIELD
  | IN_QUOTED_FIELD, IN_QUOTED_FIELD
  | QUOTE_IN_QUOTED_FIELD, QUOTE_IN_QUOTED_FIELD
  | EAT_CRNL, EAT_CRNL => true
  | _, _ => false
  end.

Record reader : Type := mkReader {
  st : state;
  field : string;          (* characters of the field being read *)
  field_len : N;
  fields : list string     (* fields of the record being read *)
}.

(** [csv.field_size_limit()] *)
Definition field_limit : N := 131072.

Definition parse_reset : reader :=
  mkReader START_RECORD EmptyString 0 [].

Definition parse_add_char (r : reader) (c : ascii) : outcome reader :=
  if (field_limit <=? field_len r)%N then Raise CsvError
  else Ok (mkReader (st r) (snoc (field r) c) (field_len r + 1) (fields r)).

Definition parse_save_field (r : reader) : reader :=
  mkReader (st r) EmptyString 0 (fields r ++ [field r]).

Definition set_state (s : state) (r : reader) : reader :=
  mkReader s (field r) (field_len r) (fields r).

Definition is_nl (c : ascii) : bool := Ascii.eqb c LF || Ascii.eqb c CR.

(** One step of [parse_process_char]; [None] is the end-of-line mark the
    reader feeds after the last character of every line. *)
Definition start_field (delimiter : ascii) (r : reader) (c : option ascii)
  : outcome reader :=
  match c with
  | None => Ok (set_state START_RECORD (parse_save_field r))
  | Some ch =>
      if is_nl ch then Ok (set_state EAT_CRNL (parse_save_field r))
      else if Ascii.eqb ch QUOTE then Ok (set_state IN_QUOTED_FIELD r)
      else if Ascii.eqb ch delimiter then Ok (parse_save_field r)
      else obind (parse_add_char r ch) (fun r' => Ok (set_state IN_FIELD r'))
  end.

Definition parse_process_char (delimiter : ascii) (r : reader) (c : option ascii)
  : outcome reader :=
  match st r with
  | START_RECORD =>
      match c with
      | None => Ok r
      | Some ch =>
          if is_nl ch then Ok (set_state EAT_CRNL r)
          else start_field delimiter (set_state START_FIELD r) c
      end
  | START_FIELD => start_field delimiter r c
  | IN_FIELD =>
      match c with
      | None => Ok (set_state START_RECORD (parse_save_field r))
      | Some ch =>
          if is_nl ch then Ok (set_state EAT_CRNL (parse_save_field r))
          else if Ascii.eqb ch delimiter
               then Ok (set_state START_FIELD (parse_save_field r))
          else parse_add_char r ch
      end
  | IN_QUOTED_FIELD =>
      match c with
      | None => Ok r
      | Some ch =>
          if Ascii.eqb ch QUOTE then Ok (set_state QUOTE_IN_QUOTED_FIELD r)
          else parse_add_char r ch
      end
  | QUOTE_IN_QUOTED_FIELD =>
      match c with
      | None => Ok (set_state START_RECORD (parse_save_field r))
      | Some ch =>
          if Ascii.eqb ch QUOTE
          then obind (parse_add_char r ch)
                     (fun r' => Ok (set_state IN_QUOTED_FIELD r'))
          else if Ascii.eqb ch delimiter
               then Ok (set_state START_FIELD (parse_save_field r))
          else if is_nl ch then Ok (set_state EAT_CRNL (parse_save_field r))
          else obind (parse_add_char r ch) (fun r' => Ok (set_state IN_FIELD r'))
      end
  | EAT_CRNL =>
      match c with
      | None => Ok (set_state START_RECORD r)
      | Some ch => if is_nl ch then Ok r else Raise CsvError
      end
  end.

Fixpoint feed (delimiter : ascii) (r : reader) (line : string) : outcome reader :=
  match line with
  | EmptyString => parse_process_char delimiter r None
  | String ch rest =>
      obind (parse_process_char delimiter r (Some ch))
            (fun r' => feed delimiter r' rest)
  end.

(** [Reader_iternext], called until the input is exhausted: a record is
    complete when the state is back to [START_RECORD] at the end of a
    line; at the end of the input an open quoted field is closed and the
    record returned. *)
Fixpoint records (delimiter : ascii) (r : reader) (lines : list string)
  : outcome (list (list string)) :=
  match lines with
  | [] =>
      if negb (field_len r =? 0)%N || state_eqb (st r) IN_QUOTED_FIELD
      then Ok [fields (parse_save_field r)]
      else Ok []
  | line :: rest =>
      obind (feed delimiter r line) (fun r' =>
        if state_eqb (st r') START_RECORD
        then obind (records delimiter parse_reset rest)
                   (fun rows => Ok (fields r' :: rows))
        else records delimiter r' rest)
  end.

(** [list(csv.reader(f, delimiter=d))] over the lines of [f]. *)
Definition reader_rows (delimiter : ascii) (lines : list string)
  : outcome (list (list string)) :=
  records delimiter parse_reset lines.

End Csv.

(** ** scipy.sparse *)

Module Sparse.

(** A [coo_matrix]: the shape and the stored triples (row, column, value)
    in file order; a position may be stored more than once. *)
Record coo_matrix : Type := mkCoo {
  nrows : nat;
  ncols : nat;
  entries : list (nat * nat * Z)
}.

(** The index check of the [coo_matrix] constructor. *)
Definition in_bounds (m : coo_matrix) : bool :=
  forallb (fun e => match e with
                    | (r, c, _) => (r <? nrows m) && (c <? ncols m)
                    end) (entries m).

(** *** Dense form: [toarray] *)

Definition zeros (n k : nat) : list (list Z) := repeat (repeat 0%Z k) n.

(** [row[i] += v] *)
Fixpoint add_at (row : list Z) (i : nat) (v : Z) : list Z :=
  match row, i with
  | [], _ => []
  | x :: row', O => (x + v)%Z :: row'
  | x :: row', S i' => x :: add_at row' i' v
  end.

(** [B[r, c] += v] *)
Fixpoint add_at2 (B : list (list Z)) (r c : nat) (v : Z) : list (list Z) :=
  match B, r with
  | [], _ => []
  | row :: B', O => add_at row c v :: B'
  | row :: B', S r' => row :: add_at2 B' r' c v
  end.

(** [coo_todense]: start from zeros and add every stored triple. *)
Definition toarray (m : coo_matrix) : list (list Z) :=
  fold_left (fun B e => match e with (r, c, v) => add_at2 B r c v end)
            (entries m) (zeros (nrows m) (ncols m)).

Definition dense_at (m : coo_matrix) (r c : nat) : Z :=
  nth c (nth r (toarray m) []) 0%Z.

(** *** Compressed columns: [tocsc] followed by [sort_indices] *)

(** A stored column: (row index, value) pairs, row indices increasing,
    values of a repeated position summed. *)
Definition sparse_column : Type := list (nat * Z).

Fixpoint insert_sum (r : nat) (v : Z) (col : sparse_column) : sparse_column :=
  match col with
  | [] => [(r, v)]
  | (r', v') :: rest =>
      if r <? r' then (r, v) :: col
      else if r =? r' then (r', (v' + v)%Z) :: rest
      else (r', v') :: insert_sum r v rest
  end.

Definition column_of (es : list (nat * nat * Z)) (j : nat) : sparse_column :=
  fold_left (fun col e => match e with
                          | (r, c, v) => if c =? j then insert_sum r v col else col
                          end) es [].

Record csc_matrix : Type := mkCsc {
  csc_nrows : nat;
  csc_ncols : nat;
  csc_columns : list sparse_column
}.

Definition tocsc (m : coo_matrix) : csc_matrix :=
  mkCsc (nrows m) (ncols m) (map (column_of (entries m)) (seq 0 (ncols m))).

(** Lookup in a stored column with fill value 0 ([IntIndex.lookup]). *)
Fixpoint sp_get (col : sparse_column) (r : nat) : Z :=
  match col with
  | [] => 0%Z
  | (r', v) :: rest => if r =? r' then v else sp_get rest r
  end.

(** Sum of the values stored at position ([r], [c]): what both forms
    are measured against. *)
Fixpoint stored_sum (es : list (nat * nat * Z)) (r c : nat) : Z :=
  match es with
  | [] => 0%Z
  | (r', c', v) :: es' =>
      ((if (r' =? r)%nat && (c' =? c)%nat then v else 0) + stored_sum es' r c)%Z
  end.

(** Order of the stored entries of a column. *)
Definition row_lt (a b : nat * Z) : Prop := fst a < fst b.

End Sparse.

(** ** pandas.DataFrame *)

Module Pandas.

Inductive value : Type :=
| VInt (z : Z)            (* integer: counts, positions of a RangeIndex *)
| VBool (b : bool)
| VStr (s : string)
| VNum (tok : string)     (* number read from text, kept as written *)
| VNaN.

Inductive label : Type :=
| LInt (z : Z)
| LStr (s : string).

Definition label_eqb (a b : label) : bool :=
  match a, b with
  | LInt x, LInt y => (x =? y)%Z
  | LStr x, LStr y => String.eqb x y
  | _, _ => false
  end.

Inductive dtype : Type := DBool | DNumber | DObject.

(** A column is a dense array with its dtype, or a [SparseArray] of
    integers with fill value 0. *)
Inductive column : Type :=
| Dense (dt : dtype) (vals : list value)
| SparseInt (len : nat) (sp : Sparse.sparse_column).

Definition values_of (c : column) : list value :=
  match c with
  | Dense _ vals => vals
  | SparseInt len sp => map (fun i => VInt (Sparse.sp_get sp i)) (seq 0 len)
  end.

(** Column-major frame: [data] holds one column per entry of [columns];
    [index] holds one tuple of level values per row. *)
Record DataFrame : Type := mkDF {
  index_names : list (option label);
  index : list (list value);
  columns : list label;
  data : list column
}.

Definition n_rows (df : DataFrame) : nat := List.length (index df).

Definition cell (df : DataFrame) (r c : nat) : option value :=
  match nth_error (data df) c with
  | Some col => nth_error (values_of col) r
  | None => None
  end.

Definition range_index (n : nat) : list (list value) :=
  map (fun i => [VInt (Z.of_nat i)]) (seq 0 n).

Definition range_labels (n : nat) : list label :=
  map (fun i => LInt (Z.of_nat i)) (seq 0 n).

(** [pd.DataFrame.sparse.from_spmatrix]: convert to compressed columns,
    one [SparseArray] per matrix column, default integer labels on both
    axes. *)
Definition from_spmatrix (m : Sparse.coo_matrix) : DataFrame :=
  let csc := Sparse.tocsc m in
  mkDF [None]
       (range_index (Sparse.csc_nrows csc))
       (range_labels (Sparse.csc_ncols csc))
       (map (SparseInt (Sparse.csc_nrows csc)) (Sparse.csc_columns csc)).

(** [df.columns = labels] *)
Definition set_columns (df : DataFrame) (labels : list label) : outcome DataFrame :=
  if List.length labels =? List.length (columns df)
  then Ok (mkDF (index_names df) (index df) labels (data df))
  else Raise ValueError.

Definition label_in (l : label) (ls : list label) : bool :=
  existsb (label_eqb l) ls.

Definition insert_at {A} (loc : nat) (x : A) (l : list A) : list A :=
  firstn loc l ++ x :: skipn loc l.

(** [df.insert(loc, column, value)] with [allow_duplicates=False]. *)
Definition insert (df : DataFrame) (loc : nat) (name : label) (vals : list value)
  : outcome DataFrame :=
  if label_in name (columns df) then Raise ValueError
  else if negb (List.length vals =? n_rows df) then Raise ValueError
  else if List.length (columns df) <? loc then Raise IndexError
  else Ok (mkDF (index_names df) (index df)
                (insert_at loc name (columns df))
                (insert_at loc (Dense DObject vals) (data df))).

(** Columns carrying a label, in frame order. *)
Fixpoint select (l : label) (labels : list label) (cols : list column) : list column :=
  match labels, cols with
  | l' :: labels', c :: cols' =>
      if label_eqb l l' then c :: select l labels' cols' else select l labels' cols'
  | _, _ => []
  end.

(** [frame[col]] for a label: the column when the label occurs once.  A
    label that occurs several times yields a sub-frame instead; this is left
    unmodelled, and the loader never gets there: [insert] has refused any
    name already present (lemma [keys_found_once]). *)
Definition getitem_label (df : DataFrame) (l : label) : outcome column :=
  match select l (columns df) (data df) with
  | [] => Raise KeyError
  | [c] => Ok c
  | _ => Raise Unmodelled
  end.

Fixpoint mapM {A B} (f : A -> outcome B) (l : list A) : outcome (list B) :=
  match l with
  | [] => Ok []
  | x :: l' => obind (f x) (fun y => obind (mapM f l') (fun ys => Ok (y :: ys)))
  end.

(** Labels and columns left after deleting every column whose label is
    in [keys]. *)
Fixpoint without (keys : list label) (labels : list label) (cols : list column)
  : list label * list column :=
  match labels, cols with
  | l :: labels', c :: cols' =>
      let (ls, cs) := without keys labels' cols' in
      if label_in l keys then (ls, cs) else (l :: ls, c :: cs)
  | _, _ => ([], [])
  end.

(** [df.set_index(keys)] with the defaults [drop=True], [append=False],
    [verify_integrity=False]: the key columns become the levels of the
    row index, row by row, and leave the frame. *)
Definition set_index (df : DataFrame) (keys : list label) : outcome DataFrame :=
  if existsb (fun k => negb (label_in k (columns df))) keys then Raise KeyError
  else
    obind (mapM (getitem_label df) keys) (fun arrays =>
      match arrays with
      | [] => Raise ValueError
      | _ =>
          let (ls, cs) := without keys (columns df) (data df) in
          Ok (mkDF (map Some keys)
                   (Py.zip_star (map values_of arrays))
                   ls cs)
      end).

(** *** Indexing with a column: [df[key]] *)

Definition is_bool_value (v : value) : bool :=
  match v with VBool _ => true | _ => false end.

Definition is_bool_or_na (v : value) : bool :=
  match v with VBool _ | VNaN => true | _ => false end.

Definition truth (v : value) : bool :=
  match v with VBool b => b | _ => false end.

(** [com.is_bool_indexer]: a boolean dtype, or a non-empty object array
    holding only booleans; an object array of booleans and missing values
    is refused with [ValueError]. *)
Definition is_bool_indexer (key : column) : outcome bool :=
  match key with
  | Dense DBool _ => Ok true
  | Dense DObject vals =>
      match vals with
      | [] => Ok false
      | _ => if forallb is_bool_value vals then Ok true
             else if forallb is_bool_or_na vals then Raise ValueError
             else Ok false
      end
  | Dense DNumber _ => Ok false
  | SparseInt _ _ => Ok false
  end.

Fixpoint compress {A} (mask : list bool) (l : list A) : list A :=
  match mask, l with
  | b :: mask', x :: l' => if b then x :: compress mask' l' else compress mask' l'
  | _, _ => []
  end.

Fixpoint sp_find (sp : Sparse.sparse_column) (r : nat) : option Z :=
  match sp with
  | [] => None
  | (r', v) :: rest => if r =? r' then Some v else sp_find rest r
  end.

(** Stored entries of a sparse column at the kept positions, renumbered
    from [k]. *)
Fixpoint sp_take (sp : Sparse.sparse_column) (kept : list nat) (k : nat)
  : Sparse.sparse_column :=
  match kept with
  | [] => []
  | p :: kept' =>
      match sp_find sp p with
      | Some v => (k, v) :: sp_take sp kept' (S k)
      | None => sp_take sp kept' (S k)
      end
  end.

Definition take_rows (mask : list bool) (c : column) : column :=
  match c with
  | Dense dt vals => Dense dt (compress mask vals)
  | SparseInt len sp =>
      let kept := compress mask (seq 0 len) in
      SparseInt (List.length kept) (sp_take sp kept 0)
  end.

(** [_getitem_bool_array]: the rows where the mask holds, in order, with
    their index entries. *)
Definition getitem_mask (df : DataFrame) (mask : list bool) : outcome DataFrame :=
  if negb (List.length mask =? n_rows df) then Raise ValueError
  else Ok (mkDF (index_names df) (compress mask (index df))
                (columns df) (map (take_rows mask) (data df))).

(** A value used as a column label.  Text read by [read_csv] and integers
    are labels; a number read from text, a boolean or a missing value
    names no column of the frames built here. *)
Definition label_of_value (v : value) : option label :=
  match v with
  | VStr s => Some (LStr s)
  | VInt z => Some (LInt z)
  | _ => None
  end.

Fixpoint pick (df : DataFrame) (keys : list value)
  : outcome (list label * list column) :=
  match keys with
  | [] => Ok ([], [])
  | v :: keys' =>
      match label_of_value v with
      | None => Raise KeyError
      | Some l =>
          match select l (columns df) (data df) with
          | [] => Raise KeyError
          | cs => obind (pick df keys') (fun rest =>
                    Ok (repeat l (List.length cs) ++ fst rest, cs ++ snd rest))
          end
      end
  end.

(** [df[key]] for a one-dimensional [key] taken from a frame with the
    same index: a boolean indexer filters the rows, anything else is read
    as a list of column labels. *)
Definition getitem_frame (df : DataFrame) (key : column) : outcome DataFrame :=
  obind (is_bool_indexer key) (fun b =>
    if b then getitem_mask df (map truth (values_of key))
    else obind (pick df (values_of key)) (fun sel =>
           Ok (mkDF (index_names df) (index df) (fst sel) (snd sel)))).

(** [df.rename(columns={old: new})] *)
Definition rename_columns (df : DataFrame) (old new : label) : DataFrame :=
  mkDF (index_names df) (index df)
       (map (fun l => if label_eqb l old then new else l) (columns df))
       (data df).

(** [df.drop(columns=labels)]: every label must be present; all the
    columns carrying one of them go. *)
Definition drop_columns (df : DataFrame) (labels : list label) : outcome DataFrame :=
  if existsb (fun l => negb (label_in l (columns df))) labels then Raise KeyError
  else
    let (ls, cs) := without labels (columns df) (data df) in
    Ok (mkDF (index_names df) (index df) ls cs).

(** A row of the frame, cell by cell in column order. *)
Definition row_at (df : DataFrame) (r : nat) : list (option value) :=
  map (fun col => nth_error (values_of col) r) (data df).

End Pandas.

(** ** Files and effects *)

Module IO.

Definition Path : Type := string.

(** What the module can observe of the file system, each field being one
    collaborator: [Path.is_dir], [get_nested_filepath] of
    [st_visium_datasets.utils], the decoded text behind [gzip.open(p, "rt")],
    the triples [scipy.io.mmread] parses, and the text of a plain file. *)
Record FileSystem : Type := mkFS {
  is_dir : Path -> bool;
  nested : Path -> string -> outcome Path;
  gz_text : Path -> outcome string;
  mtx : Path -> outcome Sparse.coo_matrix;
  text : Path -> outcome string
}.

Inductive event : Type :=
| IsDir (p : Path)
| Lookup (dir : Path) (name : string)
| GzipOpen (p : Path)
| MMRead (p : Path)
| ReadCsv (p : Path).

(** The store threaded through a call: the file system and the trace of
    the accesses made so far, oldest first. *)
Record store : Type := mkStore {
  fs : FileSystem;
  log : list event
}.

Definition M (A : Type) : Type := store -> outcome A * store.

Definition ret {A} (a : A) : M A := fun s => (Ok a, s).

Definition raise {A} (e : exn) : M A := fun s => (Raise e, s).

Definition bind {A B} (m : M A) (k : A -> M B) : M B :=
  fun s =>
    match m s with
    | (Ok a, s') => k a s'
    | (Raise e, s') => (Raise e, s')
    end.

Definition lift {A} (o : outcome A) : M A := fun s => (o, s).

Definition access {A} (ev : event) (read : FileSystem -> outcome A) : M A :=
  fun s => (read (fs s), mkStore (fs s) (log s ++ [ev])).

(** A computation only reads: it leaves the file system as it found it,
    and its result depends on the file system alone, not on the trace. *)
Definition reads_only {A} (m : M A) : Prop :=
  forall s,
    fs (snd (m s)) = fs s
    /\ forall s', fs s' = fs s -> fst (m s') = fst (m s).

End IO.

Declare Scope io_scope.
Delimit Scope io_scope with io.

Notation "x <- m ;; k" := (IO.bind m (fun x => k))
  (at level 61, m at next level, right associativity) : io_scope.
Notation "' pat <- m ;; k" := (IO.bind m (fun x => match x with pat => k end))
  (at level 61, pat pattern, m at next level, right associativity) : io_scope.

(** ** The module: feature-barcode matrices *)

Import Pandas.

Section FeatureBarcode.

Open Scope io_scope.
Open Scope string_scope.

(** [feature_bc_matrix_dir.is_dir()] *)
Definition path_is_dir (p : IO.Path) : IO.M bool :=
  IO.access (IO.IsDir p) (fun fs => Ok (IO.is_dir fs p)).

(** [get_nested_filepath(dir, name)], imported from the package's
    [utils]. *)
Definition get_nested_filepath (dir : IO.Path) (name : string) : IO.M IO.Path :=
  IO.access (IO.Lookup dir name) (fun fs => IO.nested fs dir name).

(** [gzip.open(p, "rt")], read to the end through line iteration. *)
Definition gzip_open_rt (p : IO.Path) : IO.M (list string) :=
  IO.access (IO.GzipOpen p)
            (fun fs => obind (IO.gz_text fs p) (fun t => Ok (TextIO.readlines t))).

(** [scipy.io.mmread(p)] on a coordinate file; the [coo_matrix] it builds
    checks its indices against the declared shape. *)
Definition mmread (p : IO.Path) : IO.M Sparse.coo_matrix :=
  IO.access (IO.MMRead p)
            (fun fs => obind (IO.mtx fs p) (fun m =>
               if Sparse.in_bounds m then Ok m else Raise ValueError)).

Definition _load_mat (feature_bc_matrix_dir : IO.Path) : IO.M Sparse.coo_matrix :=
  mat_path <- get_nested_filepath feature_bc_matrix_dir "matrix.mtx.gz" ;;
  mmread mat_path.

Definition _load_features (feature_bc_matrix_dir : IO.Path)
  : IO.M (list string * list string * list string) :=
  features_path <- get_nested_filepath feature_bc_matrix_dir "features.tsv.gz" ;;
  f <- gzip_open_rt features_path ;;
  rows <- IO.lift (Csv.reader_rows TAB f) ;;
  '(feature_ids, gene_names, feature_types)
     <- IO.lift (Py.unpack3 (Py.zip_star rows)) ;;
  IO.ret (feature_ids, gene_names, feature_types).

Definition _load_barcodes (feature_bc_matrix_dir : IO.Path) : IO.M (list string) :=
  barcodes_path <- get_nested_filepath feature_bc_matrix_dir "barcodes.tsv.gz" ;;
  f <- gzip_open_rt barcodes_path ;;
  rows <- IO.lift (Csv.reader_rows TAB f) ;;
  IO.ret (Py.sum_lists rows).

Definition load_feature_barcode_matrix_df (feature_bc_matrix_dir : IO.Path)
  : IO.M DataFrame :=
  d <- path_is_dir feature_bc_matrix_dir ;;
  if negb d then IO.raise ValueError
  else
    mat <- _load_mat feature_bc_matrix_dir ;;
    '(feature_ids, gene_names, feature_types)
       <- _load_features feature_bc_matrix_dir ;;
    barcodes <- _load_barcodes feature_bc_matrix_dir ;;
    let df := from_spmatrix mat in
    df <- IO.lift (set_columns df (map LStr barcodes)) ;;
    df <- IO.lift (insert df 0 (LStr "feature_id") (map VStr feature_ids)) ;;
    df <- IO.lift (insert df 1 (LStr "feature_type") (map VStr feature_types)) ;;
    df <- IO.lift (insert df 2 (LStr "gene") (map VStr gene_names)) ;;
    df <- IO.lift (set_index df [LStr "feature_id"; LStr "gene"; LStr "feature_type"]) ;;
    IO.ret df.

End FeatureBarcode.

(** ** Valid inputs of the matrix loader *)

(** Column names the loader adds itself; [df.insert] refuses a name that
    is already a column. *)
Definition reserved_labels : list string :=
  ["feature_id"%string; "feature_type"%string; "gene"%string].

(** A valid triad under [dir]: the three files are found and read, the
    matrix [m] is a coordinate matrix, there is at least one feature line and
    every feature line has three fields, the barcodes are the fields of the
    barcodes file, both listings match the shape of the matrix, and no
    barcode is one of the names the loader adds. *)
Record valid_triad (fs : IO.FileSystem) (dir : IO.Path) (m : Sparse.coo_matrix)
       (features : list (list string)) (barcodes : list string) : Prop := {
  vt_is_dir : IO.is_dir fs dir = true;
  vt_matrix :
    exists p, IO.nested fs dir "matrix.mtx.gz"%string = Ok p /\ IO.mtx fs p = Ok m;
  vt_in_bounds : Sparse.in_bounds m = true;
  vt_features :
    exists p t,
      IO.nested fs dir "features.tsv.gz"%string = Ok p
      /\ IO.gz_text fs p = Ok t
      /\ Csv.reader_rows TAB (TextIO.readlines t) = Ok features;
  vt_some_feature : features <> [];
  vt_three_fields : Forall (fun row => List.length row = 3) features;
  vt_barcodes :
    exists p t rows,
      IO.nested fs dir "barcodes.tsv.gz"%string = Ok p
      /\ IO.gz_text fs p = Ok t
      /\ Csv.reader_rows TAB (TextIO.readlines t) = Ok rows
      /\ barcodes = List.concat rows;
  vt_rows : List.length features = Sparse.nrows m;
  vt_columns : List.length barcodes = Sparse.ncols m;
  vt_no_clash : forall b, In b barcodes -> ~ In b reserved_labels
}.

(** The table the loader is expected to build from a valid triad. *)
Definition expected_table (m : Sparse.coo_matrix) (features : list (list string))
           (barcodes : list string) : DataFrame :=
  mkDF [Some (LStr "feature_id"); Some (LStr "gene"); Some (LStr "feature_type")]
       (map (map VStr) features)
       (map LStr barcodes)
       (map (SparseInt (Sparse.nrows m)) (Sparse.csc_columns (Sparse.tocsc m))).

(** ** pandas.read_csv *)

(** The tokenizer of the C parser ([tokenize_bytes], [end_line] and
    [parser_handle_eof]) under the options [load_prove_set_df] leaves at
    their defaults or sets: delimiter [COMMA], quote character [QUOTE] with
    [doublequote], no escape character, [skip_blank_lines], a header on the
    first line, and the comment character passed by the caller.  Where the C
    code steps back in its buffer to read a character again, the model calls
    the handler of the state it re-enters. *)
Module Tokenizer.

Inductive state : Type :=
| START_RECORD
| START_FIELD
| IN_FIELD
| IN_QUOTED_FIELD
| QUOTE_IN_QUOTED_FIELD
| EAT_CRNL
| EAT_CRNL_NOP
| EAT_COMMENT
| EAT_LINE_COMMENT
| WHITESPACE_LINE.

Record parser : Type := mkParser {
  st : state;
  word : string;                  (* characters of the open field *)
  pending : string;               (* blanks read since the line began *)
  line : list string;             (* fields of the open line *)
  lines : list (list string)      (* completed lines, oldest first *)
}.

Definition init : parser :=
  mkParser START_RECORD EmptyString EmptyString [] [].

Definition set_state (s : state) (p : parser) : parser :=
  mkParser s (word p) (pending p) (line p) (lines p).

Definition push_char (p : parser) (c : ascii) : parser :=
  mkParser (st p) (snoc (word p) c) (pending p) (line p) (lines p).

Definition end_field (p : parser) : parser :=
  mkParser (st p) EmptyString (pending p) (line p ++ [word p]) (lines p).

(** [end_line]: from the third line on, a line longer than the one
    before it is an error; from the second line on, a shorter one is
    completed with empty fields. *)
Definition end_line (s : state) (p : parser) : outcome parser :=
  let n := List.length (lines p) in
  let fields := List.length (line p) in
  let ex_fields := List.length (last (lines p) []) in
  if (2 <=? n) && (ex_fields <? fields) then Raise ParserError
  else
    let padded :=
      if (1 <=? n) && (fields <? ex_fields)
      then line p ++ repeat EmptyString (ex_fields - fields)
      else line p in
    Ok (mkParser s EmptyString EmptyString [] (lines p ++ [padded])).

Definition is_blank (c : ascii) : bool := Ascii.eqb c SPACE || Ascii.eqb c TAB.

Definition in_field (comment : ascii) (p : parser) (c : ascii) : outcome parser :=
  if Ascii.eqb c LF then end_line START_RECORD (end_field p)
  else if Ascii.eqb c CR then Ok (set_state EAT_CRNL (end_field p))
  else if Ascii.eqb c COMMA then Ok (set_state START_FIELD (end_field p))
  else if Ascii.eqb c comment then Ok (set_state EAT_COMMENT (end_field p))
  else Ok (push_char p c).

Definition start_field (comment : ascii) (p : parser) (c : ascii) : outcome parser :=
  if Ascii.eqb c LF then end_line START_RECORD (end_field p)
  else if Ascii.eqb c CR then Ok (set_state EAT_CRNL (end_field p))
  else if Ascii.eqb c QUOTE then Ok (set_state IN_QUOTED_FIELD p)
  else if Ascii.eqb c COMMA then Ok (end_field p)
  else if Ascii.eqb c comment then Ok (set_state EAT_COMMENT (end_field p))
  else Ok (set_state IN_FIELD (push_char p c)).

Definition start_record (comment : ascii) (p : parser) (c : ascii) : outcome parser :=
  if Ascii.eqb c LF then Ok p
  else if Ascii.eqb c CR then Ok (set_state EAT_CRNL_NOP p)
  else if Ascii.eqb c comment then Ok (set_state EAT_LINE_COMMENT p)
  else if is_blank c
       then Ok (mkParser WHITESPACE_LINE (word p) (String c EmptyString) (line p) (lines p))
  else start_field comment (set_state START_FIELD p) c.

Definition step (comment : ascii) (p : parser) (c : ascii) : outcome parser :=
  match st p with
  | START_RECORD => start_record comment p c
  | START_FIELD => start_field comment p c
  | IN_FIELD => in_field comment p c
  | IN_QUOTED_FIELD =>
      if Ascii.eqb c QUOTE then Ok (set_state QUOTE_IN_QUOTED_FIELD p)
      else Ok (push_char p c)
  | QUOTE_IN_QUOTED_FIELD =>
      if Ascii.eqb c QUOTE then Ok (set_state IN_QUOTED_FIELD (push_char p c))
      else if Ascii.eqb c COMMA then Ok (set_state START_FIELD (end_field p))
      else if Ascii.eqb c LF then end_line START_RECORD (end_field p)
      else if Ascii.eqb c CR then Ok (set_state EAT_CRNL (end_field p))
      else Ok (set_state IN_FIELD (push_char p c))
  | EAT_CRNL =>
      if Ascii.eqb c LF then end_line START_RECORD p
      else if Ascii.eqb c COMMA
           then obind (end_line START_FIELD p) (fun p' => Ok (end_field p'))
      else obind (end_line START_RECORD p) (fun p' => start_record comment p' c)
  | EAT_CRNL_NOP =>
      if Ascii.eqb c LF || Ascii.eqb c COMMA then Ok (set_state START_RECORD p)
      else start_record comment (set_state START_RECORD p) c
  | EAT_COMMENT =>
      if Ascii.eqb c LF then end_line START_RECORD p
      else if Ascii.eqb c CR then Ok (set_state EAT_CRNL p)
      else Ok p
  | EAT_LINE_COMMENT =>
      if Ascii.eqb c LF then Ok (set_state START_RECORD p)
      else if Ascii.eqb c CR then Ok (set_state EAT_CRNL_NOP p)
      else Ok p
  | WHITESPACE_LINE =>
      if Ascii.eqb c LF
      then Ok (mkParser START_RECORD (word p) EmptyString (line p) (lines p))
      else if Ascii.eqb c CR
      then Ok (mkParser EAT_CRNL_NOP (word p) EmptyString (line p) (lines p))
      else if is_blank c
      then Ok (mkParser WHITESPACE_LINE (word p) (snoc (pending p) c) (line p) (lines p))
      else (* the line is read again from its first character as a field *)
        in_field comment (mkParser IN_FIELD (pending p) EmptyString (line p) (lines p)) c
  end.

Fixpoint run (comment : ascii) (p : parser) (s : string) : outcome parser :=
  match s with
  | EmptyString => Ok p
  | String c rest => obind (step comment p c) (fun p' => run comment p' rest)
  end.

(** [parser_handle_eof] *)
Definition handle_eof (p : parser) : outcome parser :=
  match st p with
  | START_RECORD | WHITESPACE_LINE | EAT_CRNL_NOP | EAT_LINE_COMMENT => Ok p
  | IN_QUOTED_FIELD => Raise ParserError
  | IN_FIELD | START_FIELD | QUOTE_IN_QUOTED_FIELD =>
      end_line START_RECORD (end_field p)
  | EAT_CRNL | EAT_COMMENT => end_line START_RECORD p
  end.

Definition tokenize (comment : ascii) (s : string) : outcome (list (list string)) :=
  obind (run comment init s) (fun p =>
  obind (handle_eof p) (fun p' => Ok (lines p'))).

End Tokenizer.

Module ReadCsv.

Open Scope string_scope.

(** The default missing-value markers, besides the empty field. *)
Definition na_values : list string :=
  ["#N/A"; "#N/A N/A"; "#NA"; "-1.#IND"; "-1.#QNAN"; "-NaN"; "-nan";
   "1.#IND"; "1.#QNAN"; "<NA>"; "N/A"; "NA"; "NULL"; "NaN"; "None";
   "n/a"; "nan"; "null"].

Definition is_na (tok : string) : bool :=
  match tok with
  | EmptyString => true
  | _ => existsb (String.eqb tok) na_values
  end.

Definition bool_of_token (tok : string) : option bool :=
  if existsb (String.eqb tok) ["True"; "TRUE"; "true"] then Some true
  else if existsb (String.eqb tok) ["False"; "FALSE"; "false"] then Some false
  else None.

Definition is_bool_token (tok : string) : bool :=
  match bool_of_token tok with Some _ => true | None => false end.

(** Numbers: decimal notation with optional sign, fraction and exponent,
    blanks around it allowed, and the spellings of infinity. *)
Definition is_digit (c : ascii) : bool :=
  (48 <=? nat_of_ascii c)%nat && (nat_of_ascii c <=? 57)%nat.

Fixpoint drop_while (f : ascii -> bool) (s : string) : string :=
  match s with
  | EmptyString => EmptyString
  | String c rest => if f c then drop_while f rest else s
  end.

Fixpoint count_while (f : ascii -> bool) (s : string) : nat :=
  match s with
  | EmptyString => 0
  | String c rest => if f c then S (count_while f rest) else 0
  end.

Definition drop_sign (s : string) : string :=
  match s with
  | String c rest => if Ascii.eqb c "+" || Ascii.eqb c "-" then rest else s
  | EmptyString => s
  end.

Definition lower (c : ascii) : ascii :=
  let n := nat_of_ascii c in
  if (65 <=? n)%nat && (n <=? 90)%nat then ascii_of_nat (n + 32) else c.

Fixpoint lowercase (s : string) : string :=
  match s with
  | EmptyString => EmptyString
  | String c rest => String (lower c) (lowercase rest)
  end.

Definition is_infinity (tok : string) : bool :=
  let s := lowercase (drop_sign tok) in
  String.eqb s "inf" || String.eqb s "infinity".

Definition is_decimal (tok : string) : bool :=
  let s := drop_sign (drop_while Tokenizer.is_blank tok) in
  let d1 := count_while is_digit s in
  let s1 := drop_while is_digit s in
  let (d2, s2) :=
    match s1 with
    | String c rest =>
        if Ascii.eqb c "." then (count_while is_digit rest, drop_while is_digit rest)
        else (0, s1)
    | EmptyString => (0, s1)
    end in
  if (d1 + d2 =? 0)%nat then false
  else
    let tail :=
      match s2 with
      | String c rest =>
          if Ascii.eqb c "e" || Ascii.eqb c "E" then
            let r := drop_sign rest in
            if (count_while is_digit r =? 0)%nat then None
            else Some (drop_while is_digit r)
          else Some s2
      | EmptyString => Some s2
      end in
    match tail with
    | None => false
    | Some t =>
        match drop_while Tokenizer.is_blank t with
        | EmptyString => true
        | _ => false
        end
    end.

Definition is_number (tok : string) : bool := is_decimal tok || is_infinity tok.

(** Type inference over the fields of one column, in the order the
    parser tries: numbers, booleans, then text.  Missing values turn a
    boolean column into an object column. *)
Definition infer (toks : list string) : column :=
  match toks with
  | [] => Dense DObject []
  | _ =>
      let present := filter (fun t => negb (is_na t)) toks in
      match present with
      | [] => Dense DNumber (map (fun _ => VNaN) toks)
      | _ =>
          if forallb is_number present
          then Dense DNumber (map (fun t => if is_na t then VNaN else VNum t) toks)
          else if forallb is_bool_token present
          then
            let vals := map (fun t => match bool_of_token t with
                                      | Some b => VBool b
                                      | None => VNaN
                                      end) toks in
            if existsb is_na toks then Dense DObject vals else Dense DBool vals
          else Dense DObject (map (fun t => if is_na t then VNaN else VStr t) toks)
      end
  end.

Fixpoint has_dup (l : list string) : bool :=
  match l with
  | [] => false
  | x :: l' => existsb (String.eqb x) l' || has_dup l'
  end.

Definition is_empty (s : string) : bool :=
  match s with EmptyString => true | _ => false end.

Definition field_at (j : nat) (row : list string) : string := nth j row EmptyString.

(** The frame built from the tokenized lines: the first line names the
    columns, every other line is a row.  Headers with repeated or empty
    names (which pandas renames) and rows longer than the header (whose
    leading fields pandas takes as row labels) are left unmodelled. *)
Definition frame_of_lines (ls : list (list string)) : outcome DataFrame :=
  match ls with
  | [] => Raise EmptyDataError
  | header :: rows =>
      if has_dup header || existsb is_empty header then Raise Unmodelled
      else if existsb (fun row => negb (List.length row =? List.length header)%nat) rows
      then Raise Unmodelled
      else Ok (mkDF [None]
                    (range_index (List.length rows))
                    (map LStr header)
                    (map (fun j => infer (map (field_at j) rows))
                         (seq 0 (List.length header))))
  end.

(** [pd.read_csv(text, comment=c)] *)
Definition read_csv (comment : ascii) (content : string) : outcome DataFrame :=
  obind (Tokenizer.tokenize comment content) frame_of_lines.

End ReadCsv.

(** ** The module: probe sets *)

Section ProbeSet.

Open Scope io_scope.
Open Scope string_scope.

(** [pd.read_csv(path, comment=c)] *)
Definition pd_read_csv (p : IO.Path) (comment : ascii) : IO.M DataFrame :=
  IO.access (IO.ReadCsv p)
            (fun fs => obind (IO.text fs p) (ReadCsv.read_csv comment)).

Definition load_prove_set_df (probe_set_filepath : IO.Path) : IO.M DataFrame :=
  df <- pd_read_csv probe_set_filepath HASH ;;
  let df := rename_columns df (LStr "gene_id") (LStr "feature_id") in
  included <- IO.lift (getitem_label df (LStr "included")) ;;
  df <- IO.lift (getitem_frame df included) ;;
  df <- IO.lift (drop_columns df [LStr "included"]) ;;
  IO.ret df.

End ProbeSet.

(** ** Sample inputs *)

(** In-memory file systems and the files used as concrete instances
    below. *)
Module Samples.

Open Scope string_scope.

Definition missing {A} : outcome A := Raise (Foreign "FileNotFoundError").

Fixpoint join (sep : ascii) (fields : list string) : string :=
  match fields with
  | [] => EmptyString
  | [f] => f
  | f :: rest => f ++ String sep (join sep rest)
  end.

(** One line per row, fields separated by [sep], LF after every line. *)
Fixpoint write_lines (sep : ascii) (rows : list (list string)) : string :=
  match rows with
  | [] => EmptyString
  | row :: rest => join sep row ++ String LF (write_lines sep rest)
  end.

Definition child (dir : IO.Path) (name : string) : IO.Path :=
  dir ++ "/" ++ name.

(** A directory [dir] holding exactly the three files of a
    feature-barcode matrix. *)
Definition matrix_dir (dir : IO.Path) (features barcodes : string)
           (m : Sparse.coo_matrix) : IO.FileSystem :=
  IO.mkFS
    (fun p => String.eqb p dir)
    (fun d name =>
       if String.eqb d dir
          && existsb (String.eqb name)
                     ["matrix.mtx.gz"; "features.tsv.gz"; "barcodes.tsv.gz"]
       then Ok (child d name) else missing)
    (fun p =>
       if String.eqb p (child dir "features.tsv.gz") then Ok features
       else if String.eqb p (child dir "barcodes.tsv.gz") then Ok barcodes
       else missing)
    (fun p => if String.eqb p (child dir "matrix.mtx.gz") then Ok m else missing)
    (fun _ => missing).

(** A file system holding one plain file. *)
Definition single_file (path : IO.Path) (content : string) : IO.FileSystem :=
  IO.mkFS (fun _ => false) (fun _ _ => missing) (fun _ => missing)
          (fun _ => missing)
          (fun p => if String.eqb p path then Ok content else missing).

Definition fresh (fs : IO.FileSystem) : IO.store := IO.mkStore fs [].

(** The 3 x 2 example: three features, two barcodes, four stored
    triples of which two fall on the same position. *)
Definition features3 : list (list string) :=
  [["G1"; "A"; "Gene Expression"];
   ["G2"; "B"; "Gene Expression"];
   ["G3"; "C"; "Gene Expression"]].

Definition barcodes2 : list string := ["AAA-1"; "BBB-1"].

Definition counts3x2 : Sparse.coo_matrix :=
  Sparse.mkCoo 3 2 [(0, 0, 5%Z); (2, 1, 7%Z); (0, 0, 1%Z); (1, 1, 2%Z)].

Definition sample_dir : IO.FileSystem :=
  matrix_dir "sample" (write_lines TAB features3)
             (write_lines TAB (map (fun b => [b]) barcodes2)) counts3x2.

(** The same directory with the first feature listed twice. *)
Definition features_dup : list (list string) :=
  [["G1"; "A"; "Gene Expression"];
   ["G2"; "B"; "Gene Expression"];
   ["G1"; "A"; "Gene Expression"]].

Definition dup_dir : IO.FileSystem :=
  matrix_dir "sample" (write_lines TAB features_dup)
             (write_lines TAB (map (fun b => [b]) barcodes2)) counts3x2.

(** A features file whose first line has a fourth field. *)
Definition features_long : list (list string) :=
  [["G1"; "A"; "Gene Expression"; "extra"];
   ["G2"; "B"; "Gene Expression"]].

Definition long_dir : IO.FileSystem :=
  matrix_dir "sample" (write_lines TAB features_long)
             (write_lines TAB (map (fun b => [b]) barcodes2)) counts3x2.

(** A features file whose second line has five fields. *)
Definition features_mixed : list (list string) :=
  [["a"; "b"; "c"]; ["d"; "e"; "f"; "g"; "h"]].

Definition mixed_dir : IO.FileSystem :=
  matrix_dir "sample" (write_lines TAB features_mixed)
             (write_lines TAB (map (fun b => [b]) barcodes2)) counts3x2.

(** A features file with a two-field line. *)
Definition features_short : list (list string) :=
  [["G1"; "A"; "Gene Expression"]; ["G2"; "B"]].

Definition short_dir : IO.FileSystem :=
  matrix_dir "sample" (write_lines TAB features_short)
             (write_lines TAB (map (fun b => [b]) barcodes2)) counts3x2.

(** A barcodes file with two fields on its first line. *)
Definition barcode_lines : list (list string) := [["X1"; "X2"]; ["Y1"]].

Definition flat_dir : IO.FileSystem :=
  matrix_dir "sample" (write_lines TAB features3)
             (write_lines TAB barcode_lines) counts3x2.

(** Probe sets. *)
Definition probe_csv : string :=
  write_lines COMMA
    [["# comment"]; ["gene_id"; "included"; "extra"];
     ["G1"; "True"; "x"]; ["G2"; "False"; "y"]].

Definition probe_csv_plain : string :=
  write_lines COMMA
    [["gene_id"; "included"; "extra"];
     ["G1"; "True"; "x"]; ["G2"; "False"; "y"]].

Definition probe_csv_header_only : string :=
  write_lines COMMA [["gene_id"; "included"; "extra"]].

Definition probe_csv_numeric : string :=
  write_lines COMMA
    [["gene_id"; "included"; "extra"]; ["G1"; "1"; "x"]; ["G2"; "0"; "y"]].

Definition probe_csv_order : string :=
  write_lines COMMA
    [["gene_id"; "included"; "extra"];
     ["G1"; "TRUE"; "x"]; ["G2"; "FALSE"; "y"]; ["G3"; "TRUE"; "z"]].

End Samples.

(** ** Vocabulary of the probe-set properties *)

(** No LF and no CR in [s]. *)
Fixpoint no_line_break (s : string) : bool :=
  match s with
  | EmptyString => true
  | String c rest => negb (Ascii.eqb c LF) && negb (Ascii.eqb c CR) && no_line_break rest
  end.

(** The two line terminators of text files: LF, or CR LF. *)
Definition line_end (crlf : bool) : string :=
  if crlf then String CR (String LF EmptyString) else String LF EmptyString.

(** The tokenizer, having read [prefix], is about to start a record: the
    next character is the first of a line that is not inside a quoted
    field.  (A prefix the tokenizer rejects qualifies: nothing after it is
    read.) *)
Definition at_record_start (prefix : string) : bool :=
  match Tokenizer.run HASH Tokenizer.init prefix with
  | Ok p => match Tokenizer.st p with
            | Tokenizer.START_RECORD => true
            | _ => false
            end
  | Raise _ => true
  end.

(** [l] without its element at position [k]. *)
Definition remove_at {A} (k : nat) (l : list A) : list A :=
  firstn k l ++ skipn (S k) l.

(** The renaming [load_prove_set_df] asks for. *)
Definition renamed (l : label) : label :=
  if label_eqb l (LStr "gene_id") then LStr "feature_id" else l.

(** The value of the [included] field of each row, the field being at
    position [k]. *)
Definition included_mask (k : nat) (rows : list (list string)) : list bool :=
  map (fun row => match ReadCsv.bool_of_token (ReadCsv.field_at k row) with
                  | Some b => b
                  | None => false
                  end) rows.

(** Number of kept rows before position [i]: where row [i] lands. *)
Definition rank (mask : list bool) (i : nat) : nat :=
  List.length (filter (fun b => b) (firstn i mask)).

(** The frame [read_csv] builds from a header and rows of the same
    width. *)
Definition parsed_frame (header : list string) (rows : list (list string))
  : DataFrame :=
  mkDF [None] (range_index (List.length rows)) (map LStr header)
       (map (fun j => ReadCsv.infer (map (ReadCsv.field_at j) rows))
            (seq 0 (List.length header))).

(** No quote character in [s]. *)
Fixpoint no_quote (s : string) : bool :=
  match s with
  | EmptyString => true
  | String c rest => negb (Ascii.eqb c QUOTE) && no_quote rest
  end.

Definition unquoted (st : Tokenizer.state) : bool :=
  match st with
  | Tokenizer.IN_QUOTED_FIELD | Tokenizer.QUOTE_IN_QUOTED_FIELD => false
  | _ => true
  end.

(** The frame expected of [load_prove_set_df]: the rows of the parsed frame
    whose [included] field (column [k]) is true, without that column, the
    remaining columns in their order, [gene_id] renamed. *)
Definition kept_frame (header : list string) (rows : list (list string)) (k : nat)
  : DataFrame :=
  let mask := included_mask k rows in
  let df0 := parsed_frame header rows in
  mkDF [None]
       (compress mask (index df0))
       (map renamed (remove_at k (columns df0)))
       (map (take_rows mask) (remove_at k (data df0))).

(** ** Plain lines *)

(** Splitting at every separator, the way [str.split(sep)] does. *)
Fixpoint split_from (sep : ascii) (cur : string) (s : string) : list string :=
  match s with
  | EmptyString => [cur]
  | String c rest =>
      if Ascii.eqb c sep then cur :: split_from sep EmptyString rest
      else split_from sep (snoc cur c) rest
  end.

Definition split (sep : ascii) (s : string) : list string :=
  split_from sep EmptyString s.

(** A line body without quote character or line break. *)
Fixpoint plain (s : string) : bool :=
  match s with
  | EmptyString => true
  | String c rest =>
      negb (Ascii.eqb c QUOTE) && negb (Ascii.eqb c LF) && negb (Ascii.eqb c CR)
      && plain rest
  end.

(** The fields of a plain line: none for an empty line, the pieces between
    separators otherwise. *)
Definition plain_row (sep : ascii) (body : string) : list string :=
  match body with
  | EmptyString => []
  | _ => split sep body
  end.

(** The text made of the given line bodies, each followed by LF. *)
Fixpoint with_newlines (bodies : list string) : string :=
  match bodies with
  | [] => EmptyString
  | body :: rest => (body ++ String LF (with_newlines rest))%string
  end.

(** Bodies short enough for [csv.field_size_limit()]. *)
Definition short_enough (body : string) : Prop :=
  (N.of_nat (String.length body) < Csv.field_limit)%N.

(** ** Vocabulary of the further properties *)

(** The three files under [dir] are found (at [pm], [pf], [pb]) and read:
    [m] is the coordinate matrix, [features] are the lines of the features
    file, the shortest of which has three fields, and [barcodes] are the
    fields of the barcodes file.  Nothing is asked of how the three fit
    together. *)
Record readable_triad (fs : IO.FileSystem) (dir : IO.Path)
       (pm pf pb : IO.Path) (m : Sparse.coo_matrix)
       (features : list (list string)) (barcodes : list string) : Prop := {
  rt_is_dir : IO.is_dir fs dir = true;
  rt_matrix_path : IO.nested fs dir "matrix.mtx.gz"%string = Ok pm;
  rt_matrix : IO.mtx fs pm = Ok m;
  rt_in_bounds : Sparse.in_bounds m = true;
  rt_features_path : IO.nested fs dir "features.tsv.gz"%string = Ok pf;
  rt_features :
    exists t, IO.gz_text fs pf = Ok t
              /\ Csv.reader_rows TAB (TextIO.readlines t) = Ok features;
  rt_three_fields : Py.min_fields features = 3;
  rt_barcodes_path : IO.nested fs dir "barcodes.tsv.gz"%string = Ok pb;
  rt_barcodes :
    exists t rows, IO.gz_text fs pb = Ok t
                   /\ Csv.reader_rows TAB (TextIO.readlines t) = Ok rows
                   /\ barcodes = List.concat rows
}.

(** The accesses of a complete run of the matrix loader, in program
    order. *)
Definition loader_trace (dir pm pf pb : IO.Path) : list IO.event :=
  [IO.IsDir dir;
   IO.Lookup dir "matrix.mtx.gz"; IO.MMRead pm;
   IO.Lookup dir "features.tsv.gz"; IO.GzipOpen pf;
   IO.Lookup dir "barcodes.tsv.gz"; IO.GzipOpen pb].

(** Lines 38 to 43 of the loader as one pure step: the frame of the matrix,
    relabelled and re-indexed. *)
Definition assemble_table (mat : Sparse.coo_matrix)
           (feature_ids gene_names feature_types barcodes : list string)
  : outcome DataFrame :=
  obind (set_columns (from_spmatrix mat) (map LStr barcodes)) (fun df1 =>
  obind (insert df1 0 (LStr "feature_id") (map VStr feature_ids)) (fun df2 =>
  obind (insert df2 1 (LStr "feature_type") (map VStr feature_types)) (fun df3 =>
  obind (insert df3 2 (LStr "gene") (map VStr gene_names)) (fun df4 =>
  set_index df4 [LStr "feature_id"; LStr "gene"; LStr "feature_type"])))).

(** A directory without any file in it. *)
Definition empty_dir (dir : IO.Path) : IO.FileSystem :=
  IO.mkFS (fun p => String.eqb p dir)
          (fun _ _ => Samples.missing) (fun _ => Samples.missing)
          (fun _ => Samples.missing) (fun _ => Samples.missing).

(** Further sample directories: a features file with a fourth field on its
    first line, three barcodes for two matrix columns, and a barcode named
    like a column the loader adds. *)
Definition features_extra : list (list string) :=
  [["G1"; "A"; "Gene Expression"; "extra"]%string;
   ["G2"; "B"; "Gene Expression"]%string;
   ["G3"; "C"; "Gene Expression"]%string].

Definition extra_dir : IO.FileSystem :=
  Samples.matrix_dir "sample"%string (Samples.write_lines TAB features_extra)
    (Samples.write_lines TAB (map (fun b => [b]) Samples.barcodes2))
    Samples.counts3x2.

Definition three_barcodes_dir : IO.FileSystem :=
  Samples.matrix_dir "sample"%string (Samples.write_lines TAB Samples.features3)
    (Samples.write_lines TAB [["AAA-1"]; ["BBB-1"]; ["CCC-1"]]%string)
    Samples.counts3x2.

Definition clash_dir : IO.FileSystem :=
  Samples.matrix_dir "sample"%string (Samples.write_lines TAB Samples.features3)
    (Samples.write_lines TAB [["AAA-1"]; ["gene"]]%string)
    Samples.counts3x2.
(** ** Vocabulary of the reader properties *)

(** No occurrence of [sep] in [s]. *)
Fixpoint no_sep (sep : ascii) (s : string) : bool :=
  match s with
  | EmptyString => true
  | String c rest => negb (Ascii.eqb c sep) && no_sep sep rest
  end.

Definition non_empty (s : string) : bool :=
  match s with EmptyString => false | _ => true end.

(** The text made of the given lines, each followed by its own terminator:
    CR LF where the flag is set, LF elsewhere. *)
Fixpoint with_line_ends (lines : list (string * bool)) : string :=
  match lines with
  | [] => EmptyString
  | l :: rest => (fst l ++ line_end (snd l) ++ with_line_ends rest)%string
  end.

(** Two file systems that differ at most in the line terminators of their
    gzip text files: every such file of the second is the file of the first
    with LF in place of each CR LF. *)
Record relined (fs fs' : IO.FileSystem) : Prop := {
  rl_is_dir : forall p, IO.is_dir fs p = IO.is_dir fs' p;
  rl_nested : forall d name, IO.nested fs d name = IO.nested fs' d name;
  rl_mtx : forall p, IO.mtx fs p = IO.mtx fs' p;
  rl_gz_text :
    forall p,
      IO.gz_text fs p = IO.gz_text fs' p
      \/ exists lines,
           Forall (fun l => no_line_break (fst l) = true) lines
           /\ IO.gz_text fs p = Ok (with_line_ends lines)
           /\ IO.gz_text fs' p = Ok (with_newlines (map fst lines))
}.

(** A computation gives the same outcome on stores over [fs] and over
    [fs'], and stays over them. *)
Definition agree {A} (fs fs' : IO.FileSystem) (m : IO.M A) : Prop :=
  forall s s',
    IO.fs s = fs -> IO.fs s' = fs' ->
    fst (m s) = fst (m s')
    /\ IO.fs (snd (m s)) = fs /\ IO.fs (snd (m s')) = fs'.

(** Sample files for the readers. *)
Definition feature_bodies : list string :=
  [Samples.join TAB ["G1"; "A"; "Gene Expression"];
   Samples.join TAB ["G2"; "B"; "Gene Expression"]]%string.

Definition feature_bodies_blank : list string :=
  [Samples.join TAB ["G1"; "A"; "Gene Expression"]; EmptyString;
   Samples.join TAB ["G2"; "B"; "Gene Expression"]]%string.

Definition barcode_bodies : list string :=
  ["AAA-1"; EmptyString; "BBB-1"]%string.

Definition plain_dir (features barcodes : list string) : IO.FileSystem :=
  Samples.matrix_dir "sample"%string (with_newlines features)
                     (with_newlines barcodes) Samples.counts3x2.

(** The sample directory written with CR LF after every line but the last
    barcode. *)
Definition crlf_dir : IO.FileSystem :=
  Samples.matrix_dir "sample"%string
    (with_line_ends (map (fun b => (b, true)) feature_bodies))
    (with_line_ends [("AAA-1", true); ("BBB-1", false)]%string)
    Samples.counts3x2.

Definition lf_dir : IO.FileSystem :=
  Samples.matrix_dir "sample"%string
    (with_newlines feature_bodies)
    (with_newlines ["AAA-1"; "BBB-1"]%string)
    Samples.counts3x2.

(** ** Vocabulary of the further probe-set properties *)

(** The tokenizer, having read [prefix], is inside a line and outside
    quotes: at the start of a field or within an unquoted one.  (A prefix
    the tokenizer rejects qualifies: nothing after it is read.) *)
Definition in_open_line (prefix : string) : bool :=
  match Tokenizer.run HASH Tokenizer.init prefix with
  | Ok p => match Tokenizer.st p with
            | Tokenizer.START_FIELD | Tokenizer.IN_FIELD => true
            | _ => false
            end
  | Raise _ => true
  end.

(** The text made of comment lines only, each with its own terminator. *)
Fixpoint comment_lines (lines : list (string * bool)) : string :=
  match lines with
  | [] => EmptyString
  | l :: rest => String HASH (fst l ++ line_end (snd l) ++ comment_lines rest)
  end.

(** The frame [load_prove_set_df] filters: the parsed one with [gene_id]
    renamed. *)
Definition probe_frame (header : list string) (rows : list (list string))
  : DataFrame :=
  rename_columns (parsed_frame header rows) (LStr "gene_id"%string)
                 (LStr "feature_id"%string).

(** Further probe-set files: a comment after the fields of a row, no
    [included] column, comments only, and a missing [included] field. *)
Definition probe_csv_inline : string :=
  Samples.write_lines COMMA
    [["gene_id"; "included"; "extra"];
     ["G1"; "True"; "x# checked"]; ["G2"; "False"; "y"]]%string.

Definition probe_csv_no_included : string :=
  Samples.write_lines COMMA
    [["gene_id"; "extra"]; ["G1"; "x"]; ["G2"; "y"]]%string.

Definition probe_csv_comments : string :=
  comment_lines [(" probe set"%string, false); (" version 1"%string, true)].

Definition probe_csv_missing : string :=
  Samples.write_lines COMMA
    [["gene_id"; "included"]; ["G1"; "True"]; ["G2"; EmptyString];
     ["G3"; "False"]]%string.

Definition probe_fs (content : string) : IO.store :=
  Samples.fresh (Samples.single_file "probes.csv"%string content).

(** An error raised by one of the collaborators of the matrix loader: the
    file lookup under [dir], the matrix parser or the gzip text layer. *)
Definition collaborator_error (fs : IO.FileSystem) (dir : IO.Path) (e : exn) : Prop :=
  (exists name, IO.nested fs dir name = Raise e)
  \/ (exists p, IO.mtx fs p = Raise e)
  \/ (exists p, IO.gz_text fs p = Raise e).


(** * Properties *)

Open Scope string_scope.
Open Scope list_scope.
Open Scope nat_scope.


(** ** Running the effect monad *)

Lemma bind_ok {A B} (m : IO.M A) (k : A -> IO.M B) (s s' : IO.store) (a : A) :
  m s = (Ok a, s') -> IO.bind m k s = k a s'.
Proof. intros H. unfold IO.bind. now rewrite H. Qed.

(** ** [zip] and [sum] *)

Section ZipFacts.
Variable A : Type.
Variable d : A.

Lemma heads_some (rows : list (list A)) :
  Forall (fun row => 0 < List.length row) rows ->
  Py.heads rows = Some (Py.column_at d 0 rows).
Proof.
  induction 1 as [|row rows Hrow _ IH]; cbn; [reflexivity|].
  destruct row as [|x row]; cbn in *; [lia|].
  now rewrite IH.
Qed.

Lemma heads_none (rows : list (list A)) :
  Exists (fun row => List.length row = 0) rows -> Py.heads rows = None.
Proof.
  induction 1 as [row rows Hrow|row rows _ IH]; cbn.
  - destruct row; [reflexivity|discriminate].
  - destruct row; [reflexivity|]. now rewrite IH.
Qed.

Lemma fold_min_pos (n : nat) (rows : list (list A)) :
  Forall (fun row => 0 < List.length row) rows ->
  fold_right Nat.min (S n) (map (@List.length A) rows)
  = S (fold_right Nat.min n (map (@List.length A) (map (@tl A) rows))).
Proof.
  induction 1 as [|row rows Hrow _ IH]; cbn; [reflexivity|].
  rewrite IH. destruct row; cbn in *; [lia|reflexivity].
Qed.

Lemma fold_min_zero (n : nat) (rows : list (list A)) :
  Exists (fun row => List.length row = 0) rows ->
  fold_right Nat.min n (map (@List.length A) rows) = 0.
Proof.
  induction 1 as [row rows Hrow|row rows _ IH]; cbn.
  - now rewrite Hrow.
  - rewrite IH. apply Nat.min_0_r.
Qed.

Lemma column_at_tl (j : nat) (rows : list (list A)) :
  Py.column_at d j (map (@tl A) rows) = Py.column_at d (S j) rows.
Proof.
  unfold Py.column_at. rewrite map_map. apply map_ext.
  intros [|x row]; cbn; [now destruct j|reflexivity].
Qed.

Lemma all_or_some_empty (rows : list (list A)) :
  Forall (fun row => 0 < List.length row) rows
  \/ Exists (fun row => List.length row = 0) rows.
Proof.
  induction rows as [|row rows [IH|IH]].
  - left. constructor.
  - destruct row as [|x row].
    + right. now constructor.
    + left. constructor; [cbn; lia|assumption].
  - right. now constructor 2.
Qed.

(** [zip( *rows )] is the list of the first [Py.min_fields rows] columns. *)
Lemma zip_from_columns (first : list A) (others : list (list A)) :
  Py.zip_from first others
  = map (fun j => Py.column_at d j (first :: others))
        (seq 0 (Py.min_fields (first :: others))).
Proof.
  revert others. induction first as [|x first IH]; intros others; cbn.
  - replace (fold_right Nat.min 0 (map (@List.length A) others)) with 0; [reflexivity|].
    induction others; cbn; [reflexivity|]. now rewrite <- IHothers, Nat.min_0_r.
  - destruct (all_or_some_empty others) as [Hpos|Hemp].
    + rewrite (heads_some Hpos), (fold_min_pos _ Hpos). cbn.
      f_equal. rewrite IH. cbn [Py.min_fields].
      rewrite <- (seq_shift _ 0), (map_map S).
      apply map_ext. intros j.
      change (Py.column_at d j (first :: map (@tl A) others))
        with (nth j first d :: Py.column_at d j (map (@tl A) others)).
      now rewrite column_at_tl.
    + now rewrite (heads_none Hemp), (fold_min_zero _ Hemp).
Qed.

Lemma zip_star_columns (rows : list (list A)) :
  Py.zip_star rows = map (fun j => Py.column_at d j rows) (seq 0 (Py.min_fields rows)).
Proof.
  destruct rows as [|first others]; [reflexivity|]. apply zip_from_columns.
Qed.

Lemma zip_star_length (rows : list (list A)) :
  List.length (Py.zip_star rows) = Py.min_fields rows.
Proof. now rewrite zip_star_columns, length_map, length_seq. Qed.

(** Unpacking into three names succeeds exactly when there is a row and
    the shortest row has three elements. *)
Lemma unpack3_zip_star (rows : list (list A)) :
  Py.min_fields rows = 3 ->
  Py.unpack3 (Py.zip_star rows)
  = Ok (Py.column_at d 0 rows, Py.column_at d 1 rows, Py.column_at d 2 rows).
Proof. intros H. now rewrite zip_star_columns, H. Qed.

Lemma unpack3_ok_inv (items : list (list A)) (r : list A * list A * list A) :
  Py.unpack3 items = Ok r -> List.length items = 3.
Proof.
  destruct items as [|a [|b [|c [|e items]]]]; cbn; intros H; now inversion H.
Qed.

Lemma unpack3_length (items : list (list A)) :
  List.length items = 3 -> exists r, Py.unpack3 items = Ok r.
Proof.
  destruct items as [|a [|b [|c [|e items]]]]; cbn; intros H; try discriminate.
  now eexists.
Qed.

Lemma sum_lists_from (rows : list (list A)) (acc : list A) :
  fold_left (fun acc row => acc ++ row) rows acc = acc ++ List.concat rows.
Proof.
  revert acc. induction rows as [|row rows IH]; intros acc; cbn.
  - now rewrite app_nil_r.
  - now rewrite IH, app_assoc.
Qed.

(** [sum(rows, [])] is the row-major flattening. *)
Lemma sum_lists_concat (rows : list (list A)) :
  Py.sum_lists rows = List.concat rows.
Proof. unfold Py.sum_lists. now rewrite sum_lists_from. Qed.

End ZipFacts.

Section ZipBounds.
Variable A : Type.

Lemma fold_min_le_init (n : nat) (ls : list nat) : fold_right Nat.min n ls <= n.
Proof. induction ls; cbn; lia. Qed.

Lemma fold_min_le_in (n k : nat) (ls : list nat) :
  In k ls -> fold_right Nat.min n ls <= k.
Proof.
  induction ls as [|x ls IH]; cbn; [tauto|].
  intros [->|H]; [lia|]. specialize (IH H). lia.
Qed.

Lemma min_fields_le (rows : list (list A)) (row : list A) :
  In row rows -> Py.min_fields rows <= List.length row.
Proof.
  destruct rows as [|first others]; cbn; [tauto|].
  intros [->|H]; [apply fold_min_le_init|].
  apply fold_min_le_in. now apply in_map.
Qed.

Lemma fold_min_const (n : nat) (ls : list nat) :
  Forall (fun k => k = n) ls -> fold_right Nat.min n ls = n.
Proof. induction 1; cbn; lia. Qed.

Lemma min_fields_uniform (n : nat) (rows : list (list A)) :
  rows <> [] -> Forall (fun row => List.length row = n) rows ->
  Py.min_fields rows = n.
Proof.
  destruct rows as [|first others]; [congruence|]. intros _ H.
  inversion H as [|? ? Hfirst Hothers]; subst. cbn.
  apply fold_min_const. rewrite Forall_map.
  eapply Forall_impl; [|exact Hothers]. cbn. congruence.
Qed.

Lemma min_fields_short (n : nat) (rows : list (list A)) :
  Exists (fun row => List.length row < n) rows -> Py.min_fields rows < n.
Proof.
  intros H. apply Exists_exists in H as (row & Hin & Hlt).
  pose proof (min_fields_le _ _ Hin). lia.
Qed.

Lemma firstn3_nth (d : A) (row : list A) :
  3 <= List.length row -> firstn 3 row = [nth 0 row d; nth 1 row d; nth 2 row d].
Proof.
  destruct row as [|a [|b [|c row]]]; cbn; intros H; try lia. reflexivity.
Qed.

Lemma nth_error_column_at (d : A) (j i : nat) (rows : list (list A)) (row : list A) :
  nth_error rows i = Some row ->
  nth_error (Py.column_at d j rows) i = Some (nth j row d).
Proof. intros H. unfold Py.column_at. now rewrite nth_error_map, H. Qed.

End ZipBounds.

(** ** The readers *)

Ltac run_io :=
  unfold IO.bind, IO.access, IO.lift, IO.ret, IO.raise; cbn [IO.fs IO.log fst snd].

Lemma load_features_run (s : IO.store) (dir p : IO.Path) (t : string)
      (rows : list (list string)) :
  IO.nested (IO.fs s) dir "features.tsv.gz" = Ok p ->
  IO.gz_text (IO.fs s) p = Ok t ->
  Csv.reader_rows TAB (TextIO.readlines t) = Ok rows ->
  _load_features dir s
  = (Py.unpack3 (Py.zip_star rows),
     IO.mkStore (IO.fs s)
                ((IO.log s ++ [IO.Lookup dir "features.tsv.gz"]) ++ [IO.GzipOpen p])).
Proof.
  intros Hn Hg Hc. unfold _load_features, get_nested_filepath, gzip_open_rt.
  run_io. rewrite Hn. cbn. rewrite Hg. cbn. rewrite Hc.
  destruct (Py.unpack3 (Py.zip_star rows)) as [[[a b] c]|e]; reflexivity.
Qed.

Lemma load_barcodes_run (s : IO.store) (dir p : IO.Path) (t : string)
      (rows : list (list string)) :
  IO.nested (IO.fs s) dir "barcodes.tsv.gz" = Ok p ->
  IO.gz_text (IO.fs s) p = Ok t ->
  Csv.reader_rows TAB (TextIO.readlines t) = Ok rows ->
  _load_barcodes dir s
  = (Ok (Py.sum_lists rows),
     IO.mkStore (IO.fs s)
                ((IO.log s ++ [IO.Lookup dir "barcodes.tsv.gz"]) ++ [IO.GzipOpen p])).
Proof.
  intros Hn Hg Hc. unfold _load_barcodes, get_nested_filepath, gzip_open_rt.
  run_io. rewrite Hn. cbn. rewrite Hg. cbn. now rewrite Hc.
Qed.

Lemma load_mat_run (s : IO.store) (dir p : IO.Path) (m : Sparse.coo_matrix) :
  IO.nested (IO.fs s) dir "matrix.mtx.gz" = Ok p ->
  IO.mtx (IO.fs s) p = Ok m ->
  Sparse.in_bounds m = true ->
  _load_mat dir s
  = (Ok m,
     IO.mkStore (IO.fs s)
                ((IO.log s ++ [IO.Lookup dir "matrix.mtx.gz"]) ++ [IO.MMRead p])).
Proof.
  intros Hn Hm Hb. unfold _load_mat, get_nested_filepath, mmread.
  run_io. rewrite Hn. cbn. rewrite Hm. cbn. now rewrite Hb.
Qed.

(** ** Directory check *)

(** C2. A path that is not a directory makes
    [load_feature_barcode_matrix_df] raise [ValueError]; the only access
    recorded is the [is_dir] test, so no file has been looked up or read. *)
Theorem not_a_directory_rejected (s : IO.store) (dir : IO.Path) :
  IO.is_dir (IO.fs s) dir = false ->
  load_feature_barcode_matrix_df dir s
  = (Raise ValueError, IO.mkStore (IO.fs s) (IO.log s ++ [IO.IsDir dir])).
Proof.
  intros H. unfold load_feature_barcode_matrix_df, path_is_dir.
  run_io. now rewrite H.
Qed.

Lemma not_a_directory_rejected_witness :
  IO.is_dir Samples.sample_dir "sample/matrix.mtx.gz" = false
  /\ load_feature_barcode_matrix_df "sample/matrix.mtx.gz"
       (Samples.fresh Samples.sample_dir)
     = (Raise ValueError,
        IO.mkStore Samples.sample_dir [IO.IsDir "sample/matrix.mtx.gz"]).
Proof.
  split; [reflexivity|].
  apply (not_a_directory_rejected (Samples.fresh Samples.sample_dir)).
  reflexivity.
Defined.

(** ** Barcodes *)

(** C3. The barcode reader returns one list: the fields of every line the
    csv reader yields, line after line and field after field; its length is
    the total number of fields, so a line with several fields contributes
    each of them. *)
Theorem barcodes_flattened (s : IO.store) (dir p : IO.Path) (t : string)
        (rows : list (list string)) :
  IO.nested (IO.fs s) dir "barcodes.tsv.gz" = Ok p ->
  IO.gz_text (IO.fs s) p = Ok t ->
  Csv.reader_rows TAB (TextIO.readlines t) = Ok rows ->
  fst (_load_barcodes dir s) = Ok (List.concat rows)
  /\ List.length (List.concat rows) = list_sum (map (@List.length string) rows).
Proof.
  intros Hn Hg Hc. rewrite (load_barcodes_run _ _ Hn Hg Hc). cbn [fst].
  rewrite sum_lists_concat. split; [reflexivity|].
  induction rows as [|row rows' IH]; cbn; [reflexivity|].
  rewrite length_app. f_equal.
  clear - rows'. induction rows'; cbn; [reflexivity|]. rewrite length_app. now f_equal.
Qed.

Lemma barcodes_flattened_witness :
  Csv.reader_rows TAB (TextIO.readlines (Samples.write_lines TAB Samples.barcode_lines))
  = Ok [["X1"; "X2"]; ["Y1"]]
  /\ fst (_load_barcodes "sample" (Samples.fresh Samples.flat_dir))
     = Ok ["X1"; "X2"; "Y1"].
Proof.
  split; [reflexivity|].
  apply (barcodes_flattened (Samples.fresh Samples.flat_dir) "sample"
           (p := "sample/barcodes.tsv.gz")
           (t := Samples.write_lines TAB Samples.barcode_lines)
           (rows := Samples.barcode_lines)); reflexivity.
Defined.

(** ** Features *)

Lemma unpack3_bad {A} (items : list (list A)) :
  List.length items <> 3 -> Py.unpack3 items = Raise ValueError.
Proof.
  destruct items as [|a [|b [|c [|e items]]]]; cbn; intros H; try reflexivity.
  congruence.
Qed.

(** C4, as the code has it.  [zip] stops at the shortest line, so the
    feature reader fails with [ValueError] exactly when the shortest line
    does not have three fields (no line at all counts as zero): always when
    some line has fewer than three fields, and never because of a longer
    line alone. *)
Theorem features_reader_failure (s : IO.store) (dir p : IO.Path) (t : string)
        (rows : list (list string)) :
  IO.nested (IO.fs s) dir "features.tsv.gz" = Ok p ->
  IO.gz_text (IO.fs s) p = Ok t ->
  Csv.reader_rows TAB (TextIO.readlines t) = Ok rows ->
  (Py.min_fields rows = 3 -> exists r, fst (_load_features dir s) = Ok r)
  /\ (Py.min_fields rows <> 3 -> fst (_load_features dir s) = Raise ValueError)
  /\ (Exists (fun row => List.length row < 3) rows ->
      fst (_load_features dir s) = Raise ValueError)
  /\ (rows = [] -> fst (_load_features dir s) = Raise ValueError).
Proof.
  intros Hn Hg Hc. rewrite (load_features_run _ _ Hn Hg Hc). cbn [fst].
  assert (Hbad : Py.min_fields rows <> 3 ->
                 Py.unpack3 (Py.zip_star rows) = Raise ValueError).
  { intros H. apply unpack3_bad. now rewrite (zip_star_length EmptyString). }
  repeat split.
  - intros H. apply unpack3_length. now rewrite (zip_star_length EmptyString).
  - exact Hbad.
  - intros H. apply Hbad. apply (min_fields_short (n := 3)) in H. lia.
  - intros ->. reflexivity.
Qed.

Lemma features_reader_failure_witness :
  Csv.reader_rows TAB (TextIO.readlines (Samples.write_lines TAB Samples.features_short))
  = Ok Samples.features_short
  /\ fst (_load_features "sample" (Samples.fresh Samples.short_dir)) = Raise ValueError.
Proof.
  split; [reflexivity|].
  refine (proj1 (proj2 (proj2
    (features_reader_failure (Samples.fresh Samples.short_dir) "sample"
       (p := "sample/features.tsv.gz")
       (t := Samples.write_lines TAB Samples.features_short)
       (rows := Samples.features_short) _ _ _))) _); try reflexivity.
  apply Exists_cons_tl, Exists_cons_hd. cbn. lia.
Defined.

(** C4 fails as stated: the first line of this features file has four
    fields, and the reader returns the three sequences all the same. *)
Lemma features_reader_accepts_long_line :
  Csv.reader_rows TAB (TextIO.readlines (Samples.write_lines TAB Samples.features_long))
  = Ok [["G1"; "A"; "Gene Expression"; "extra"]; ["G2"; "B"; "Gene Expression"]]
  /\ fst (_load_features "sample" (Samples.fresh Samples.long_dir))
     = Ok (["G1"; "G2"], ["A"; "B"], ["Gene Expression"; "Gene Expression"]).
Proof. split; reflexivity. Qed.

(** C5, as the code has it.  When the feature reader returns, its three
    sequences have one element per line, and their [i]-th elements are the
    first three fields of the [i]-th line. *)
Theorem features_aligned (s : IO.store) (dir p : IO.Path) (t : string)
        (rows : list (list string)) (ids genes types : list string) :
  IO.nested (IO.fs s) dir "features.tsv.gz" = Ok p ->
  IO.gz_text (IO.fs s) p = Ok t ->
  Csv.reader_rows TAB (TextIO.readlines t) = Ok rows ->
  fst (_load_features dir s) = Ok (ids, genes, types) ->
  List.length ids = List.length rows
  /\ List.length genes = List.length rows
  /\ List.length types = List.length rows
  /\ forall i row, nth_error rows i = Some row ->
       exists a b c,
         nth_error ids i = Some a /\ nth_error genes i = Some b
         /\ nth_error types i = Some c /\ firstn 3 row = [a; b; c].
Proof.
  intros Hn Hg Hc. rewrite (load_features_run _ _ Hn Hg Hc). cbn [fst].
  intros Hok.
  assert (Hmin : Py.min_fields rows = 3).
  { rewrite <- (zip_star_length EmptyString). exact (unpack3_ok_inv _ Hok). }
  rewrite (unpack3_zip_star EmptyString _ Hmin) in Hok.
  inversion Hok; subst; clear Hok.
  unfold Py.column_at at 1 2 3. rewrite !length_map.
  repeat split.
  intros i row Hrow.
  exists (nth 0 row EmptyString), (nth 1 row EmptyString), (nth 2 row EmptyString).
  rewrite !(nth_error_column_at EmptyString _ _ _ Hrow).
  repeat split. apply firstn3_nth.
  rewrite <- Hmin. apply min_fields_le. eapply nth_error_In, Hrow.
Qed.

Lemma features_aligned_witness :
  fst (_load_features "sample" (Samples.fresh Samples.sample_dir))
  = Ok (["G1"; "G2"; "G3"], ["A"; "B"; "C"],
        ["Gene Expression"; "Gene Expression"; "Gene Expression"])
  /\ exists a b c,
       nth_error ["G1"; "G2"; "G3"] 1 = Some a /\ nth_error ["A"; "B"; "C"] 1 = Some b
       /\ nth_error ["Gene Expression"; "Gene Expression"; "Gene Expression"] 1 = Some c
       /\ firstn 3 ["G2"; "B"; "Gene Expression"] = [a; b; c].
Proof.
  split; [reflexivity|].
  refine (proj2 (proj2 (proj2
    (features_aligned (Samples.fresh Samples.sample_dir) "sample"
       (p := "sample/features.tsv.gz")
       (t := Samples.write_lines TAB Samples.features3)
       (rows := Samples.features3)
       (ids := ["G1"; "G2"; "G3"]) (genes := ["A"; "B"; "C"])
       (types := ["Gene Expression"; "Gene Expression"; "Gene Expression"])
       _ _ _ _))) 1 ["G2"; "B"; "Gene Expression"] _); reflexivity.
Defined.

(** C5 fails as stated: the reader succeeds on this file, whose second
    line has five fields, and the elements at index 1 are only the first
    three of them. *)
Lemma features_line_not_three_fields :
  Csv.reader_rows TAB (TextIO.readlines (Samples.write_lines TAB Samples.features_mixed))
  = Ok [["a"; "b"; "c"]; ["d"; "e"; "f"; "g"; "h"]]
  /\ fst (_load_features "sample" (Samples.fresh Samples.mixed_dir))
     = Ok (["a"; "d"], ["b"; "e"], ["c"; "f"])
  /\ ["d"; "e"; "f"; "g"; "h"] <> ["d"; "e"; "f"].
Proof. repeat split; try reflexivity. discriminate. Qed.

(** ** Sparse and dense forms agree *)

Lemma sp_get_absent (col : Sparse.sparse_column) (r : nat) :
  Forall (fun e => r < fst e) col -> Sparse.sp_get col r = 0%Z.
Proof.
  induction 1 as [|[r' v] col Hlt _ IH]; cbn in *; [reflexivity|].
  destruct (Nat.eqb_spec r r'); [lia|exact IH].
Qed.

Lemma insert_sum_above (r0 r : nat) (v : Z) (col : Sparse.sparse_column) :
  r0 < r -> Forall (fun e => r0 < fst e) col ->
  Forall (fun e => r0 < fst e) (Sparse.insert_sum r v col).
Proof.
  intros Hr. induction 1 as [|[r' v'] col Hlt Hall IH]; cbn [Sparse.insert_sum].
  - constructor; [exact Hr|constructor].
  - destruct (r <? r'); [|destruct (r =? r')].
    + constructor; [exact Hr|]. constructor; assumption.
    + constructor; assumption.
    + constructor; assumption.
Qed.

Lemma insert_sum_sorted (r : nat) (v : Z) (col : Sparse.sparse_column) :
  StronglySorted Sparse.row_lt col ->
  StronglySorted Sparse.row_lt (Sparse.insert_sum r v col).
Proof.
  induction 1 as [|[r' v'] col Hs IH Hall]; cbn [Sparse.insert_sum].
  - repeat constructor.
  - destruct (Nat.ltb_spec r r') as [Hlt|Hge].
    + constructor; [now constructor|]. constructor; [exact Hlt|].
      eapply Forall_impl; [|exact Hall]. unfold Sparse.row_lt. cbn. lia.
    + destruct (Nat.eqb_spec r r') as [->|Hne].
      * now constructor.
      * constructor; [exact IH|].
        apply (insert_sum_above (r0 := r')); [lia|exact Hall].
Qed.

Lemma sp_get_insert_sum (r r0 : nat) (v : Z) (col : Sparse.sparse_column) :
  StronglySorted Sparse.row_lt col ->
  Sparse.sp_get (Sparse.insert_sum r v col) r0
  = (Sparse.sp_get col r0 + (if (r0 =? r)%nat then v else 0))%Z.
Proof.
  induction 1 as [|[r' v'] col Hs IH Hall]; cbn [Sparse.insert_sum Sparse.sp_get].
  - destruct (r0 =? r); lia.
  - destruct (Nat.ltb_spec r r') as [Hlt|Hge]; cbn [Sparse.sp_get].
    + destruct (Nat.eqb_spec r0 r) as [->|Hne].
      * destruct (Nat.eqb_spec r r'); [lia|].
        rewrite sp_get_absent; [lia|].
        eapply Forall_impl; [|exact Hall]. unfold Sparse.row_lt. cbn. lia.
      * lia.
    + destruct (Nat.eqb_spec r r') as [->|Hne]; cbn [Sparse.sp_get].
      * destruct (r0 =? r'); lia.
      * destruct (Nat.eqb_spec r0 r') as [->|Hne'].
        -- destruct (Nat.eqb_spec r' r); [lia|]. lia.
        -- exact IH.
Qed.

Lemma column_of_from (es : list (nat * nat * Z)) (j r : nat)
      (col : Sparse.sparse_column) :
  StronglySorted Sparse.row_lt col ->
  Sparse.sp_get
    (fold_left (fun col e => match e with
                             | (r', c, v) =>
                                 if c =? j then Sparse.insert_sum r' v col else col
                             end) es col) r
  = (Sparse.sp_get col r + Sparse.stored_sum es r j)%Z.
Proof.
  revert col. induction es as [|[[r' c] v] es IH]; intros col Hs; cbn.
  - lia.
  - destruct (Nat.eqb_spec c j) as [->|Hne].
    + rewrite IH by now apply insert_sum_sorted.
      rewrite sp_get_insert_sum by assumption.
      rewrite (Nat.eqb_sym r' r), andb_true_r. lia.
    + rewrite IH by assumption. rewrite andb_false_r. lia.
Qed.

(** A stored column read with fill value 0 holds the sum of the triples
    stored at each position. *)
Lemma column_of_get (es : list (nat * nat * Z)) (j r : nat) :
  Sparse.sp_get (Sparse.column_of es j) r = Sparse.stored_sum es r j.
Proof.
  unfold Sparse.column_of. rewrite column_of_from by constructor. cbn. lia.
Qed.

Lemma add_at_length (row : list Z) (i : nat) (v : Z) :
  List.length (Sparse.add_at row i v) = List.length row.
Proof.
  revert i. induction row as [|x row IH]; intros [|i]; cbn; auto.
Qed.

Lemma add_at_nth (row : list Z) (i c : nat) (v : Z) :
  c < List.length row ->
  nth c (Sparse.add_at row i v) 0%Z
  = (nth c row 0 + (if (i =? c)%nat then v else 0))%Z.
Proof.
  revert i c. induction row as [|x row IH]; intros i c Hc; cbn in Hc; [lia|].
  destruct i as [|i], c as [|c]; cbn; try lia.
  apply IH. lia.
Qed.

Lemma add_at2_length (B : list (list Z)) (r c : nat) (v : Z) :
  List.length (Sparse.add_at2 B r c v) = List.length B.
Proof.
  revert r. induction B as [|row B IH]; intros [|r]; cbn; auto.
Qed.

Lemma add_at2_row_length (B : list (list Z)) (r' c' r : nat) (v : Z) :
  List.length (nth r (Sparse.add_at2 B r' c' v) []) = List.length (nth r B []).
Proof.
  revert r' r. induction B as [|row B IH]; intros r' r; cbn.
  - now destruct r'.
  - destruct r' as [|r'], r as [|r]; cbn; auto using add_at_length.
Qed.

Lemma add_at2_nth (B : list (list Z)) (r' c' r c : nat) (v : Z) :
  r < List.length B -> c < List.length (nth r B []) ->
  nth c (nth r (Sparse.add_at2 B r' c' v) []) 0%Z
  = (nth c (nth r B []) 0 + (if (r' =? r)%nat && (c' =? c)%nat then v else 0))%Z.
Proof.
  revert r' r. induction B as [|row B IH]; intros r' r Hr Hc; cbn in Hr; [lia|].
  destruct r' as [|r'], r as [|r]; cbn in *; try lia.
  - now apply add_at_nth.
  - apply IH; [lia|exact Hc].
Qed.

Lemma toarray_from (es : list (nat * nat * Z)) (B : list (list Z)) (r c : nat) :
  r < List.length B -> c < List.length (nth r B []) ->
  nth c (nth r (fold_left (fun B e => match e with
                                      | (r', c', v) => Sparse.add_at2 B r' c' v
                                      end) es B) []) 0%Z
  = (nth c (nth r B []) 0 + Sparse.stored_sum es r c)%Z.
Proof.
  revert B. induction es as [|[[r' c'] v] es IH]; intros B Hr Hc; cbn.
  - lia.
  - rewrite IH.
    + rewrite add_at2_nth by assumption. lia.
    + now rewrite add_at2_length.
    + now rewrite add_at2_row_length.
Qed.

Lemma zeros_nth (n k r c : nat) :
  r < n -> List.length (nth r (Sparse.zeros n k) []) = k
           /\ nth c (nth r (Sparse.zeros n k) []) 0%Z = 0%Z.
Proof.
  intros Hr. unfold Sparse.zeros.
  rewrite (nth_repeat_lt (repeat 0%Z k) [] Hr).
  split; [apply repeat_length|]. apply nth_repeat.
Qed.

(** The dense form holds the same sums. *)
Lemma dense_at_sum (m : Sparse.coo_matrix) (r c : nat) :
  r < Sparse.nrows m -> c < Sparse.ncols m ->
  Sparse.dense_at m r c = Sparse.stored_sum (Sparse.entries m) r c.
Proof.
  intros Hr Hc. unfold Sparse.dense_at, Sparse.toarray.
  destruct (zeros_nth (Sparse.ncols m) c Hr) as [Hlen Hz].
  rewrite toarray_from.
  - rewrite Hz. lia.
  - unfold Sparse.zeros. now rewrite repeat_length.
  - now rewrite Hlen.
Qed.

(** ** Assembling the table *)

Lemma label_in_LStr (x : string) (bs : list string) :
  label_in (LStr x) (map LStr bs) = existsb (String.eqb x) bs.
Proof. induction bs as [|b bs IH]; cbn; [reflexivity|]. now rewrite <- IH. Qed.

Lemma existsb_eqb_absent (x : string) (bs : list string) :
  ~ In x bs -> existsb (String.eqb x) bs = false.
Proof.
  induction bs as [|b bs IH]; cbn; [reflexivity|]. intros H.
  destruct (String.eqb_spec x b) as [->|Hne]; [tauto|]. apply IH. tauto.
Qed.

Lemma no_clash_absent (barcodes : list string) (x : string) :
  (forall b, In b barcodes -> ~ In b reserved_labels) ->
  In x reserved_labels ->
  label_in (LStr x) (map LStr barcodes) = false.
Proof.
  intros H Hx. rewrite label_in_LStr. apply existsb_eqb_absent.
  intros Hin. exact (H x Hin Hx).
Qed.

Lemma select_absent (l : label) (labels : list label) (cols : list column) :
  label_in l labels = false -> select l labels cols = [].
Proof.
  revert cols. induction labels as [|l' labels IH]; intros cols; cbn; [reflexivity|].
  destruct cols as [|c cols]; [reflexivity|].
  destruct (label_eqb l l'); cbn; [discriminate|]. apply IH.
Qed.

Lemma without_absent (keys labels : list label) (cols : list column) :
  List.length labels = List.length cols ->
  Forall (fun l => label_in l keys = false) labels ->
  without keys labels cols = (labels, cols).
Proof.
  revert cols. induction labels as [|l labels IH]; intros [|c cols] Hlen Hall;
    cbn in *; try reflexivity; try discriminate.
  inversion Hall as [|? ? Hl Hrest]; subst.
  rewrite IH by (auto; lia). now rewrite Hl.
Qed.

Lemma reserved_not_barcode (barcodes : list string) :
  (forall b, In b barcodes -> ~ In b reserved_labels) ->
  Forall (fun l => label_in l [LStr "feature_id"; LStr "gene"; LStr "feature_type"] = false)
         (map LStr barcodes).
Proof.
  intros H. rewrite Forall_map, Forall_forall. intros b Hb. specialize (H b Hb).
  cbn in *. rewrite !orb_false_r.
  destruct (String.eqb_spec b "feature_id") as [->|_]; [tauto|].
  destruct (String.eqb_spec b "gene") as [->|_]; [tauto|].
  destruct (String.eqb_spec b "feature_type") as [->|_]; [tauto|].
  reflexivity.
Qed.

(** Three aligned columns of three-field rows zip back into the rows. *)
Lemma zip_star_three {A B} (d : A) (f : A -> B) (rows : list (list A)) :
  Forall (fun row => List.length row = 3) rows ->
  Py.zip_star [map f (Py.column_at d 0 rows); map f (Py.column_at d 1 rows);
               map f (Py.column_at d 2 rows)]
  = map (map f) rows.
Proof.
  induction 1 as [|row rows Hrow _ IH]; [reflexivity|].
  destruct row as [|a [|b [|c [|e row]]]]; try discriminate.
  cbn in *. now rewrite <- IH.
Qed.

Lemma range_index_length (n : nat) : List.length (range_index n) = n.
Proof. unfold range_index. now rewrite length_map, length_seq. Qed.

Lemma range_labels_length (n : nat) : List.length (range_labels n) = n.
Proof. unfold range_labels. now rewrite length_map, length_seq. Qed.

Lemma set_columns_ok (df : DataFrame) (labels : list label) :
  List.length labels = List.length (columns df) ->
  set_columns df labels = Ok (mkDF (index_names df) (index df) labels (data df)).
Proof. intros H. unfold set_columns. now rewrite H, Nat.eqb_refl. Qed.

Lemma insert_ok (df : DataFrame) (loc : nat) (name : label) (vals : list value) :
  label_in name (columns df) = false ->
  List.length vals = n_rows df ->
  loc <= List.length (columns df) ->
  insert df loc name vals
  = Ok (mkDF (index_names df) (index df)
             (insert_at loc name (columns df))
             (insert_at loc (Dense DObject vals) (data df))).
Proof.
  intros Hl Hv Hloc. unfold insert. rewrite Hl, Hv, Nat.eqb_refl. cbn [negb].
  destruct (Nat.ltb_spec (List.length (columns df)) loc); [lia|reflexivity].
Qed.

(** The pandas steps of the loader on aligned inputs. *)
Lemma assemble (m : Sparse.coo_matrix) (features : list (list string))
      (barcodes : list string) :
  Forall (fun row => List.length row = 3) features ->
  List.length features = Sparse.nrows m ->
  List.length barcodes = Sparse.ncols m ->
  (forall b, In b barcodes -> ~ In b reserved_labels) ->
  obind (set_columns (from_spmatrix m) (map LStr barcodes)) (fun df1 =>
  obind (insert df1 0 (LStr "feature_id")
                (map VStr (Py.column_at EmptyString 0 features))) (fun df2 =>
  obind (insert df2 1 (LStr "feature_type")
                (map VStr (Py.column_at EmptyString 2 features))) (fun df3 =>
  obind (insert df3 2 (LStr "gene")
                (map VStr (Py.column_at EmptyString 1 features))) (fun df4 =>
  set_index df4 [LStr "feature_id"; LStr "gene"; LStr "feature_type"]))))
  = Ok (expected_table m features barcodes).
Proof.
  intros H3 Hrows Hcols Hclash.
  assert (Hid := @no_clash_absent barcodes "feature_id" Hclash (or_introl eq_refl)).
  assert (Hty := @no_clash_absent barcodes "feature_type" Hclash
                   (or_intror (or_introl eq_refl))).
  assert (Hge := @no_clash_absent barcodes "gene" Hclash
                   (or_intror (or_intror (or_introl eq_refl)))).
  assert (Hcol : forall j, List.length (map VStr (Py.column_at EmptyString j features))
                           = List.length (range_index (Sparse.nrows m))).
  { intros j. unfold Py.column_at.
    now rewrite !length_map, range_index_length. }
  rewrite set_columns_ok
    by (unfold from_spmatrix; cbn [columns Sparse.tocsc Sparse.csc_ncols];
        now rewrite length_map, range_labels_length).
  cbn [obind]. rewrite insert_ok; cbn [columns index data index_names n_rows];
    [|exact Hid|apply Hcol|lia].
  cbn [obind insert_at firstn skipn app].
  rewrite insert_ok; cbn [columns index data index_names n_rows];
    [|cbn; exact Hty|apply Hcol|cbn; lia].
  cbn [obind insert_at firstn skipn app].
  rewrite insert_ok; cbn [columns index data index_names n_rows];
    [|cbn; exact Hge|apply Hcol|cbn; lia].
  cbn [obind insert_at firstn skipn app].
  unfold set_index, getitem_label.
  cbn [columns index index_names data].
  cbn [existsb label_in label_eqb String.eqb Ascii.eqb Bool.eqb orb negb].
  cbn [mapM select label_eqb String.eqb Ascii.eqb Bool.eqb obind].
  rewrite !select_absent by assumption.
  cbn [obind without label_in existsb label_eqb String.eqb Ascii.eqb Bool.eqb
       orb negb].
  rewrite without_absent.
  - cbn [map values_of]. unfold expected_table.
    now rewrite (zip_star_three EmptyString VStr H3).
  - unfold from_spmatrix. cbn [data Sparse.tocsc Sparse.csc_columns].
    now rewrite !length_map, length_seq.
  - now apply reserved_not_barcode.
Qed.

Lemma bind_lift {A B} (o : outcome A) (k : A -> IO.M B) (s : IO.store) :
  IO.bind (IO.lift o) k s
  = match o with
    | Ok a => k a s
    | Raise e => (Raise e, s)
    end.
Proof. unfold IO.bind, IO.lift. now destruct o. Qed.

(** The loader on a valid triad: the expected table, after the seven
    accesses in program order. *)
Lemma load_valid_run (s : IO.store) (dir : IO.Path) (m : Sparse.coo_matrix)
      (features : list (list string)) (barcodes : list string) :
  valid_triad (IO.fs s) dir m features barcodes ->
  fst (load_feature_barcode_matrix_df dir s) = Ok (expected_table m features barcodes).
Proof.
  intros [Hdir (pm & Hnm & Hm) Hb (pf & tf & Hnf & Hgf & Hcf) Hne H3
               (pb & tb & rows & Hnb & Hgb & Hcb & ->) Hrows Hcols Hclash].
  unfold load_feature_barcode_matrix_df.
  rewrite (@bind_ok _ _ _ _ s (IO.mkStore (IO.fs s) (IO.log s ++ [IO.IsDir dir])) true)
    by (unfold path_is_dir, IO.access; now rewrite Hdir).
  cbn [negb].
  erewrite bind_ok by (eapply load_mat_run; cbn [IO.fs]; eassumption).
  erewrite bind_ok.
  2:{ erewrite load_features_run by (cbn [IO.fs]; eassumption).
      rewrite (unpack3_zip_star EmptyString)
        by (now apply min_fields_uniform).
      reflexivity. }
  cbn beta iota.
  erewrite bind_ok by (eapply load_barcodes_run; cbn [IO.fs]; eassumption).
  rewrite sum_lists_concat.
  pose proof (@assemble m features (List.concat rows) H3 Hrows Hcols Hclash) as Hasm.
  rewrite bind_lift.
  destruct (set_columns (from_spmatrix m) (map LStr (List.concat rows)))
    as [df1|e1]; [|discriminate]. cbn [obind] in Hasm.
  rewrite bind_lift.
  destruct (insert df1 0 _ _) as [df2|e2]; [|discriminate]. cbn [obind] in Hasm.
  rewrite bind_lift.
  destruct (insert df2 1 _ _) as [df3|e3]; [|discriminate]. cbn [obind] in Hasm.
  rewrite bind_lift.
  destruct (insert df3 2 _ _) as [df4|e4]; [|discriminate]. cbn [obind] in Hasm.
  rewrite bind_lift, Hasm. reflexivity.
Qed.

Lemma expected_cell (m : Sparse.coo_matrix) (features : list (list string))
      (barcodes : list string) (r c : nat) :
  r < Sparse.nrows m -> c < Sparse.ncols m ->
  cell (expected_table m features barcodes) r c = Some (VInt (Sparse.dense_at m r c)).
Proof.
  intros Hr Hc. unfold cell, expected_table.
  cbn [data Sparse.tocsc Sparse.csc_columns].
  rewrite !nth_error_map, nth_error_nth' with (d := 0) by now rewrite length_seq.
  rewrite seq_nth by assumption. cbn [option_map values_of Nat.add].
  rewrite nth_error_map, nth_error_nth' with (d := 0) by now rewrite length_seq.
  rewrite seq_nth by assumption. cbn [option_map Nat.add].
  now rewrite column_of_get, dense_at_sum.
Qed.

(** ** The assembled table *)


Lemma sample_dir_valid :
  valid_triad Samples.sample_dir "sample" Samples.counts3x2
              Samples.features3 Samples.barcodes2.
Proof.
  constructor; try reflexivity.
  - exists "sample/matrix.mtx.gz". split; reflexivity.
  - exists "sample/features.tsv.gz", (Samples.write_lines TAB Samples.features3).
    repeat split; reflexivity.
  - discriminate.
  - repeat constructor.
  - exists "sample/barcodes.tsv.gz",
      (Samples.write_lines TAB (map (fun b => [b]) Samples.barcodes2)),
      [["AAA-1"]; ["BBB-1"]].
    repeat split; reflexivity.
  - intros b [<-|[<-|[]]] [H|[H|[H|[]]]]; discriminate.
Qed.


(** C8. On a valid triad the rows and columns of the table are those of
    the files, in file order and in the same number: nothing is sorted or
    merged, and two feature lines with the same three fields both keep their
    positions. *)
Theorem order_and_duplicates_kept (s : IO.store) (dir : IO.Path)
        (m : Sparse.coo_matrix) (features : list (list string))
        (barcodes : list string) :
  valid_triad (IO.fs s) dir m features barcodes ->
  exists df,
    fst (load_feature_barcode_matrix_df dir s) = Ok df
    /\ index df = map (map VStr) features
    /\ columns df = map LStr barcodes
    /\ List.length (index df) = List.length features
    /\ List.length (columns df) = List.length barcodes
    /\ forall i j key,
         i <> j ->
         nth_error features i = Some key -> nth_error features j = Some key ->
         nth_error (index df) i = Some (map VStr key)
         /\ nth_error (index df) j = Some (map VStr key).
Proof.
  intros Hv. exists (expected_table m features barcodes).
  split; [now apply load_valid_run|].
  unfold expected_table. cbn [index columns].
  rewrite !length_map. repeat (split; [reflexivity|]).
  intros i j key _ Hi Hj. rewrite !nth_error_map, Hi, Hj. split; reflexivity.
Qed.

Lemma dup_dir_valid :
  valid_triad Samples.dup_dir "sample" Samples.counts3x2
              Samples.features_dup Samples.barcodes2.
Proof.
  constructor; try reflexivity.
  - exists "sample/matrix.mtx.gz". split; reflexivity.
  - exists "sample/features.tsv.gz", (Samples.write_lines TAB Samples.features_dup).
    repeat split; reflexivity.
  - discriminate.
  - repeat constructor.
  - exists "sample/barcodes.tsv.gz",
      (Samples.write_lines TAB (map (fun b => [b]) Samples.barcodes2)),
      [["AAA-1"]; ["BBB-1"]].
    repeat split; reflexivity.
  - intros b [<-|[<-|[]]] [H|[H|[H|[]]]]; discriminate.
Qed.

Lemma order_and_duplicates_kept_witness :
  exists df,
    fst (load_feature_barcode_matrix_df "sample" (Samples.fresh Samples.dup_dir))
    = Ok df
    /\ nth_error (index df) 0 = Some [VStr "G1"; VStr "A"; VStr "Gene Expression"]
    /\ nth_error (index df) 2 = Some [VStr "G1"; VStr "A"; VStr "Gene Expression"]
    /\ List.length (index df) = 3.
Proof.
  destruct (order_and_duplicates_kept (Samples.fresh Samples.dup_dir) dup_dir_valid)
    as (df & Hrun & _ & _ & Hlen & _ & Hdup).
  exists df. split; [exact Hrun|].
  destruct (Hdup 0 2 ["G1"; "A"; "Gene Expression"]) as [H0 H2];
    [discriminate|reflexivity|reflexivity|].
  repeat split; assumption.
Defined.

(** ** Determinism *)

Lemma reads_only_ret {A} (a : A) : IO.reads_only (IO.ret a).
Proof. intros s. split; [reflexivity|]. intros s' _. reflexivity. Qed.

Lemma reads_only_raise {A} (e : exn) : IO.reads_only (@IO.raise A e).
Proof. intros s. split; [reflexivity|]. intros s' _. reflexivity. Qed.

Lemma reads_only_lift {A} (o : outcome A) : IO.reads_only (IO.lift o).
Proof. intros s. split; [reflexivity|]. intros s' _. reflexivity. Qed.

Lemma reads_only_access {A} (ev : IO.event) (read : IO.FileSystem -> outcome A) :
  IO.reads_only (IO.access ev read).
Proof.
  intros s. split; [reflexivity|]. intros s' H. unfold IO.access. cbn. now rewrite H.
Qed.

Lemma reads_only_bind {A B} (m : IO.M A) (k : A -> IO.M B) :
  IO.reads_only m -> (forall a, IO.reads_only (k a)) -> IO.reads_only (IO.bind m k).
Proof.
  intros Hm Hk s. destruct (Hm s) as [Hfs Hres]. split.
  - unfold IO.bind. destruct (m s) as [[a|e] s1] eqn:E; cbn in *.
    + destruct (Hk a s1) as [Hfs1 _]. congruence.
    + exact Hfs.
  - intros s' Hs'. specialize (Hres s' Hs').
    destruct (Hm s') as [Hfs' _].
    unfold IO.bind.
    destruct (m s) as [[a|e] s1] eqn:E, (m s') as [[a'|e'] s1'] eqn:E';
      cbn in *; try congruence.
    inversion Hres; subst a'.
    destruct (Hk a s1) as [_ Hk1]. apply Hk1. congruence.
Qed.

Create HintDb reads discriminated.
#[export] Hint Resolve reads_only_ret reads_only_raise reads_only_lift
  reads_only_access : reads.

Lemma path_is_dir_reads_only (p : IO.Path) : IO.reads_only (path_is_dir p).
Proof. apply reads_only_access. Qed.

Lemma get_nested_filepath_reads_only (dir : IO.Path) (name : string) :
  IO.reads_only (get_nested_filepath dir name).
Proof. apply reads_only_access. Qed.

Lemma gzip_open_rt_reads_only (p : IO.Path) : IO.reads_only (gzip_open_rt p).
Proof. apply reads_only_access. Qed.

Lemma mmread_reads_only (p : IO.Path) : IO.reads_only (mmread p).
Proof. apply reads_only_access. Qed.

#[export] Hint Resolve path_is_dir_reads_only get_nested_filepath_reads_only
  gzip_open_rt_reads_only mmread_reads_only : reads.

Ltac reads_only_tac :=
  repeat first
    [ solve [auto with reads]
    | apply reads_only_bind; [|intros]
    | match goal with
      | |- IO.reads_only (match ?x with _ => _ end) => destruct x
      | |- IO.reads_only (if ?b then _ else _) => destruct b
      end ].

Lemma load_mat_reads_only (dir : IO.Path) : IO.reads_only (_load_mat dir).
Proof. unfold _load_mat. reads_only_tac. Qed.

Lemma load_features_reads_only (dir : IO.Path) : IO.reads_only (_load_features dir).
Proof. unfold _load_features. reads_only_tac. Qed.

Lemma load_barcodes_reads_only (dir : IO.Path) : IO.reads_only (_load_barcodes dir).
Proof. unfold _load_barcodes. reads_only_tac. Qed.

#[export] Hint Resolve load_mat_reads_only load_features_reads_only
  load_barcodes_reads_only : reads.

Lemma load_reads_only (dir : IO.Path) :
  IO.reads_only (load_feature_barcode_matrix_df dir).
Proof. unfold load_feature_barcode_matrix_df. reads_only_tac. Qed.

(** C9. The loader is deterministic: it leaves the file system unchanged,
    and two calls made on the same file system, whatever happened before
    each of them, return the same outcome, hence the same table with the
    same keys, order and cells. *)
Theorem load_deterministic (dir : IO.Path) (s s' : IO.store) :
  IO.fs s' = IO.fs s ->
  fst (load_feature_barcode_matrix_df dir s')
  = fst (load_feature_barcode_matrix_df dir s)
  /\ IO.fs (snd (load_feature_barcode_matrix_df dir s)) = IO.fs s.
Proof.
  intros H. destruct (load_reads_only dir s) as [Hfs Hres]. split; auto.
Qed.

Lemma load_deterministic_witness :
  fst (load_feature_barcode_matrix_df "sample"
         (snd (load_feature_barcode_matrix_df "sample"
                 (Samples.fresh Samples.sample_dir))))
  = fst (load_feature_barcode_matrix_df "sample" (Samples.fresh Samples.sample_dir))
  /\ IO.fs (snd (load_feature_barcode_matrix_df "sample"
                   (Samples.fresh Samples.sample_dir)))
     = Samples.sample_dir.
Proof.
  apply (@load_deterministic "sample" (Samples.fresh Samples.sample_dir)
           (snd (load_feature_barcode_matrix_df "sample"
                   (Samples.fresh Samples.sample_dir)))).
  reflexivity.
Defined.

(** ** Comment lines *)

Lemma run_app (comment : ascii) (s1 s2 : string) (p : Tokenizer.parser) :
  Tokenizer.run comment p (s1 ++ s2)%string
  = obind (Tokenizer.run comment p s1) (fun p' => Tokenizer.run comment p' s2).
Proof.
  revert p. induction s1 as [|c s1 IH]; intros p; cbn; [reflexivity|].
  destruct (Tokenizer.step comment p c) as [p'|e]; cbn; [apply IH|reflexivity].
Qed.

(** Inside a comment line every character up to the line break is
    dropped, and so is the line break. *)
Lemma eat_line_comment (p : Tokenizer.parser) (crlf : bool) (body rest : string) :
  Tokenizer.st p = Tokenizer.EAT_LINE_COMMENT ->
  no_line_break body = true ->
  Tokenizer.run HASH p (body ++ line_end crlf ++ rest)%string
  = Tokenizer.run HASH (Tokenizer.set_state Tokenizer.START_RECORD p) rest.
Proof.
  intros Hst. induction body as [|c body IH]; intros Hb.
  - destruct crlf; cbn [line_end String.append Tokenizer.run];
      unfold Tokenizer.step; rewrite Hst; cbn; reflexivity.
  - cbn [no_line_break] in Hb.
    apply andb_prop in Hb as [Hc Hb]. apply andb_prop in Hc as [Hlf Hcr].
    apply negb_true_iff in Hlf, Hcr.
    cbn [String.append Tokenizer.run]. unfold Tokenizer.step at 1.
    rewrite Hst, Hlf, Hcr. cbn [obind]. now apply IH.
Qed.

(** A line that starts with the comment character where a record would
    start leaves the tokenizer as it was. *)
Lemma comment_line_dropped (p : Tokenizer.parser) (crlf : bool)
      (body rest : string) :
  Tokenizer.st p = Tokenizer.START_RECORD ->
  no_line_break body = true ->
  Tokenizer.run HASH p (String HASH (body ++ line_end crlf ++ rest))
  = Tokenizer.run HASH p rest.
Proof.
  intros Hst Hb. cbn [Tokenizer.run]. unfold Tokenizer.step. rewrite Hst.
  unfold Tokenizer.start_record. cbn [Ascii.eqb HASH LF CR Bool.eqb obind].
  rewrite eat_line_comment by (try reflexivity; assumption).
  f_equal. destruct p; cbn in *. now subst.
Qed.

Lemma tokenize_comment_line (crlf : bool) (before body after : string) :
  at_record_start before = true ->
  no_line_break body = true ->
  Tokenizer.tokenize HASH
    (before ++ String HASH (body ++ line_end crlf ++ after))%string
  = Tokenizer.tokenize HASH (before ++ after)%string.
Proof.
  intros Hstart Hb. unfold Tokenizer.tokenize. rewrite !run_app.
  unfold at_record_start in Hstart.
  destruct (Tokenizer.run HASH Tokenizer.init before) as [p|e]; cbn [obind];
    [|reflexivity].
  rewrite comment_line_dropped; [reflexivity| |exact Hb].
  destruct (Tokenizer.st p); try discriminate. reflexivity.
Qed.

Lemma load_prove_set_df_text (s : IO.store) (path : IO.Path) (content : string) :
  IO.text (IO.fs s) path = Ok content ->
  fst (load_prove_set_df path s)
  = obind (ReadCsv.read_csv HASH content) (fun df0 =>
    let df := rename_columns df0 (LStr "gene_id") (LStr "feature_id") in
    obind (getitem_label df (LStr "included")) (fun included =>
    obind (getitem_frame df included) (fun df1 =>
    drop_columns df1 [LStr "included"]))).
Proof.
  intros Ht. unfold load_prove_set_df, pd_read_csv.
  unfold IO.bind at 1. unfold IO.access. rewrite Ht. cbn [obind].
  destruct (ReadCsv.read_csv HASH content) as [df0|e]; cbn [obind fst];
    [|reflexivity].
  rewrite bind_lift.
  destruct (getitem_label _ _) as [inc|e]; cbn [obind fst]; [|reflexivity].
  rewrite bind_lift.
  destruct (getitem_frame _ _) as [df1|e]; cbn [obind fst]; [|reflexivity].
  rewrite bind_lift.
  destruct (drop_columns _ _) as [df2|e]; reflexivity.
Qed.



(** The side condition of C7 holds after any run of complete lines without
    quote characters. *)
Lemma end_line_state (s : Tokenizer.state) (p p' : Tokenizer.parser) :
  Tokenizer.end_line s p = Ok p' -> Tokenizer.st p' = s.
Proof.
  unfold Tokenizer.end_line. destruct (_ && _); [discriminate|].
  intros H. inversion H. reflexivity.
Qed.

Ltac step_cases H :=
  repeat match goal with
    | |- context [if ?b then _ else _] => destruct b
    | |- context [obind (Tokenizer.end_line ?s ?p) _] =>
        let E := fresh "E" in
        destruct (Tokenizer.end_line s p) eqn:E; cbn [obind];
        [apply end_line_state in E|]
    end;
  intros H;
  try discriminate H;
  try (apply end_line_state in H; rewrite H; reflexivity);
  try (inversion H; subst; cbn; congruence);
  try (inversion H; subst; cbn;
       match goal with E : Tokenizer.st _ = _ |- _ => now rewrite E end).

Lemma step_unquoted (p p' : Tokenizer.parser) (c : ascii) :
  unquoted (Tokenizer.st p) = true ->
  Ascii.eqb c QUOTE = false ->
  Tokenizer.step HASH p c = Ok p' ->
  unquoted (Tokenizer.st p') = true.
Proof.
  intros Hu Hq.
  unfold Tokenizer.step, Tokenizer.start_record, Tokenizer.start_field,
    Tokenizer.in_field.
  rewrite ?Hq.
  destruct (Tokenizer.st p) eqn:Hst; try discriminate Hu; step_cases H.
Qed.

Lemma step_line_break (p p' : Tokenizer.parser) :
  unquoted (Tokenizer.st p) = true ->
  Tokenizer.step HASH p LF = Ok p' ->
  Tokenizer.st p' = Tokenizer.START_RECORD.
Proof.
  intros Hu.
  unfold Tokenizer.step, Tokenizer.start_record, Tokenizer.start_field,
    Tokenizer.in_field.
  destruct (Tokenizer.st p) eqn:Hst; try discriminate Hu;
    cbn [Ascii.eqb LF CR COMMA HASH QUOTE Bool.eqb orb obind];
    intros H;
    try (now apply end_line_state in H);
    try (inversion H; subst; cbn; congruence).
Qed.

Lemma run_unquoted (body : string) (p p' : Tokenizer.parser) :
  no_quote body = true ->
  unquoted (Tokenizer.st p) = true ->
  Tokenizer.run HASH p body = Ok p' ->
  unquoted (Tokenizer.st p') = true.
Proof.
  revert p. induction body as [|c body IH]; intros p Hq Hu; cbn.
  - intros H. inversion H. now subst.
  - cbn in Hq. apply andb_prop in Hq as [Hc Hq]. apply negb_true_iff in Hc.
    destruct (Tokenizer.step HASH p c) as [p1|e] eqn:E; [|discriminate].
    cbn [obind]. apply IH; [exact Hq|]. exact (@step_unquoted p p1 c Hu Hc E).
Qed.

Lemma at_record_start_lines (body : string) :
  no_quote body = true ->
  at_record_start EmptyString = true
  /\ at_record_start (body ++ String LF EmptyString) = true.
Proof.
  intros Hq. split; [reflexivity|].
  unfold at_record_start. rewrite run_app.
  destruct (Tokenizer.run HASH Tokenizer.init body) as [p|e] eqn:E; cbn [obind];
    [|reflexivity].
  assert (Hu : unquoted (Tokenizer.st p) = true)
    by (apply (@run_unquoted body Tokenizer.init p Hq eq_refl E)).
  cbn [Tokenizer.run].
  destruct (Tokenizer.step HASH p LF) as [p1|e] eqn:E1; cbn [obind];
    [|reflexivity].
  now rewrite (@step_line_break p p1 Hu E1).
Qed.

(** ** Probe sets *)

Section ListPlumbing.
Variable A : Type.

Lemma remove_at_middle (pre post : list A) (x : A) :
  remove_at (List.length pre) (pre ++ x :: post) = pre ++ post.
Proof.
  unfold remove_at.
  rewrite firstn_app, firstn_all, Nat.sub_diag, app_nil_r.
  replace (S (List.length pre)) with (List.length (pre ++ [x]))
    by (rewrite length_app; cbn; lia).
  replace (pre ++ x :: post) with ((pre ++ [x]) ++ post)
    by (now rewrite <- app_assoc).
  now rewrite skipn_app, skipn_all, Nat.sub_diag.
Qed.

Lemma remove_at_map {B} (f : A -> B) (k : nat) (l : list A) :
  remove_at k (map f l) = map f (remove_at k l).
Proof. unfold remove_at. now rewrite map_app, firstn_map, skipn_map. Qed.

Lemma nth_error_middle (l : list A) (k : nat) (x : A) :
  nth_error l k = Some x ->
  exists pre post, l = pre ++ x :: post /\ List.length pre = k.
Proof. intros H. apply nth_error_split in H as (pre & post & -> & <-). eauto. Qed.

Lemma nth_error_compress (mask : list bool) (l : list A) (i : nat) :
  nth_error mask i = Some true ->
  nth_error (compress mask l) (rank mask i) = nth_error l i.
Proof.
  revert l i. induction mask as [|b mask IH]; intros l i Hi.
  - now destruct i.
  - destruct i as [|i]; cbn in Hi.
    + inversion Hi; subst. destruct l; reflexivity.
    + unfold rank in *. cbn [firstn filter]. destruct l as [|x l].
      * cbn [compress nth_error]. now rewrite nth_error_nil.
      * destruct b; cbn; now apply IH.
Qed.

End ListPlumbing.

Lemma rank_increasing (mask : list bool) (i j : nat) :
  i < j -> nth_error mask i = Some true -> rank mask i < rank mask j.
Proof.
  revert i j. induction mask as [|b mask IH]; intros i j Hij Hi.
  - now destruct i.
  - destruct j as [|j]; [lia|]. unfold rank in *. destruct i as [|i]; cbn in Hi.
    + inversion Hi; subst. cbn. lia.
    + cbn [firstn filter]. specialize (IH i j ltac:(lia) Hi).
      destruct b; cbn; lia.
Qed.

Lemma has_dup_middle (pre post : list string) (x : string) :
  ReadCsv.has_dup (pre ++ x :: post) = false ->
  existsb (String.eqb x) pre = false /\ existsb (String.eqb x) post = false.
Proof.
  induction pre as [|a pre IH]; cbn; intros H.
  - apply orb_false_elim in H as [H _]. now split.
  - apply orb_false_elim in H as [Ha H]. destruct (IH H) as [Hpre Hpost].
    rewrite existsb_app in Ha. apply orb_false_elim in Ha as [_ Ha].
    cbn in Ha. apply orb_false_elim in Ha as [Ha _].
    rewrite String.eqb_sym, Ha. now split.
Qed.

Lemma select_app (l : label) (ls1 ls2 : list label) (cs1 cs2 : list column) :
  List.length ls1 = List.length cs1 ->
  select l (ls1 ++ ls2) (cs1 ++ cs2) = select l ls1 cs1 ++ select l ls2 cs2.
Proof.
  revert cs1. induction ls1 as [|l1 ls1 IH]; intros [|c1 cs1] Hlen;
    cbn in *; try discriminate; [reflexivity|].
  rewrite IH by lia. now destruct (label_eqb l l1).
Qed.

Lemma without_app (keys ls1 ls2 : list label) (cs1 cs2 : list column) :
  List.length ls1 = List.length cs1 ->
  without keys (ls1 ++ ls2) (cs1 ++ cs2)
  = (fst (without keys ls1 cs1) ++ fst (without keys ls2 cs2),
     snd (without keys ls1 cs1) ++ snd (without keys ls2 cs2)).
Proof.
  revert cs1. induction ls1 as [|l1 ls1 IH]; intros [|c1 cs1] Hlen;
    cbn in *; try discriminate.
  - now destruct (without keys ls2 cs2).
  - rewrite IH by lia. destruct (without keys ls1 cs1), (without keys ls2 cs2).
    cbn. now destruct (label_in l1 keys).
Qed.

Lemma renamed_included (a : string) :
  label_eqb (LStr "included") (renamed (LStr a)) = String.eqb "included" a.
Proof.
  unfold renamed. cbn [label_eqb].
  destruct (String.eqb_spec a "gene_id") as [->|_]; reflexivity.
Qed.

Lemma included_absent (names : list string) :
  existsb (String.eqb "included") names = false ->
  label_in (LStr "included") (map renamed (map LStr names)) = false.
Proof.
  unfold label_in. induction names as [|a names IH]; [reflexivity|].
  cbn [map existsb]. intros H. apply orb_false_elim in H as [Ha H].
  now rewrite renamed_included, Ha, IH.
Qed.

Lemma label_eqb_sym (x y : label) : label_eqb x y = label_eqb y x.
Proof.
  destruct x, y; cbn [label_eqb]; try reflexivity;
    [apply Z.eqb_sym|apply String.eqb_sym].
Qed.

Lemma not_included_kept (names : list string) :
  existsb (String.eqb "included") names = false ->
  Forall (fun l => label_in l [LStr "included"] = false)
         (map renamed (map LStr names)).
Proof.
  intros H. rewrite !Forall_map, Forall_forall. intros a Ha.
  cbn [label_in existsb]. rewrite orb_false_r.
  destruct (label_eqb (renamed (LStr a)) (LStr "included")) eqn:E; [|reflexivity].
  assert (Hin : label_eqb (LStr "included") (renamed (LStr a)) = true)
    by now rewrite label_eqb_sym.
  rewrite renamed_included in Hin. apply String.eqb_eq in Hin. subst a.
  rewrite <- not_true_iff_false in H. exfalso. apply H.
  apply existsb_exists. exists "included". split; [exact Ha|reflexivity].
Qed.

(** A column of boolean spellings, at least one row: a boolean column. *)
Lemma bool_token_cases (t : string) :
  ReadCsv.is_bool_token t = true ->
  ReadCsv.is_na t = false /\ ReadCsv.is_number t = false.
Proof.
  unfold ReadCsv.is_bool_token, ReadCsv.bool_of_token. cbn [existsb].
  destruct (String.eqb_spec t "True") as [->|_]; [now split|].
  destruct (String.eqb_spec t "TRUE") as [->|_]; [now split|].
  destruct (String.eqb_spec t "true") as [->|_]; [now split|].
  destruct (String.eqb_spec t "False") as [->|_]; [now split|].
  destruct (String.eqb_spec t "FALSE") as [->|_]; [now split|].
  destruct (String.eqb_spec t "false") as [->|_]; [now split|].
  discriminate.
Qed.

Lemma infer_bool (toks : list string) :
  toks <> [] ->
  Forall (fun t => ReadCsv.is_bool_token t = true) toks ->
  ReadCsv.infer toks
  = Dense DBool (map (fun t => match ReadCsv.bool_of_token t with
                               | Some b => VBool b
                               | None => VNaN
                               end) toks).
Proof.
  intros Hne Hall.
  assert (Hna : existsb ReadCsv.is_na toks = false).
  { clear Hne. induction Hall as [|t toks Ht _ IH]; cbn; [reflexivity|].
    now rewrite (proj1 (bool_token_cases _ Ht)), IH. }
  assert (Hpresent : filter (fun t => negb (ReadCsv.is_na t)) toks = toks).
  { clear Hne Hna. induction Hall as [|t toks Ht _ IH]; cbn; [reflexivity|].
    now rewrite (proj1 (bool_token_cases _ Ht)), IH. }
  assert (Hbool : forallb ReadCsv.is_bool_token toks = true)
    by now apply forallb_forall, Forall_forall.
  unfold ReadCsv.infer. rewrite Hpresent, Hna, Hbool.
  destruct toks as [|t toks]; [congruence|].
  inversion Hall as [|? ? Ht _]; subst.
  cbn [forallb]. now rewrite (proj2 (bool_token_cases _ Ht)).
Qed.

Lemma rectangular (header : list string) (rows : list (list string)) :
  Forall (fun row => List.length row = List.length header) rows ->
  existsb (fun row => negb (List.length row =? List.length header)) rows = false.
Proof.
  induction 1 as [|row rows Hrow _ IH]; cbn; [reflexivity|].
  now rewrite Hrow, Nat.eqb_refl, IH.
Qed.

Lemma read_csv_parsed (content : string) (header : list string)
      (rows : list (list string)) :
  Tokenizer.tokenize HASH content = Ok (header :: rows) ->
  ReadCsv.has_dup header = false ->
  existsb ReadCsv.is_empty header = false ->
  Forall (fun row => List.length row = List.length header) rows ->
  ReadCsv.read_csv HASH content = Ok (parsed_frame header rows).
Proof.
  intros Htok Hdup Hemp Hrect. unfold ReadCsv.read_csv. rewrite Htok.
  cbn [obind ReadCsv.frame_of_lines].
  now rewrite Hdup, Hemp, (@rectangular header rows Hrect).
Qed.

Lemma included_mask_truth (k : nat) (rows : list (list string)) :
  map truth (map (fun t => match ReadCsv.bool_of_token t with
                           | Some b => VBool b
                           | None => VNaN
                           end) (map (ReadCsv.field_at k) rows))
  = included_mask k rows.
Proof.
  unfold included_mask. rewrite !map_map. apply map_ext. intros row.
  now destruct (ReadCsv.bool_of_token _).
Qed.

(** The pandas steps of [load_prove_set_df] on a frame whose [included]
    column is boolean. *)
Lemma keep_included (header : list string) (rows : list (list string)) (k : nat) :
  ReadCsv.has_dup header = false ->
  nth_error header k = Some "included" ->
  rows <> [] ->
  Forall (fun row => ReadCsv.is_bool_token (ReadCsv.field_at k row) = true) rows ->
  (let df := rename_columns (parsed_frame header rows)
                            (LStr "gene_id") (LStr "feature_id") in
   obind (getitem_label df (LStr "included")) (fun included =>
   obind (getitem_frame df included) (fun df1 =>
   drop_columns df1 [LStr "included"])))
  = Ok (kept_frame header rows k).
Proof.
  intros Hdup Hk Hne Hbool.
  apply nth_error_middle in Hk as (pre & post & -> & <-).
  destruct (@has_dup_middle pre post _ Hdup) as [Hpre Hpost].
  set (F := fun j => ReadCsv.infer (map (ReadCsv.field_at j) rows)).
  set (k := List.length pre).
  assert (Hinc : F k = Dense DBool
                   (map (fun t => match ReadCsv.bool_of_token t with
                                  | Some b => VBool b
                                  | None => VNaN
                                  end) (map (ReadCsv.field_at k) rows))).
  { apply infer_bool.
    - destruct rows; [congruence|discriminate].
    - now rewrite Forall_map. }
  assert (Hdf : rename_columns (parsed_frame (pre ++ "included" :: post) rows)
                               (LStr "gene_id") (LStr "feature_id")
                = mkDF [None] (range_index (List.length rows))
                       (map renamed (map LStr pre)
                        ++ LStr "included" :: map renamed (map LStr post))
                       (map F (seq 0 k) ++ F k :: map F (seq (S k) (List.length post)))).
  { unfold rename_columns, parsed_frame. cbn [index_names index columns data].
    f_equal.
    - now rewrite !map_app.
    - rewrite length_app. cbn [List.length].
      rewrite seq_app. cbn [seq Nat.add]. now rewrite map_app. }
  cbv zeta. rewrite Hdf. clear Hdf.
  unfold getitem_label. cbn [columns data].
  rewrite select_app by (now rewrite !length_map, length_seq).
  rewrite (@select_absent _ _ _ (@included_absent pre Hpre)).
  cbn [select app label_eqb String.eqb Ascii.eqb Bool.eqb].
  rewrite (@select_absent _ _ _ (@included_absent post Hpost)).
  cbn [obind]. rewrite Hinc.
  unfold getitem_frame. cbn [is_bool_indexer obind values_of].
  rewrite included_mask_truth.
  unfold getitem_mask, n_rows. cbn [index index_names columns data].
  unfold included_mask at 1. rewrite length_map, range_index_length, Nat.eqb_refl.
  cbn [negb obind]. unfold drop_columns.
  cbn [index index_names columns data existsb].
  unfold label_in at 1. rewrite existsb_app. cbn [existsb label_eqb String.eqb
    Ascii.eqb Bool.eqb]. rewrite orb_true_r. cbn [negb orb].
  rewrite map_app. cbn [map].
  rewrite without_app by (now rewrite !length_map, length_seq).
  cbn [without label_in existsb label_eqb String.eqb Ascii.eqb Bool.eqb orb].
  rewrite !without_absent;
    try (now rewrite !length_map, length_seq);
    try (now apply not_included_kept).
  cbn [fst snd]. unfold kept_frame, parsed_frame. cbn [index columns data].
  fold k. f_equal. f_equal.
  - rewrite remove_at_map. unfold k. rewrite remove_at_middle.
    now rewrite !map_app.
  - rewrite remove_at_map, length_app. cbn [List.length].
    rewrite seq_app. cbn [seq Nat.add]. fold k.
    replace (remove_at k (seq 0 k ++ k :: seq (S k) (List.length post)))
      with (seq 0 k ++ seq (S k) (List.length post)).
    + now rewrite !map_app.
    + symmetry. pose proof (remove_at_middle (seq 0 k) (seq (S k) (List.length post)) k)
        as H. now rewrite length_seq in H.
Qed.

Lemma probe_run (s : IO.store) (path : IO.Path) (content : string)
      (header : list string) (rows : list (list string)) (k : nat) :
  IO.text (IO.fs s) path = Ok content ->
  Tokenizer.tokenize HASH content = Ok (header :: rows) ->
  ReadCsv.has_dup header = false ->
  existsb ReadCsv.is_empty header = false ->
  Forall (fun row => List.length row = List.length header) rows ->
  nth_error header k = Some "included" ->
  rows <> [] ->
  Forall (fun row => ReadCsv.is_bool_token (ReadCsv.field_at k row) = true) rows ->
  fst (load_prove_set_df path s) = Ok (kept_frame header rows k).
Proof.
  intros Ht Htok Hdup Hemp Hrect Hk Hne Hbool.
  rewrite (@load_prove_set_df_text s path content Ht).
  rewrite (@read_csv_parsed content header rows Htok Hdup Hemp Hrect).
  cbn [obind]. now apply keep_included.
Qed.

Lemma renamed_never_gene_id (l : label) : renamed l <> LStr "gene_id".
Proof.
  unfold renamed. destruct (label_eqb l (LStr "gene_id")) eqn:E; [discriminate|].
  intros ->. cbn in E. discriminate.
Qed.

Lemma label_in_spec (l : label) (ls : list label) :
  label_in l ls = false -> ~ In l ls.
Proof.
  unfold label_in. intros H Hin.
  rewrite <- not_true_iff_false in H. apply H.
  apply existsb_exists. exists l. split; [exact Hin|].
  destruct l; cbn; [apply Z.eqb_refl|apply String.eqb_refl].
Qed.




Lemma infer_dense (toks : list string) :
  exists dt vals, ReadCsv.infer toks = Dense dt vals.
Proof.
  unfold ReadCsv.infer. destruct toks as [|t toks]; [eauto|].
  destruct (filter _ _); [eauto|].
  destruct (forallb ReadCsv.is_number _); [eauto|].
  destruct (forallb ReadCsv.is_bool_token _); [|eauto].
  destruct (existsb ReadCsv.is_na _); eauto.
Qed.

Lemma remove_at_incl {A} (k : nat) (l : list A) (x : A) :
  In x (remove_at k l) -> In x l.
Proof.
  unfold remove_at. intros H. rewrite <- (firstn_skipn k l).
  apply in_app_or in H as [H|H]; apply in_or_app; [now left|right].
  rewrite <- (firstn_skipn 1 (skipn k l)), skipn_skipn.
  apply in_or_app. now right.
Qed.

Lemma range_index_nth (n i : nat) :
  i < n -> nth_error (range_index n) i = Some [VInt (Z.of_nat i)].
Proof.
  intros H. unfold range_index.
  rewrite nth_error_map, nth_error_nth' with (d := 0) by now rewrite length_seq.
  now rewrite seq_nth.
Qed.

(** A kept row carries the cells of the row it comes from, the [included]
    cell left out. *)
Lemma kept_row (header : list string) (rows : list (list string)) (k i : nat) :
  nth_error (included_mask k rows) i = Some true ->
  row_at (kept_frame header rows k) (rank (included_mask k rows) i)
  = remove_at k (row_at (parsed_frame header rows) i).
Proof.
  intros Hi. unfold row_at, kept_frame. cbn [data].
  rewrite map_map, remove_at_map. apply map_ext_in.
  intros col Hcol. apply remove_at_incl in Hcol.
  unfold parsed_frame in Hcol. cbn [data] in Hcol.
  apply in_map_iff in Hcol as (j & <- & _).
  destruct (infer_dense (map (ReadCsv.field_at j) rows)) as (dt & vals & ->).
  cbn [take_rows values_of]. now apply nth_error_compress.
Qed.



(** ** The key columns are unique *)

(** [set_index] finds each of its three keys exactly once, whatever the
    barcodes are: [insert] has refused any name already present. *)
Lemma select_firstn_skipn (l : label) (loc : nat) (ls : list label)
      (cs : list column) :
  List.length ls = List.length cs ->
  select l (firstn loc ls) (firstn loc cs) ++ select l (skipn loc ls) (skipn loc cs)
  = select l ls cs.
Proof.
  intros Hlen. rewrite <- select_app, !firstn_skipn; [reflexivity|].
  rewrite !length_firstn. lia.
Qed.

Lemma select_insert_at (l name : label) (loc : nat) (c : column)
      (ls : list label) (cs : list column) :
  List.length ls = List.length cs ->
  List.length (select l (insert_at loc name ls) (insert_at loc c cs))
  = (if label_eqb l name then 1 else 0) + List.length (select l ls cs).
Proof.
  intros Hlen. unfold insert_at.
  rewrite select_app by (rewrite !length_firstn; lia).
  rewrite <- (select_firstn_skipn l loc ls cs Hlen).
  cbn [select].
  destruct (label_eqb l name); rewrite !length_app; cbn [List.length]; lia.
Qed.

Lemma insert_inv (df df' : DataFrame) (loc : nat) (name : label)
      (vals : list value) :
  insert df loc name vals = Ok df' ->
  label_in name (columns df) = false
  /\ columns df' = insert_at loc name (columns df)
  /\ data df' = insert_at loc (Dense DObject vals) (data df).
Proof.
  unfold insert. destruct (label_in name (columns df)); [discriminate|].
  destruct (negb _); [discriminate|]. destruct (_ <? _); [discriminate|].
  intros H. inversion H. auto.
Qed.

Lemma insert_at_length {A} (loc : nat) (x : A) (l : list A) :
  List.length (insert_at loc x l) = S (List.length l).
Proof.
  unfold insert_at. rewrite length_app. cbn [List.length].
  rewrite <- (firstn_skipn loc l) at 3. rewrite length_app. lia.
Qed.

Lemma getitem_label_once (df : DataFrame) (l : label) :
  List.length (select l (columns df) (data df)) = 1 ->
  exists c, getitem_label df l = Ok c.
Proof.
  unfold getitem_label.
  destruct (select l (columns df) (data df)) as [|c [|c' cs]]; cbn;
    intros H; try discriminate. eauto.
Qed.

Lemma keys_found_once (df1 df2 df3 df4 : DataFrame)
      (ids types genes : list value) :
  List.length (columns df1) = List.length (data df1) ->
  insert df1 0 (LStr "feature_id") ids = Ok df2 ->
  insert df2 1 (LStr "feature_type") types = Ok df3 ->
  insert df3 2 (LStr "gene") genes = Ok df4 ->
  exists df5,
    set_index df4 [LStr "feature_id"; LStr "gene"; LStr "feature_type"] = Ok df5.
Proof.
  intros Hwf H2 H3 H4.
  apply insert_inv in H2 as (Hid & Hc2 & Hd2).
  apply insert_inv in H3 as (Hty & Hc3 & Hd3).
  apply insert_inv in H4 as (Hge & Hc4 & Hd4).
  assert (Hwf2 : List.length (columns df2) = List.length (data df2))
    by (rewrite Hc2, Hd2, !insert_at_length; lia).
  assert (Hwf3 : List.length (columns df3) = List.length (data df3))
    by (rewrite Hc3, Hd3, !insert_at_length; lia).
  assert (Hcount : forall l,
             List.length (select l (columns df4) (data df4))
             = (if label_eqb l (LStr "gene") then 1 else 0)
               + ((if label_eqb l (LStr "feature_type") then 1 else 0)
                  + ((if label_eqb l (LStr "feature_id") then 1 else 0)
                     + List.length (select l (columns df1) (data df1))))).
  { intros l. rewrite Hc4, Hd4, select_insert_at by assumption.
    rewrite Hc3, Hd3, select_insert_at by assumption.
    now rewrite Hc2, Hd2, select_insert_at by assumption. }
  assert (Hnone : forall l df, label_in l (columns df) = false ->
                               List.length (select l (columns df) (data df)) = 0).
  { intros l df E. now rewrite (@select_absent l (columns df) (data df) E). }
  pose proof (Hnone _ _ Hid) as Hid1.
  pose proof (Hnone _ _ Hty) as Hty2.
  pose proof (Hnone _ _ Hge) as Hge3.
  rewrite Hc2, Hd2, select_insert_at in Hty2 by assumption.
  rewrite Hc3, Hd3, select_insert_at in Hge3 by assumption.
  rewrite Hc2, Hd2, select_insert_at in Hge3 by assumption.
  cbn [label_eqb String.eqb Ascii.eqb Bool.eqb Nat.add] in Hty2, Hge3.
  assert (Hfid : List.length (select (LStr "feature_id") (columns df4) (data df4)) = 1)
    by (rewrite Hcount, Hid1; reflexivity).
  assert (Hfty : List.length (select (LStr "feature_type") (columns df4) (data df4)) = 1)
    by (rewrite Hcount, Hty2; reflexivity).
  assert (Hgen : List.length (select (LStr "gene") (columns df4) (data df4)) = 1)
    by (rewrite Hcount, Hge3; reflexivity).
  destruct (@getitem_label_once df4 _ Hfid) as [c1 Hg1].
  destruct (@getitem_label_once df4 _ Hfty) as [c2 Hg2].
  destruct (@getitem_label_once df4 _ Hgen) as [c3 Hg3].
  unfold set_index.
  assert (Hin : forall l, 0 < List.length (select l (columns df4) (data df4)) ->
                          label_in l (columns df4) = true).
  { intros l Hl. destruct (label_in l (columns df4)) eqn:E; [reflexivity|].
    rewrite (Hnone _ _ E) in Hl. lia. }
  cbn [existsb]. rewrite !Hin by lia. cbn [negb orb mapM].
  rewrite Hg1, Hg3, Hg2. cbn [obind].
  destruct (without _ _ _). eauto.
Qed.

(** ** Plain lines are split at the separator *)

(** On lines without quote characters the csv reader does what the words
    "tab-separated fields of every line" say. *)
Lemma csv_field_plain (body : string) (r : Csv.reader) :
  plain body = true ->
  Csv.st r = Csv.START_FIELD \/ Csv.st r = Csv.IN_FIELD ->
  (Csv.field_len r + N.of_nat (String.length body) < Csv.field_limit)%N ->
  Csv.feed TAB r (body ++ String LF EmptyString)
  = Ok (Csv.mkReader Csv.START_RECORD EmptyString 0
                     (Csv.fields r ++ split_from TAB (Csv.field r) body)).
Proof.
  revert r. induction body as [|c body IH]; intros r Hp Hst Hlen.
  - cbn [String.append Csv.feed]. unfold Csv.parse_process_char.
    destruct Hst as [-> | ->]; cbn; reflexivity.
  - cbn [plain] in Hp. apply andb_prop in Hp as [Hp Hrest].
    apply andb_prop in Hp as [Hp Hcr]. apply andb_prop in Hp as [Hq Hlf].
    apply negb_true_iff in Hq, Hlf, Hcr.
    cbn [String.append Csv.feed split_from]. cbn [String.length] in Hlen.
    assert (Hadd : Csv.parse_add_char r c
                   = Ok (Csv.mkReader (Csv.st r) (snoc (Csv.field r) c)
                                      (Csv.field_len r + 1) (Csv.fields r))).
    { unfold Csv.parse_add_char.
      destruct (N.leb_spec Csv.field_limit (Csv.field_len r)); [lia|reflexivity]. }
    assert (Hsave : forall st',
               st' = Csv.START_FIELD \/ st' = Csv.IN_FIELD ->
               Csv.feed TAB (Csv.set_state st' (Csv.parse_save_field r))
                        (body ++ String LF EmptyString)
               = Ok (Csv.mkReader Csv.START_RECORD EmptyString 0
                       (Csv.fields r
                        ++ Csv.field r :: split_from TAB EmptyString body))).
    { intros st' Hst'.
      rewrite IH; [cbn; now rewrite <- app_assoc|assumption|exact Hst'|cbn; lia]. }
    assert (Hnext : forall st',
               st' = Csv.START_FIELD \/ st' = Csv.IN_FIELD ->
               Csv.feed TAB (Csv.mkReader st' (snoc (Csv.field r) c)
                                          (Csv.field_len r + 1) (Csv.fields r))
                        (body ++ String LF EmptyString)
               = Ok (Csv.mkReader Csv.START_RECORD EmptyString 0
                       (Csv.fields r ++ split_from TAB (snoc (Csv.field r) c) body))).
    { intros st' Hst'. rewrite IH; [reflexivity|assumption|exact Hst'|cbn; lia]. }
    unfold Csv.parse_process_char, Csv.start_field, Csv.is_nl.
    destruct Hst as [Hst | Hst]; rewrite Hst, Hlf, Hcr; cbn [orb];
      rewrite ?Hq; destruct (Ascii.eqb c TAB); cbn [obind];
      rewrite ?Hadd; cbn [obind].
    + rewrite <- (Hsave Csv.START_FIELD) by auto. f_equal.
      unfold Csv.set_state, Csv.parse_save_field. cbn. now rewrite Hst.
    + apply Hnext. auto.
    + apply Hsave. auto.
    + rewrite Hst. apply Hnext. auto.
Qed.

Lemma csv_line_plain (body : string) :
  plain body = true -> short_enough body ->
  Csv.feed TAB Csv.parse_reset (body ++ String LF EmptyString)
  = Ok (Csv.mkReader Csv.START_RECORD EmptyString 0 (plain_row TAB body)).
Proof.
  intros Hp Hlen. destruct body as [|c body]; [reflexivity|].
  transitivity (Csv.feed TAB (Csv.set_state Csv.START_FIELD Csv.parse_reset)
                         (String c body ++ String LF EmptyString)).
  - cbn [plain] in Hp. apply andb_prop in Hp as [Hp _].
    apply andb_prop in Hp as [Hp Hcr]. apply andb_prop in Hp as [_ Hlf].
    apply negb_true_iff in Hlf, Hcr.
    cbn [String.append Csv.feed]. unfold Csv.parse_process_char.
    cbn [Csv.st Csv.parse_reset Csv.set_state]. unfold Csv.is_nl.
    now rewrite Hlf, Hcr.
  - rewrite csv_field_plain; [reflexivity|exact Hp|now left|exact Hlen].
Qed.

Lemma csv_rows_plain (bodies : list string) :
  Forall (fun b => plain b = true) bodies ->
  Forall short_enough bodies ->
  Csv.reader_rows TAB (map (fun b => b ++ String LF EmptyString)%string bodies)
  = Ok (map (plain_row TAB) bodies).
Proof.
  unfold Csv.reader_rows.
  induction 1 as [|b bodies Hb _ IH]; intros Hs; [reflexivity|].
  inversion Hs as [|? ? Hsb Hsrest]; subst.
  cbn [map Csv.records]. rewrite (csv_line_plain Hb Hsb). cbn [obind Csv.st Csv.state_eqb].
  now rewrite (IH Hsrest).
Qed.

Lemma universal_newlines_plain (body rest : string) :
  plain body = true ->
  TextIO.universal_newlines (body ++ String LF rest)
  = (body ++ String LF (TextIO.universal_newlines rest))%string.
Proof.
  induction body as [|c body IH]; intros Hp; [reflexivity|].
  cbn [plain] in Hp. apply andb_prop in Hp as [Hp Hrest].
  apply andb_prop in Hp as [_ Hcr]. apply negb_true_iff in Hcr.
  cbn [String.append TextIO.universal_newlines]. rewrite Hcr. now rewrite IH.
Qed.

Lemma snoc_append (cur body : string) (c : ascii) :
  (snoc cur c ++ body)%string = (cur ++ String c body)%string.
Proof. unfold snoc. induction cur; cbn; [reflexivity|]. now f_equal. Qed.

Lemma lines_from_plain (body cur rest : string) :
  plain body = true ->
  TextIO.lines_from cur (body ++ String LF rest)
  = (cur ++ body ++ String LF EmptyString)%string
    :: TextIO.lines_from EmptyString rest.
Proof.
  revert cur. induction body as [|c body IH]; intros cur Hp.
  - reflexivity.
  - cbn [plain] in Hp. apply andb_prop in Hp as [Hp Hrest].
    apply andb_prop in Hp as [Hp _]. apply andb_prop in Hp as [_ Hlf].
    apply negb_true_iff in Hlf.
    cbn [String.append TextIO.lines_from]. rewrite Hlf, IH by assumption.
    now rewrite snoc_append.
Qed.

Lemma readlines_plain (bodies : list string) :
  Forall (fun b => plain b = true) bodies ->
  TextIO.readlines (with_newlines bodies)
  = map (fun b => b ++ String LF EmptyString)%string bodies.
Proof.
  unfold TextIO.readlines.
  induction 1 as [|b bodies Hb _ IH]; [reflexivity|].
  cbn [with_newlines map].
  now rewrite universal_newlines_plain, lines_from_plain, IH.
Qed.

(** The barcode reader on files of plain lines: the tab-separated pieces
    of every non-empty line, in order. *)
Lemma barcodes_of_plain_lines (s : IO.store) (dir p : IO.Path)
      (bodies : list string) :
  IO.nested (IO.fs s) dir "barcodes.tsv.gz" = Ok p ->
  IO.gz_text (IO.fs s) p = Ok (with_newlines bodies) ->
  Forall (fun b => plain b = true) bodies ->
  Forall short_enough bodies ->
  fst (_load_barcodes dir s) = Ok (List.concat (map (plain_row TAB) bodies)).
Proof.
  intros Hn Hg Hp Hs.
  rewrite (@load_barcodes_run s dir p (with_newlines bodies)
             (map (plain_row TAB) bodies) Hn Hg).
  - cbn [fst]. now rewrite sum_lists_concat.
  - rewrite readlines_plain by assumption. now apply csv_rows_plain.
Qed.

(** * Further properties *)

Unset Implicit Arguments.

(** ** The stages of the matrix loader *)

Lemma tail_is_assemble (mat : Sparse.coo_matrix)
      (ids genes types barcodes : list string) (s : IO.store) :
  IO.bind (IO.lift (set_columns (from_spmatrix mat) (map LStr barcodes))) (fun df =>
  IO.bind (IO.lift (insert df 0 (LStr "feature_id") (map VStr ids))) (fun df =>
  IO.bind (IO.lift (insert df 1 (LStr "feature_type") (map VStr types))) (fun df =>
  IO.bind (IO.lift (insert df 2 (LStr "gene") (map VStr genes))) (fun df =>
  IO.bind (IO.lift (set_index df [LStr "feature_id"; LStr "gene"; LStr "feature_type"]))
          (fun df => IO.ret df))))) s
  = (assemble_table mat ids genes types barcodes, s).
Proof.
  unfold assemble_table.
  rewrite bind_lift. destruct (set_columns _ _) as [df1|e]; [|reflexivity].
  cbn [obind]. rewrite bind_lift.
  destruct (insert df1 0 _ _) as [df2|e]; [|reflexivity].
  cbn [obind]. rewrite bind_lift.
  destruct (insert df2 1 _ _) as [df3|e]; [|reflexivity].
  cbn [obind]. rewrite bind_lift.
  destruct (insert df3 2 _ _) as [df4|e]; [|reflexivity].
  cbn [obind]. rewrite bind_lift.
  destruct (set_index df4 _) as [df5|e]; reflexivity.
Qed.

(** Once the three files are read, the loader is the pure assembly of
    their contents, reached after the seven accesses. *)
Lemma load_readable_run (s : IO.store) (dir pm pf pb : IO.Path)
      (m : Sparse.coo_matrix) (features : list (list string))
      (barcodes : list string) :
  readable_triad (IO.fs s) dir pm pf pb m features barcodes ->
  load_feature_barcode_matrix_df dir s
  = (assemble_table m (Py.column_at EmptyString 0 features)
                      (Py.column_at EmptyString 1 features)
                      (Py.column_at EmptyString 2 features) barcodes,
     IO.mkStore (IO.fs s) (IO.log s ++ loader_trace dir pm pf pb)).
Proof.
  intros [Hdir Hnm Hm Hb Hnf (tf & Hgf & Hcf) H3 Hnb (tb & rows & Hgb & Hcb & ->)].
  unfold load_feature_barcode_matrix_df.
  rewrite (@bind_ok _ _ _ _ s (IO.mkStore (IO.fs s) (IO.log s ++ [IO.IsDir dir])) true)
    by (unfold path_is_dir, IO.access; now rewrite Hdir).
  cbn [negb].
  erewrite bind_ok by (eapply load_mat_run; cbn [IO.fs]; eassumption).
  erewrite bind_ok.
  2:{ erewrite load_features_run by (cbn [IO.fs]; eassumption).
      rewrite (unpack3_zip_star EmptyString) by assumption.
      reflexivity. }
  cbn beta iota.
  erewrite bind_ok by (eapply load_barcodes_run; cbn [IO.fs]; eassumption).
  rewrite sum_lists_concat, tail_is_assemble.
  cbn [IO.fs IO.log]. unfold loader_trace.
  rewrite <- !app_assoc. reflexivity.
Qed.


(** ** Assembly: when it succeeds and how it fails *)

Lemma zip_star_columns3 {A B} (d : A) (f : A -> B) (rows : list (list A)) :
  Py.zip_star [map f (Py.column_at d 0 rows); map f (Py.column_at d 1 rows);
               map f (Py.column_at d 2 rows)]
  = map (fun row => [f (nth 0 row d); f (nth 1 row d); f (nth 2 row d)]) rows.
Proof.
  induction rows as [|row rows IH]; [reflexivity|].
  cbn in *. now rewrite <- IH.
Qed.

Lemma first_three_fields {A B} (d : A) (f : A -> B) (rows : list (list A)) :
  Py.min_fields rows = 3 ->
  map (fun row => [f (nth 0 row d); f (nth 1 row d); f (nth 2 row d)]) rows
  = map (fun row => map f (firstn 3 row)) rows.
Proof.
  intros Hmin. apply map_ext_in. intros row Hin.
  rewrite (@firstn3_nth _ d row); [reflexivity|].
  rewrite <- Hmin. now apply (@min_fields_le _ rows row).
Qed.

Lemma set_columns_raises (df : DataFrame) (labels : list label) (e : exn) :
  set_columns df labels = Raise e -> e = ValueError.
Proof.
  unfold set_columns. destruct (_ =? _); [discriminate|]. now intros [= <-].
Qed.

Lemma set_columns_inv (df df' : DataFrame) (labels : list label) :
  set_columns df labels = Ok df' ->
  List.length labels = List.length (columns df)
  /\ df' = mkDF (index_names df) (index df) labels (data df).
Proof.
  unfold set_columns. destruct (Nat.eqb_spec (List.length labels) (List.length (columns df)));
    [|discriminate].
  intros [= <-]. auto.
Qed.

Lemma insert_raises (df : DataFrame) (loc : nat) (name : label)
      (vals : list value) (e : exn) :
  loc <= List.length (columns df) ->
  insert df loc name vals = Raise e -> e = ValueError.
Proof.
  intros Hloc. unfold insert.
  destruct (label_in name (columns df)); [now intros [= <-]|].
  destruct (negb _); [now intros [= <-]|].
  destruct (Nat.ltb_spec (List.length (columns df)) loc); [lia|discriminate].
Qed.

(** The frame of the matrix has as many labels as columns. *)
Lemma from_spmatrix_shape (m : Sparse.coo_matrix) :
  List.length (columns (from_spmatrix m)) = Sparse.ncols m
  /\ List.length (data (from_spmatrix m)) = Sparse.ncols m
  /\ n_rows (from_spmatrix m) = Sparse.nrows m.
Proof.
  unfold from_spmatrix, n_rows.
  cbn [columns data index Sparse.tocsc Sparse.csc_ncols Sparse.csc_nrows
       Sparse.csc_columns].
  now rewrite range_labels_length, range_index_length, !length_map, length_seq.
Qed.

(** What the three inserts leave in the frame when they all succeed. *)
Lemma inserts_inv (df1 df2 df3 df4 : DataFrame) (ids types genes : list value) :
  insert df1 0 (LStr "feature_id") ids = Ok df2 ->
  insert df2 1 (LStr "feature_type") types = Ok df3 ->
  insert df3 2 (LStr "gene") genes = Ok df4 ->
  label_in (LStr "feature_id") (columns df1) = false
  /\ label_in (LStr "feature_type") (columns df1) = false
  /\ label_in (LStr "gene") (columns df1) = false.
Proof.
  intros H2 H3 H4.
  apply insert_inv in H2 as (Hid & Hc2 & _).
  apply insert_inv in H3 as (Hty & Hc3 & _).
  apply insert_inv in H4 as (Hge & _ & _).
  rewrite Hc3, Hc2 in Hge. rewrite Hc2 in Hty.
  unfold insert_at in Hty, Hge. cbn [firstn skipn app] in Hty, Hge.
  destruct (columns df1) as [|l ls].
  - cbn in *. auto.
  - cbn [firstn skipn app] in Hge. unfold label_in in *. cbn [existsb] in *.
    apply orb_false_elim in Hty as [_ Hty].
    apply orb_false_elim in Hge as [_ Hge].
    apply orb_false_elim in Hge as [_ Hge].
    auto.
Qed.

(** Assembly raises nothing but [ValueError]: the locations 0, 1 and 2 are
    always in range, and [set_index] finds its three keys. *)
Lemma assemble_raises (m : Sparse.coo_matrix)
      (ids genes types barcodes : list string) (e : exn) :
  assemble_table m ids genes types barcodes = Raise e -> e = ValueError.
Proof.
  unfold assemble_table.
  destruct (set_columns _ _) as [df1|e1] eqn:E1; cbn [obind];
    [|intros [= <-]; exact (set_columns_raises _ _ _ E1)].
  destruct (insert df1 0 _ _) as [df2|e2] eqn:E2; cbn [obind];
    [|intros [= <-]; apply (insert_raises _ _ _ _ _ (Nat.le_0_l _) E2)].
  destruct (insert df2 1 _ _) as [df3|e3] eqn:E3; cbn [obind].
  2:{ intros [= <-]. apply (fun H => insert_raises _ _ _ _ _ H E3).
      destruct (@insert_inv _ _ _ _ _ E2) as (_ & -> & _).
      rewrite insert_at_length. lia. }
  destruct (insert df3 2 _ _) as [df4|e4] eqn:E4; cbn [obind].
  2:{ intros [= <-]. apply (fun H => insert_raises _ _ _ _ _ H E4).
      destruct (@insert_inv _ _ _ _ _ E3) as (_ & -> & _).
      destruct (@insert_inv _ _ _ _ _ E2) as (_ & -> & _).
      rewrite !insert_at_length. lia. }
  assert (Hwf : List.length (columns df1) = List.length (data df1)).
  { destruct (set_columns_inv _ _ _ E1) as (Hlen & ->). cbn [columns data].
    destruct (from_spmatrix_shape m) as (Hc & Hd & _). lia. }
  destruct (@keys_found_once _ _ _ _ _ _ _ Hwf E2 E3 E4) as [df5 ->]. discriminate.
Qed.

Lemma column_at_length {A} (d : A) (j : nat) (rows : list (list A)) :
  List.length (Py.column_at d j rows) = List.length rows.
Proof. unfold Py.column_at. apply length_map. Qed.

(** Assembly of aligned inputs. *)
Lemma assemble_ok (m : Sparse.coo_matrix) (ids genes types barcodes : list string) :
  List.length ids = Sparse.nrows m ->
  List.length genes = Sparse.nrows m ->
  List.length types = Sparse.nrows m ->
  List.length barcodes = Sparse.ncols m ->
  (forall b, In b barcodes -> ~ In b reserved_labels) ->
  assemble_table m ids genes types barcodes
  = Ok (mkDF [Some (LStr "feature_id"); Some (LStr "gene"); Some (LStr "feature_type")]
             (Py.zip_star [map VStr ids; map VStr genes; map VStr types])
             (map LStr barcodes)
             (map (SparseInt (Sparse.nrows m))
                  (Sparse.csc_columns (Sparse.tocsc m)))).
Proof.
  intros Hids Hgenes Htypes Hcols Hclash.
  assert (Hid := @no_clash_absent barcodes "feature_id" Hclash (or_introl eq_refl)).
  assert (Hty := @no_clash_absent barcodes "feature_type" Hclash
                   (or_intror (or_introl eq_refl))).
  assert (Hge := @no_clash_absent barcodes "gene" Hclash
                   (or_intror (or_intror (or_introl eq_refl)))).
  assert (Hrows : List.length (range_index (Sparse.nrows m)) = Sparse.nrows m)
    by apply range_index_length.
  unfold assemble_table.
  rewrite set_columns_ok
    by (unfold from_spmatrix; cbn [columns Sparse.tocsc Sparse.csc_ncols];
        now rewrite length_map, range_labels_length).
  cbn [obind]. rewrite insert_ok; cbn [columns index data index_names n_rows];
    [|exact Hid|rewrite length_map; unfold n_rows, from_spmatrix; cbn [index Sparse.tocsc Sparse.csc_nrows]; lia|lia].
  cbn [obind insert_at firstn skipn app].
  rewrite insert_ok; cbn [columns index data index_names n_rows];
    [|cbn; exact Hty|rewrite length_map; unfold n_rows, from_spmatrix; cbn [index Sparse.tocsc Sparse.csc_nrows]; lia|cbn; lia].
  cbn [obind insert_at firstn skipn app].
  rewrite insert_ok; cbn [columns index data index_names n_rows];
    [|cbn; exact Hge|rewrite length_map; unfold n_rows, from_spmatrix; cbn [index Sparse.tocsc Sparse.csc_nrows]; lia|cbn; lia].
  cbn [obind insert_at firstn skipn app].
  unfold set_index, getitem_label.
  cbn [columns index index_names data].
  cbn [existsb label_in label_eqb String.eqb Ascii.eqb Bool.eqb orb negb].
  cbn [mapM select label_eqb String.eqb Ascii.eqb Bool.eqb obind].
  rewrite !select_absent by assumption.
  cbn [obind without label_in existsb label_eqb String.eqb Ascii.eqb Bool.eqb
       orb negb].
  rewrite without_absent.
  - reflexivity.
  - unfold from_spmatrix. cbn [data Sparse.tocsc Sparse.csc_columns].
    now rewrite !length_map, length_seq.
  - now apply reserved_not_barcode.
Qed.

Lemma assemble_columns_mismatch (m : Sparse.coo_matrix)
      (ids genes types barcodes : list string) :
  List.length barcodes <> Sparse.ncols m ->
  assemble_table m ids genes types barcodes = Raise ValueError.
Proof.
  intros H. unfold assemble_table, set_columns.
  destruct (from_spmatrix_shape m) as (Hc & _).
  rewrite length_map, Hc.
  destruct (Nat.eqb_spec (List.length barcodes) (Sparse.ncols m)); [contradiction|].
  reflexivity.
Qed.

Lemma assemble_rows_mismatch (m : Sparse.coo_matrix)
      (ids genes types barcodes : list string) :
  List.length ids <> Sparse.nrows m ->
  assemble_table m ids genes types barcodes = Raise ValueError.
Proof.
  intros H.
  destruct (assemble_table m ids genes types barcodes) as [df|e] eqn:E;
    [|now rewrite (assemble_raises _ _ _ _ _ _ E)].
  exfalso. unfold assemble_table in E.
  destruct (set_columns _ _) as [df1|e1] eqn:E1; [|discriminate].
  cbn [obind] in E.
  destruct (insert df1 0 _ _) as [df2|e2] eqn:E2; [|discriminate].
  destruct (set_columns_inv _ _ _ E1) as (_ & ->).
  unfold insert in E2. cbn [columns] in E2.
  destruct (label_in _ _); [discriminate|].
  destruct (from_spmatrix_shape m) as (_ & _ & Hn).
  unfold n_rows in *. cbn [index] in E2. rewrite length_map, Hn in E2.
  destruct (Nat.eqb_spec (List.length ids) (Sparse.nrows m)); [contradiction|].
  discriminate.
Qed.

Lemma assemble_clash (m : Sparse.coo_matrix)
      (ids genes types barcodes : list string) (b : string) :
  In b barcodes -> In b reserved_labels ->
  assemble_table m ids genes types barcodes = Raise ValueError.
Proof.
  intros Hb Hres.
  destruct (assemble_table m ids genes types barcodes) as [df|e] eqn:E;
    [|now rewrite (assemble_raises _ _ _ _ _ _ E)].
  exfalso. unfold assemble_table in E.
  destruct (set_columns _ _) as [df1|e1] eqn:E1; [|discriminate].
  cbn [obind] in E.
  destruct (insert df1 0 _ _) as [df2|e2] eqn:E2; [|discriminate].
  cbn [obind] in E.
  destruct (insert df2 1 _ _) as [df3|e3] eqn:E3; [|discriminate].
  cbn [obind] in E.
  destruct (insert df3 2 _ _) as [df4|e4] eqn:E4; [|discriminate].
  destruct (inserts_inv _ _ _ _ _ _ _ E2 E3 E4) as (Hid & Hty & Hge).
  destruct (set_columns_inv _ _ _ E1) as (_ & ->). cbn [columns] in Hid, Hty, Hge.
  rewrite label_in_LStr in Hid, Hty, Hge.
  assert (Hin : existsb (String.eqb b) barcodes = true).
  { apply existsb_exists. exists b. split; [exact Hb|apply String.eqb_refl]. }
  destruct Hres as [<-|[<-|[<-|[]]]]; congruence.
Qed.

Ltac readable_sample :=
  constructor;
  [ reflexivity | reflexivity | reflexivity | reflexivity | reflexivity
  | eexists; split; reflexivity
  | reflexivity | reflexivity
  | eexists; eexists; repeat split; reflexivity ].

Lemma expected_cell_sum (m : Sparse.coo_matrix) (names : list (option label))
      (idx : list (list value)) (labels : list label) (r c : nat) :
  r < Sparse.nrows m -> c < Sparse.ncols m ->
  cell (mkDF names idx labels
             (map (SparseInt (Sparse.nrows m)) (Sparse.csc_columns (Sparse.tocsc m))))
       r c
  = Some (VInt (Sparse.stored_sum (Sparse.entries m) r c)).
Proof.
  intros Hr Hc. unfold cell. cbn [data Sparse.tocsc Sparse.csc_columns].
  rewrite !nth_error_map, nth_error_nth' with (d := 0) by now rewrite length_seq.
  rewrite seq_nth by assumption. cbn [option_map values_of Nat.add].
  rewrite nth_error_map, nth_error_nth' with (d := 0) by now rewrite length_seq.
  rewrite seq_nth by assumption. cbn [option_map Nat.add].
  now rewrite column_of_get.
Qed.

Lemma expected_cell_outside (m : Sparse.coo_matrix) (names : list (option label))
      (idx : list (list value)) (labels : list label) (r c : nat) :
  Sparse.nrows m <= r \/ Sparse.ncols m <= c ->
  cell (mkDF names idx labels
             (map (SparseInt (Sparse.nrows m)) (Sparse.csc_columns (Sparse.tocsc m))))
       r c
  = None.
Proof.
  intros H. unfold cell. cbn [data Sparse.tocsc Sparse.csc_columns].
  destruct (Nat.lt_ge_cases c (Sparse.ncols m)) as [Hc|Hc].
  - rewrite !nth_error_map, nth_error_nth' with (d := 0) by now rewrite length_seq.
    cbn [option_map values_of]. apply nth_error_None.
    rewrite length_map, length_seq. lia.
  - replace (nth_error _ c) with (@None column); [reflexivity|].
    symmetry. apply nth_error_None. now rewrite !length_map, length_seq.
Qed.

(** ** The table of any readable triad *)


Lemma extra_dir_readable :
  readable_triad extra_dir "sample" "sample/matrix.mtx.gz" "sample/features.tsv.gz"
                 "sample/barcodes.tsv.gz" Samples.counts3x2 features_extra
                 Samples.barcodes2.
Proof. readable_sample. Qed.

Lemma no_reserved_barcode2 :
  forall b, In b Samples.barcodes2 -> ~ In b reserved_labels.
Proof. intros b [<-|[<-|[]]] [H|[H|[H|[]]]]; discriminate. Qed.


(** ** Listings that do not fit the matrix *)


Lemma three_barcodes_dir_readable :
  readable_triad three_barcodes_dir "sample" "sample/matrix.mtx.gz"
                 "sample/features.tsv.gz" "sample/barcodes.tsv.gz"
                 Samples.counts3x2 Samples.features3 ["AAA-1"; "BBB-1"; "CCC-1"].
Proof. readable_sample. Qed.


(** X3. When the three files are read and some barcode is [feature_id],
    [feature_type] or [gene], the loader raises [ValueError]: the column it
    wants to add exists already. *)
Theorem reserved_barcode_rejected (s : IO.store) (dir pm pf pb : IO.Path)
        (m : Sparse.coo_matrix) (features : list (list string))
        (barcodes : list string) (b : string) :
  readable_triad (IO.fs s) dir pm pf pb m features barcodes ->
  In b barcodes -> In b reserved_labels ->
  fst (load_feature_barcode_matrix_df dir s) = Raise ValueError.
Proof.
  intros Hread Hb Hres.
  rewrite (load_readable_run _ _ _ _ _ _ _ _ Hread). cbn [fst].
  now apply (assemble_clash _ _ _ _ _ b).
Qed.

Lemma clash_dir_readable :
  readable_triad clash_dir "sample" "sample/matrix.mtx.gz"
                 "sample/features.tsv.gz" "sample/barcodes.tsv.gz"
                 Samples.counts3x2 Samples.features3 ["AAA-1"; "gene"].
Proof. readable_sample. Qed.

Lemma reserved_barcode_rejected_witness :
  fst (load_feature_barcode_matrix_df "sample" (Samples.fresh clash_dir))
  = Raise ValueError.
Proof.
  apply (reserved_barcode_rejected (Samples.fresh clash_dir) _ _ _ _ _ _ _ "gene"
           clash_dir_readable).
  - right. left. reflexivity.
  - right. right. left. reflexivity.
Defined.

(** ** Accesses *)

(** X4. Whenever the three files are read, the loader has made exactly
    seven accesses, in this order: the directory test, then for the matrix,
    the features and the barcodes a lookup followed by the read of the path
    found; this holds whether the assembly then succeeds or fails, and the
    file system is left as it was. *)
Theorem loader_accesses (s : IO.store) (dir pm pf pb : IO.Path)
        (m : Sparse.coo_matrix) (features : list (list string))
        (barcodes : list string) :
  readable_triad (IO.fs s) dir pm pf pb m features barcodes ->
  IO.log (snd (load_feature_barcode_matrix_df dir s))
  = IO.log s ++ [IO.IsDir dir;
                 IO.Lookup dir "matrix.mtx.gz"; IO.MMRead pm;
                 IO.Lookup dir "features.tsv.gz"; IO.GzipOpen pf;
                 IO.Lookup dir "barcodes.tsv.gz"; IO.GzipOpen pb]
  /\ IO.fs (snd (load_feature_barcode_matrix_df dir s)) = IO.fs s.
Proof.
  intros Hread. rewrite (load_readable_run _ _ _ _ _ _ _ _ Hread).
  split; reflexivity.
Qed.

Lemma loader_accesses_witness :
  IO.log (snd (load_feature_barcode_matrix_df "sample" (Samples.fresh clash_dir)))
  = [IO.IsDir "sample";
     IO.Lookup "sample" "matrix.mtx.gz"; IO.MMRead "sample/matrix.mtx.gz";
     IO.Lookup "sample" "features.tsv.gz"; IO.GzipOpen "sample/features.tsv.gz";
     IO.Lookup "sample" "barcodes.tsv.gz"; IO.GzipOpen "sample/barcodes.tsv.gz"].
Proof.
  exact (proj1 (loader_accesses (Samples.fresh clash_dir) _ _ _ _ _ _ _
                  clash_dir_readable)).
Defined.

(** ** Failing early *)

(** X5. An error of the file lookup for the matrix leaves the loader
    unchanged, and nothing else is looked up or read: the trace ends with
    that lookup. *)
Theorem matrix_lookup_error_surfaces (s : IO.store) (dir : IO.Path) (e : exn) :
  IO.is_dir (IO.fs s) dir = true ->
  IO.nested (IO.fs s) dir "matrix.mtx.gz" = Raise e ->
  load_feature_barcode_matrix_df dir s
  = (Raise e,
     IO.mkStore (IO.fs s)
                (IO.log s ++ [IO.IsDir dir; IO.Lookup dir "matrix.mtx.gz"])).
Proof.
  intros Hdir Hn. unfold load_feature_barcode_matrix_df.
  rewrite (@bind_ok _ _ _ _ s (IO.mkStore (IO.fs s) (IO.log s ++ [IO.IsDir dir])) true)
    by (unfold path_is_dir, IO.access; now rewrite Hdir).
  cbn [negb]. unfold _load_mat, get_nested_filepath.
  unfold IO.bind, IO.access. cbn [IO.fs IO.log]. rewrite Hn.
  now rewrite <- app_assoc.
Qed.

Lemma matrix_lookup_error_surfaces_witness :
  load_feature_barcode_matrix_df "sample" (Samples.fresh (empty_dir "sample"))
  = (Raise (Foreign "FileNotFoundError"),
     IO.mkStore (empty_dir "sample")
                [IO.IsDir "sample"; IO.Lookup "sample" "matrix.mtx.gz"]).
Proof.
  apply (matrix_lookup_error_surfaces (Samples.fresh (empty_dir "sample")));
    reflexivity.
Defined.

(** X6. When the feature reader fails on its lines (no line, or a shortest
    line that does not have three fields), the loader raises [ValueError]
    and the barcodes file is neither looked up nor read. *)
Theorem features_failure_stops (s : IO.store) (dir pm pf : IO.Path)
        (m : Sparse.coo_matrix) (t : string) (rows : list (list string)) :
  IO.is_dir (IO.fs s) dir = true ->
  IO.nested (IO.fs s) dir "matrix.mtx.gz" = Ok pm ->
  IO.mtx (IO.fs s) pm = Ok m ->
  Sparse.in_bounds m = true ->
  IO.nested (IO.fs s) dir "features.tsv.gz" = Ok pf ->
  IO.gz_text (IO.fs s) pf = Ok t ->
  Csv.reader_rows TAB (TextIO.readlines t) = Ok rows ->
  Py.min_fields rows <> 3 ->
  load_feature_barcode_matrix_df dir s
  = (Raise ValueError,
     IO.mkStore (IO.fs s)
                (IO.log s ++ [IO.IsDir dir;
                              IO.Lookup dir "matrix.mtx.gz"; IO.MMRead pm;
                              IO.Lookup dir "features.tsv.gz"; IO.GzipOpen pf])).
Proof.
  intros Hdir Hnm Hm Hb Hnf Hgf Hcf Hmin.
  unfold load_feature_barcode_matrix_df.
  rewrite (@bind_ok _ _ _ _ s (IO.mkStore (IO.fs s) (IO.log s ++ [IO.IsDir dir])) true)
    by (unfold path_is_dir, IO.access; now rewrite Hdir).
  cbn [negb].
  erewrite bind_ok by (eapply load_mat_run; cbn [IO.fs]; eassumption).
  unfold IO.bind at 1.
  erewrite load_features_run by (cbn [IO.fs]; eassumption).
  rewrite unpack3_bad by (now rewrite (@zip_star_length _ EmptyString)).
  cbn [IO.fs IO.log]. now rewrite <- !app_assoc.
Qed.

Lemma features_failure_stops_witness :
  load_feature_barcode_matrix_df "sample" (Samples.fresh Samples.short_dir)
  = (Raise ValueError,
     IO.mkStore Samples.short_dir
                [IO.IsDir "sample";
                 IO.Lookup "sample" "matrix.mtx.gz"; IO.MMRead "sample/matrix.mtx.gz";
                 IO.Lookup "sample" "features.tsv.gz";
                 IO.GzipOpen "sample/features.tsv.gz"]).
Proof.
  apply (features_failure_stops (Samples.fresh Samples.short_dir) "sample"
           "sample/matrix.mtx.gz" "sample/features.tsv.gz" Samples.counts3x2
           (Samples.write_lines TAB Samples.features_short) Samples.features_short);
    try reflexivity.
  discriminate.
Defined.

(** ** The readers on plain files *)

Lemma split_from_no_sep (sep : ascii) (body cur : string) :
  no_sep sep body = true -> split_from sep cur body = [(cur ++ body)%string].
Proof.
  revert cur. induction body as [|c body IH]; intros cur H; cbn in *.
  - clear H. induction cur as [|a cur IHc]; cbn; [reflexivity|].
    injection IHc as IHc. now rewrite <- IHc.
  - apply andb_prop in H as [Hc Hb]. apply negb_true_iff in Hc. rewrite Hc.
    now rewrite (IH _ Hb), snoc_append.
Qed.

Lemma plain_row_no_sep (sep : ascii) (body : string) :
  no_sep sep body = true ->
  plain_row sep body = if non_empty body then [body] else [].
Proof.
  intros H. destruct body as [|c body]; [reflexivity|].
  unfold plain_row, split. now rewrite split_from_no_sep.
Qed.

Lemma concat_plain_rows (bodies : list string) :
  Forall (fun b => no_sep TAB b = true) bodies ->
  List.concat (map (plain_row TAB) bodies) = filter non_empty bodies.
Proof.
  induction 1 as [|b bodies Hb _ IH]; [reflexivity|].
  cbn [map List.concat filter]. rewrite IH, (plain_row_no_sep _ _ Hb).
  now destruct (non_empty b).
Qed.

Lemma plain_rows_of_file (bodies : list string) :
  Forall (fun b => plain b = true) bodies ->
  Forall short_enough bodies ->
  Csv.reader_rows TAB (TextIO.readlines (with_newlines bodies))
  = Ok (map (plain_row TAB) bodies).
Proof.
  intros Hp Hs. rewrite (readlines_plain Hp). now apply csv_rows_plain.
Qed.

Lemma plain_row_three (body : string) :
  List.length (split TAB body) = 3 -> plain_row TAB body = split TAB body.
Proof. destruct body; [discriminate|reflexivity]. Qed.

(** X7. On a features file of plain lines (no quote character), each with
    exactly three tab-separated fields and at least one line, the feature
    reader returns the first fields, the second fields and the third fields
    of the lines, in file order. *)
Theorem features_of_plain_lines (s : IO.store) (dir p : IO.Path)
        (bodies : list string) :
  IO.nested (IO.fs s) dir "features.tsv.gz" = Ok p ->
  IO.gz_text (IO.fs s) p = Ok (with_newlines bodies) ->
  Forall (fun b => plain b = true) bodies ->
  Forall short_enough bodies ->
  bodies <> [] ->
  Forall (fun b => List.length (split TAB b) = 3) bodies ->
  fst (_load_features dir s)
  = Ok (map (fun b => nth 0 (split TAB b) EmptyString) bodies,
        map (fun b => nth 1 (split TAB b) EmptyString) bodies,
        map (fun b => nth 2 (split TAB b) EmptyString) bodies).
Proof.
  intros Hn Hg Hp Hs Hne H3.
  rewrite (@load_features_run s dir p _ _ Hn Hg (plain_rows_of_file _ Hp Hs)).
  cbn [fst].
  assert (Hrows : map (plain_row TAB) bodies = map (split TAB) bodies).
  { apply map_ext_in. intros b Hb. apply plain_row_three.
    exact (proj1 (Forall_forall _ _) H3 b Hb). }
  rewrite Hrows, (@unpack3_zip_star _ EmptyString).
  - unfold Py.column_at. now rewrite !map_map.
  - apply min_fields_uniform.
    + destruct bodies; [congruence|discriminate].
    + now rewrite Forall_map.
Qed.

Lemma feature_bodies_plain : Forall (fun b => plain b = true) feature_bodies.
Proof. repeat constructor. Qed.

Lemma bodies_short (bodies : list string) :
  forallb (fun b => (N.of_nat (String.length b) <? Csv.field_limit)%N) bodies = true ->
  Forall short_enough bodies.
Proof.
  intros H. apply Forall_forall. intros b Hb.
  apply (proj1 (forallb_forall _ _) H) in Hb. now apply N.ltb_lt.
Qed.

Lemma features_of_plain_lines_witness :
  fst (_load_features "sample"
         (Samples.fresh (plain_dir feature_bodies ["AAA-1"; "BBB-1"])))
  = Ok (["G1"; "G2"], ["A"; "B"], ["Gene Expression"; "Gene Expression"]).
Proof.
  apply (features_of_plain_lines
           (Samples.fresh (plain_dir feature_bodies ["AAA-1"; "BBB-1"]))
           "sample" "sample/features.tsv.gz" feature_bodies
           eq_refl eq_refl feature_bodies_plain
           (bodies_short feature_bodies eq_refl)
           ltac:(discriminate) ltac:(repeat constructor)).
Defined.

(** X8. A line with fewer than three fields in a features file of plain
    lines makes the feature reader raise [ValueError]; a blank line is such
    a line, for the csv reader yields it as a record without fields. *)
Theorem short_feature_line_rejected (s : IO.store) (dir p : IO.Path)
        (bodies : list string) (b : string) :
  IO.nested (IO.fs s) dir "features.tsv.gz" = Ok p ->
  IO.gz_text (IO.fs s) p = Ok (with_newlines bodies) ->
  Forall (fun b => plain b = true) bodies ->
  Forall short_enough bodies ->
  In b bodies ->
  b = EmptyString \/ List.length (split TAB b) < 3 ->
  Csv.reader_rows TAB (TextIO.readlines (with_newlines bodies))
  = Ok (map (plain_row TAB) bodies)
  /\ fst (_load_features dir s) = Raise ValueError.
Proof.
  intros Hn Hg Hp Hs Hin Hb.
  split; [now apply plain_rows_of_file|].
  rewrite (@load_features_run s dir p _ _ Hn Hg (plain_rows_of_file _ Hp Hs)).
  cbn [fst]. apply unpack3_bad. rewrite (@zip_star_length _ EmptyString).
  assert (Hlt : Py.min_fields (map (plain_row TAB) bodies) < 3).
  { apply min_fields_short. apply Exists_exists.
    exists (plain_row TAB b). split; [now apply in_map|].
    destruct Hb as [->|Hb]; [cbn; lia|].
    destruct b; [cbn; lia|exact Hb]. }
  lia.
Qed.

Lemma short_feature_line_rejected_witness :
  fst (_load_features "sample"
         (Samples.fresh (plain_dir feature_bodies_blank ["AAA-1"; "BBB-1"])))
  = Raise ValueError.
Proof.
  refine (proj2
    (short_feature_line_rejected
       (Samples.fresh (plain_dir feature_bodies_blank ["AAA-1"; "BBB-1"]))
       "sample" "sample/features.tsv.gz" feature_bodies_blank EmptyString
       eq_refl eq_refl ltac:(repeat constructor)
       (bodies_short feature_bodies_blank eq_refl)
       (or_intror (or_introl eq_refl)) (or_introl eq_refl))).
Defined.

(** X9. On a barcodes file of plain lines without tab, the barcode reader
    returns the lines themselves in file order, blank lines left out. *)
Theorem barcodes_one_per_line (s : IO.store) (dir p : IO.Path)
        (bodies : list string) :
  IO.nested (IO.fs s) dir "barcodes.tsv.gz" = Ok p ->
  IO.gz_text (IO.fs s) p = Ok (with_newlines bodies) ->
  Forall (fun b => plain b = true) bodies ->
  Forall short_enough bodies ->
  Forall (fun b => no_sep TAB b = true) bodies ->
  fst (_load_barcodes dir s) = Ok (filter non_empty bodies).
Proof.
  intros Hn Hg Hp Hs Ht.
  rewrite (@barcodes_of_plain_lines s dir p bodies Hn Hg Hp Hs).
  now rewrite concat_plain_rows.
Qed.

Lemma barcodes_one_per_line_witness :
  fst (_load_barcodes "sample"
         (Samples.fresh (plain_dir feature_bodies barcode_bodies)))
  = Ok ["AAA-1"; "BBB-1"].
Proof.
  apply (barcodes_one_per_line
           (Samples.fresh (plain_dir feature_bodies barcode_bodies))
           "sample" "sample/barcodes.tsv.gz" barcode_bodies
           eq_refl eq_refl ltac:(repeat constructor)
           (bodies_short barcode_bodies eq_refl) ltac:(repeat constructor)).
Defined.

(** ** Line terminators *)

Lemma universal_newlines_line_end (body rest : string) (crlf : bool) :
  no_line_break body = true ->
  TextIO.universal_newlines (body ++ line_end crlf ++ rest)
  = (body ++ String LF (TextIO.universal_newlines rest))%string.
Proof.
  intros H. induction body as [|c body IH].
  - destruct crlf; reflexivity.
  - cbn in H. apply andb_prop in H as [Hc Hb]. apply andb_prop in Hc as [_ Hcr].
    apply negb_true_iff in Hcr.
    cbn [String.append TextIO.universal_newlines]. rewrite Hcr.
    now rewrite <- (IH Hb).
Qed.

Lemma lines_from_body (body cur rest : string) :
  no_line_break body = true ->
  TextIO.lines_from cur (body ++ String LF rest)
  = (cur ++ body ++ String LF EmptyString)%string
    :: TextIO.lines_from EmptyString rest.
Proof.
  revert cur. induction body as [|c body IH]; intros cur H.
  - reflexivity.
  - cbn in H. apply andb_prop in H as [Hc Hb]. apply andb_prop in Hc as [Hlf _].
    apply negb_true_iff in Hlf.
    cbn [String.append TextIO.lines_from]. rewrite Hlf.
    now rewrite (IH _ Hb), snoc_append.
Qed.

(** Read in text mode, a file shows LF at the end of every line, whichever
    terminator it was written with. *)
Lemma readlines_line_ends (lines : list (string * bool)) :
  Forall (fun l => no_line_break (fst l) = true) lines ->
  TextIO.readlines (with_line_ends lines)
  = map (fun l => fst l ++ String LF EmptyString)%string lines.
Proof.
  unfold TextIO.readlines.
  induction 1 as [|l lines Hl _ IH]; [reflexivity|].
  cbn [with_line_ends map].
  now rewrite (universal_newlines_line_end _ _ _ Hl), (lines_from_body _ _ _ Hl), IH.
Qed.

Lemma with_newlines_line_ends (bodies : list string) :
  with_newlines bodies = with_line_ends (map (fun b => (b, false)) bodies).
Proof. induction bodies as [|b bodies IH]; cbn; [reflexivity|]. now rewrite IH. Qed.

Lemma readlines_relined (lines : list (string * bool)) :
  Forall (fun l => no_line_break (fst l) = true) lines ->
  TextIO.readlines (with_line_ends lines)
  = TextIO.readlines (with_newlines (map fst lines)).
Proof.
  intros H. rewrite with_newlines_line_ends, !readlines_line_ends.
  - now rewrite !map_map.
  - rewrite map_map, Forall_map. exact H.
  - exact H.
Qed.

Lemma agree_ret {A} (fs fs' : IO.FileSystem) (a : A) : agree fs fs' (IO.ret a).
Proof. intros s s' H H'. cbn. auto. Qed.

Lemma agree_raise {A} (fs fs' : IO.FileSystem) (e : exn) :
  agree fs fs' (@IO.raise A e).
Proof. intros s s' H H'. cbn. auto. Qed.

Lemma agree_lift {A} (fs fs' : IO.FileSystem) (o : outcome A) :
  agree fs fs' (IO.lift o).
Proof. intros s s' H H'. cbn. auto. Qed.

Lemma agree_access {A} (fs fs' : IO.FileSystem) (ev : IO.event)
      (read : IO.FileSystem -> outcome A) :
  read fs = read fs' -> agree fs fs' (IO.access ev read).
Proof. intros Hr s s' H H'. unfold IO.access. cbn. now rewrite H, H', Hr. Qed.

Lemma agree_bind {A B} (fs fs' : IO.FileSystem) (m : IO.M A) (k : A -> IO.M B) :
  agree fs fs' m -> (forall a, agree fs fs' (k a)) -> agree fs fs' (IO.bind m k).
Proof.
  intros Hm Hk s s' H H'. unfold IO.bind.
  destruct (Hm s s' H H') as (Hres & Hfs & Hfs').
  destruct (m s) as [[a|e] s1], (m s') as [[a'|e'] s1']; cbn in *;
    try discriminate.
  - injection Hres as <-. now apply Hk.
  - injection Hres as <-. auto.
Qed.

Lemma gzip_open_rt_agree (fs fs' : IO.FileSystem) (p : IO.Path) :
  relined fs fs' -> agree fs fs' (gzip_open_rt p).
Proof.
  intros [_ _ _ Hgz]. apply agree_access.
  destruct (Hgz p) as [->|(lines & Hl & -> & ->)]; [reflexivity|].
  cbn [obind]. now rewrite readlines_relined.
Qed.

Lemma loader_agree (fs fs' : IO.FileSystem) (dir : IO.Path) :
  relined fs fs' -> agree fs fs' (load_feature_barcode_matrix_df dir).
Proof.
  intros Hrel. pose proof Hrel as [Hdir Hnested Hmtx _].
  assert (Hlookup : forall name, agree fs fs' (get_nested_filepath dir name)).
  { intros name. apply agree_access. apply Hnested. }
  assert (Hgz := gzip_open_rt_agree fs fs').
  unfold load_feature_barcode_matrix_df, _load_mat, _load_features, _load_barcodes,
    path_is_dir, mmread.
  repeat first
    [ apply agree_ret | apply agree_raise | apply agree_lift
    | apply Hlookup | now apply Hgz
    | apply agree_access; now rewrite ?Hdir, ?Hmtx
    | apply agree_bind; [|intros]
    | match goal with
      | |- agree _ _ (match ?x with _ => _ end) => destruct x
      | |- agree _ _ (if ?b then _ else _) => destruct b
      end ].
Qed.

(** X10. The loader does not see how the lines of the features and
    barcodes files are terminated: on two file systems that differ only in
    using CR LF or LF at the end of lines of these files, it returns the same
    outcome. *)
Theorem line_ends_irrelevant (s s' : IO.store) (dir : IO.Path) :
  relined (IO.fs s) (IO.fs s') ->
  fst (load_feature_barcode_matrix_df dir s)
  = fst (load_feature_barcode_matrix_df dir s').
Proof.
  intros Hrel. now apply (loader_agree _ _ dir Hrel s s').
Qed.

Lemma crlf_dir_relined : relined crlf_dir lf_dir.
Proof.
  constructor; try reflexivity.
  intros p. unfold crlf_dir, lf_dir, Samples.matrix_dir. cbn [IO.gz_text].
  destruct (String.eqb p _).
  - right. exists (map (fun b => (b, true)) feature_bodies).
    split; [repeat constructor|]. split; reflexivity.
  - destruct (String.eqb p _); [|now left].
    right. exists [("AAA-1", true); ("BBB-1", false)].
    split; [repeat constructor|]. split; reflexivity.
Qed.

Lemma line_ends_irrelevant_witness :
  fst (load_feature_barcode_matrix_df "sample" (Samples.fresh crlf_dir))
  = fst (load_feature_barcode_matrix_df "sample" (Samples.fresh lf_dir)).
Proof.
  apply (line_ends_irrelevant (Samples.fresh crlf_dir) (Samples.fresh lf_dir)
           "sample" crlf_dir_relined).
Defined.

(** ** Probe sets: the accesses and the files without a usable table *)

(** X11. [load_prove_set_df] makes one access, the read of its file,
    whatever the outcome, and leaves the file system unchanged; an error of
    that read is the error it raises. *)
Theorem probe_set_read_once (s : IO.store) (path : IO.Path) :
  snd (load_prove_set_df path s)
  = IO.mkStore (IO.fs s) (IO.log s ++ [IO.ReadCsv path])
  /\ (forall e, IO.text (IO.fs s) path = Raise e ->
        fst (load_prove_set_df path s) = Raise e).
Proof.
  unfold load_prove_set_df, pd_read_csv.
  split; [|intros e He]; unfold IO.bind at 1; unfold IO.access;
    [|now rewrite He].
  destruct (obind (IO.text (IO.fs s) path) _) as [df0|e]; [|reflexivity].
  rewrite bind_lift.
  destruct (getitem_label _ _) as [inc|e]; [|reflexivity].
  rewrite bind_lift.
  destruct (getitem_frame _ _) as [df1|e]; [|reflexivity].
  rewrite bind_lift.
  destruct (drop_columns _ _) as [df2|e]; reflexivity.
Qed.

Lemma tokenize_comment_lines (lines : list (string * bool)) :
  Forall (fun l => no_line_break (fst l) = true) lines ->
  Tokenizer.tokenize HASH (comment_lines lines) = Ok [].
Proof.
  unfold Tokenizer.tokenize.
  induction 1 as [|l lines Hl _ IH]; [reflexivity|].
  cbn [comment_lines].
  now rewrite (@comment_line_dropped Tokenizer.init (snd l) (fst l) _ eq_refl Hl).
Qed.

(** X12. A probe-set file made of comment lines only (an empty file
    included) makes [load_prove_set_df] raise [EmptyDataError]: no line is
    left to name the columns. *)
Theorem comments_only_rejected (s : IO.store) (path : IO.Path)
        (lines : list (string * bool)) :
  Forall (fun l => no_line_break (fst l) = true) lines ->
  IO.text (IO.fs s) path = Ok (comment_lines lines) ->
  fst (load_prove_set_df path s) = Raise EmptyDataError.
Proof.
  intros Hl Ht. rewrite (@load_prove_set_df_text s path _ Ht).
  unfold ReadCsv.read_csv. now rewrite (tokenize_comment_lines _ Hl).
Qed.

Lemma comments_only_rejected_witness :
  fst (load_prove_set_df "probes.csv" (probe_fs probe_csv_comments))
  = Raise EmptyDataError.
Proof.
  apply (comments_only_rejected (probe_fs probe_csv_comments) "probes.csv"
           [(" probe set", false); (" version 1", true)]
           ltac:(repeat constructor) eq_refl).
Defined.

(** The column [df["included"]] of the renamed frame is the column
    [read_csv] inferred from the [included] fields. *)
Lemma included_column (header : list string) (rows : list (list string)) (k : nat) :
  ReadCsv.has_dup header = false ->
  nth_error header k = Some "included" ->
  getitem_label (probe_frame header rows) (LStr "included")
  = Ok (ReadCsv.infer (map (ReadCsv.field_at k) rows)).
Proof.
  intros Hdup Hk.
  apply nth_error_middle in Hk as (pre & post & -> & <-).
  destruct (@has_dup_middle pre post _ Hdup) as [Hpre Hpost].
  unfold getitem_label, probe_frame, rename_columns, parsed_frame.
  cbn [columns data].
  rewrite !map_app, length_app. cbn [map List.length].
  rewrite seq_app, map_app. cbn [seq Nat.add map].
  rewrite select_app by (now rewrite !length_map, length_seq).
  fold (renamed (LStr "included")).
  change (map (fun l => if label_eqb l (LStr "gene_id") then LStr "feature_id" else l))
    with (map renamed).
  rewrite (@select_absent _ _ _ (@included_absent pre Hpre)).
  cbn [select app renamed label_eqb String.eqb Ascii.eqb Bool.eqb].
  now rewrite (@select_absent _ _ _ (@included_absent post Hpost)).
Qed.

(** The call on a well-formed file, up to the filtering step. *)
Lemma probe_steps (s : IO.store) (path : IO.Path) (content : string)
      (header : list string) (rows : list (list string)) :
  IO.text (IO.fs s) path = Ok content ->
  Tokenizer.tokenize HASH content = Ok (header :: rows) ->
  ReadCsv.has_dup header = false ->
  existsb ReadCsv.is_empty header = false ->
  Forall (fun row => List.length row = List.length header) rows ->
  fst (load_prove_set_df path s)
  = obind (getitem_label (probe_frame header rows) (LStr "included")) (fun included =>
    obind (getitem_frame (probe_frame header rows) included) (fun df1 =>
    drop_columns df1 [LStr "included"])).
Proof.
  intros Ht Htok Hdup Hemp Hrect.
  rewrite (@load_prove_set_df_text s path _ Ht).
  now rewrite (@read_csv_parsed content header rows Htok Hdup Hemp Hrect).
Qed.



Lemma probe_set_read_once_witness :
  load_prove_set_df "absent.csv" (probe_fs probe_csv_comments)
  = (Raise (Foreign "FileNotFoundError"),
     IO.mkStore (Samples.single_file "probes.csv" probe_csv_comments)
                [IO.ReadCsv "absent.csv"]).
Proof.
  destruct (probe_set_read_once (probe_fs probe_csv_comments) "absent.csv")
    as [Hstore Herr].
  rewrite (surjective_pairing (load_prove_set_df _ _)).
  now rewrite Hstore, (Herr _ eq_refl).
Defined.

(** ** Comments after the fields of a line *)

(** Inside a comment that follows fields, every character up to the line
    break is dropped. *)
Lemma eat_comment (p : Tokenizer.parser) (body rest : string) :
  Tokenizer.st p = Tokenizer.EAT_COMMENT ->
  no_line_break body = true ->
  Tokenizer.run HASH p (body ++ rest)%string = Tokenizer.run HASH p rest.
Proof.
  intros Hst. induction body as [|c body IH]; intros Hb; [reflexivity|].
  cbn [no_line_break] in Hb.
  apply andb_prop in Hb as [Hc Hb]. apply andb_prop in Hc as [Hlf Hcr].
  apply negb_true_iff in Hlf, Hcr.
  cbn [String.append Tokenizer.run]. unfold Tokenizer.step at 1.
  rewrite Hst, Hlf, Hcr. cbn [obind]. now apply IH.
Qed.

Lemma comment_cut (p : Tokenizer.parser) (crlf : bool) (body rest : string) :
  Tokenizer.st p = Tokenizer.START_FIELD \/ Tokenizer.st p = Tokenizer.IN_FIELD ->
  no_line_break body = true ->
  Tokenizer.run HASH p (String HASH (body ++ line_end crlf ++ rest))
  = Tokenizer.run HASH p (line_end crlf ++ rest).
Proof.
  intros Hst Hb. cbn [Tokenizer.run]. unfold Tokenizer.step at 1.
  replace (match Tokenizer.st p with
           | Tokenizer.START_RECORD => Tokenizer.start_record HASH p HASH
           | Tokenizer.START_FIELD => Tokenizer.start_field HASH p HASH
           | Tokenizer.IN_FIELD => Tokenizer.in_field HASH p HASH
           | Tokenizer.IN_QUOTED_FIELD => _
           | Tokenizer.QUOTE_IN_QUOTED_FIELD => _
           | Tokenizer.EAT_CRNL => _
           | Tokenizer.EAT_CRNL_NOP => _
           | Tokenizer.EAT_COMMENT => _
           | Tokenizer.EAT_LINE_COMMENT => _
           | Tokenizer.WHITESPACE_LINE => _
           end)
    with (Ok (Tokenizer.set_state Tokenizer.EAT_COMMENT (Tokenizer.end_field p)))
    by (destruct Hst as [->| ->]; reflexivity).
  cbn [obind]. rewrite eat_comment by (try reflexivity; assumption).
  destruct crlf; cbn [line_end String.append Tokenizer.run];
    unfold Tokenizer.step; destruct Hst as [->| ->]; reflexivity.
Qed.

Lemma tokenize_inline_comment (crlf : bool) (before body after : string) :
  in_open_line before = true ->
  no_line_break body = true ->
  Tokenizer.tokenize HASH
    (before ++ String HASH (body ++ line_end crlf ++ after))%string
  = Tokenizer.tokenize HASH (before ++ line_end crlf ++ after)%string.
Proof.
  intros Hopen Hb. unfold Tokenizer.tokenize. rewrite !run_app.
  unfold in_open_line in Hopen.
  destruct (Tokenizer.run HASH Tokenizer.init before) as [p|e]; cbn [obind];
    [|reflexivity].
  rewrite comment_cut; [reflexivity| |exact Hb].
  destruct (Tokenizer.st p); try discriminate; auto.
Qed.



(** ** Probe sets whose [included] column is not boolean *)

Lemma forallb_false_in {A} (f : A -> bool) (l : list A) (x : A) :
  In x l -> f x = false -> forallb f l = false.
Proof.
  intros Hin Hx. destruct (forallb f l) eqn:E; [|reflexivity].
  rewrite forallb_forall in E. rewrite (E x Hin) in Hx. discriminate.
Qed.

Lemma na_not_bool (t : string) :
  ReadCsv.is_na t = true -> ReadCsv.bool_of_token t = None.
Proof.
  intros Hna. destruct (ReadCsv.bool_of_token t) as [b|] eqn:E; [|reflexivity].
  assert (Hb : ReadCsv.is_bool_token t = true)
    by (unfold ReadCsv.is_bool_token; now rewrite E).
  destruct (bool_token_cases t Hb) as [Hno _]. congruence.
Qed.

(** Booleans with a missing value among them: an object column of booleans
    and missing values. *)
Lemma infer_bool_with_na (toks : list string) (tb tn : string) :
  Forall (fun t => ReadCsv.is_bool_token t = true \/ ReadCsv.is_na t = true) toks ->
  In tb toks -> ReadCsv.is_bool_token tb = true ->
  In tn toks -> ReadCsv.is_na tn = true ->
  exists v vals,
    ReadCsv.infer toks = Dense DObject (v :: vals)
    /\ forallb is_bool_value (v :: vals) = false
    /\ forallb is_bool_or_na (v :: vals) = true.
Proof.
  intros Hall Hb Hbt Hn Hnt.
  set (conv := fun t => match ReadCsv.bool_of_token t with
                        | Some b => VBool b
                        | None => VNaN
                        end).
  destruct (bool_token_cases tb Hbt) as [Hbna Hbnum].
  assert (Hpres : In tb (filter (fun t => negb (ReadCsv.is_na t)) toks)).
  { apply filter_In. split; [exact Hb|now rewrite Hbna]. }
  assert (Hinf : ReadCsv.infer toks = Dense DObject (map conv toks)).
  { unfold ReadCsv.infer. destruct toks as [|t0 toks0]; [contradiction|].
    destruct (filter (fun t => negb (ReadCsv.is_na t)) (t0 :: toks0))
      as [|q present] eqn:Ep; [contradiction|].
    rewrite (forallb_false_in ReadCsv.is_number (q :: present) tb Hpres Hbnum).
    replace (forallb ReadCsv.is_bool_token (q :: present)) with true.
    - replace (existsb ReadCsv.is_na (t0 :: toks0)) with true; [reflexivity|].
      symmetry. apply existsb_exists. now exists tn.
    - symmetry. apply forallb_forall. intros x Hx. rewrite <- Ep in Hx.
      apply filter_In in Hx as [Hx Hxna].
      destruct (proj1 (Forall_forall _ _) Hall x Hx) as [H|H]; [exact H|].
      rewrite H in Hxna. discriminate. }
  destruct toks as [|t0 toks0]; [contradiction|].
  exists (conv t0), (map conv toks0). split; [exact Hinf|].
  change (conv t0 :: map conv toks0) with (map conv (t0 :: toks0)).
  split.
  - apply (forallb_false_in is_bool_value _ (conv tn)).
    + now apply in_map.
    + unfold conv. now rewrite (na_not_bool tn Hnt).
  - apply forallb_forall. intros v Hv. apply in_map_iff in Hv as (t & <- & _).
    unfold conv. now destruct (ReadCsv.bool_of_token t).
Qed.



(** Numbers and missing values, at least one field: a numeric column, none
    of whose values can name a column. *)
Lemma infer_number (toks : list string) :
  toks <> [] ->
  Forall (fun t => ReadCsv.is_number t = true \/ ReadCsv.is_na t = true) toks ->
  exists v vals,
    ReadCsv.infer toks = Dense DNumber (v :: vals) /\ label_of_value v = None.
Proof.
  intros Hne Hall. destruct toks as [|t0 toks0]; [congruence|].
  unfold ReadCsv.infer.
  destruct (filter (fun t => negb (ReadCsv.is_na t)) (t0 :: toks0))
    as [|q present] eqn:Ep.
  - exists VNaN, (map (fun _ => VNaN) toks0). split; reflexivity.
  - replace (forallb ReadCsv.is_number (q :: present)) with true.
    + cbn [map]. eexists. eexists. split; [reflexivity|].
      now destruct (ReadCsv.is_na t0).
    + symmetry. apply forallb_forall. intros x Hx. rewrite <- Ep in Hx.
      apply filter_In in Hx as [Hx Hxna].
      destruct (proj1 (Forall_forall _ _) Hall x Hx) as [H|H]; [exact H|].
      rewrite H in Hxna. discriminate.
Qed.





(** ** The errors of the matrix loader *)

Lemma parse_process_char_raises (d : ascii) (r : Csv.reader) (c : option ascii)
      (e : exn) :
  Csv.parse_process_char d r c = Raise e -> e = CsvError.
Proof.
  unfold Csv.parse_process_char, Csv.start_field, Csv.parse_add_char.
  destruct (Csv.st r), c as [ch|];
    repeat match goal with
           | |- context [if ?b then _ else _] => destruct b
           end;
    cbn; intros H; try discriminate; now inversion H.
Qed.

Lemma feed_raises (d : ascii) (line : string) (r : Csv.reader) (e : exn) :
  Csv.feed d r line = Raise e -> e = CsvError.
Proof.
  revert r. induction line as [|ch line IH]; intros r; cbn [Csv.feed].
  - apply parse_process_char_raises.
  - destruct (Csv.parse_process_char d r (Some ch)) as [r'|e'] eqn:E; cbn [obind].
    + apply IH.
    + intros [= <-]. exact (parse_process_char_raises _ _ _ _ E).
Qed.

Lemma records_raises (d : ascii) (lines : list string) (r : Csv.reader) (e : exn) :
  Csv.records d r lines = Raise e -> e = CsvError.
Proof.
  revert r. induction lines as [|line lines IH]; intros r; cbn [Csv.records].
  - destruct (_ || _); discriminate.
  - destruct (Csv.feed d r line) as [r'|e'] eqn:E; cbn [obind].
    + destruct (Csv.state_eqb _ _); [|apply IH].
      destruct (Csv.records d Csv.parse_reset lines) as [rows|e'] eqn:E';
        cbn [obind]; [discriminate|].
      intros [= <-]. exact (IH _ E').
    + intros [= <-]. exact (feed_raises _ _ _ _ E).
Qed.

Lemma bind_raise_inv {A B} (m : IO.M A) (k : A -> IO.M B) (s : IO.store) (e : exn) :
  fst (IO.bind m k s) = Raise e ->
  fst (m s) = Raise e
  \/ exists a, fst (m s) = Ok a /\ fst (k a (snd (m s))) = Raise e.
Proof.
  unfold IO.bind. destruct (m s) as [[a|e'] s1]; cbn; intros H.
  - right. now exists a.
  - injection H as <-. now left.
Qed.

Lemma lookup_raises (dir : IO.Path) (name : string) (s : IO.store) (e : exn) :
  fst (get_nested_filepath dir name s) = Raise e ->
  collaborator_error (IO.fs s) dir e.
Proof. cbn. intros H. left. now exists name. Qed.

Lemma gzip_open_rt_raises (p : IO.Path) (s : IO.store) (e : exn) :
  fst (gzip_open_rt p s) = Raise e -> exists p, IO.gz_text (IO.fs s) p = Raise e.
Proof.
  cbn. destruct (IO.gz_text (IO.fs s) p) as [t|e'] eqn:E; cbn; [discriminate|].
  intros [= <-]. now exists p.
Qed.

Lemma load_mat_raises (dir : IO.Path) (s : IO.store) (e : exn) :
  fst (_load_mat dir s) = Raise e ->
  e = ValueError \/ collaborator_error (IO.fs s) dir e.
Proof.
  unfold _load_mat. intros H.
  apply bind_raise_inv in H as [H|(p & _ & H)].
  - right. exact (lookup_raises _ _ _ _ H).
  - cbn in H. destruct (IO.mtx (IO.fs s) p) as [m|e'] eqn:E; cbn in H.
    + destruct (Sparse.in_bounds m); [discriminate|]. left. now inversion H.
    + injection H as <-. right. right. left. now exists p.
Qed.

Lemma load_features_raises (dir : IO.Path) (s : IO.store) (e : exn) :
  fst (_load_features dir s) = Raise e ->
  e = ValueError \/ e = CsvError \/ collaborator_error (IO.fs s) dir e.
Proof.
  unfold _load_features. intros H.
  apply bind_raise_inv in H as [H|(p & _ & H)].
  { right. right. exact (lookup_raises _ _ _ _ H). }
  apply bind_raise_inv in H as [H|(f & _ & H)].
  { right. right. right. right. exact (gzip_open_rt_raises _ _ _ H). }
  rewrite bind_lift in H.
  destruct (Csv.reader_rows TAB f) as [rows|e'] eqn:E; cbn [fst] in H.
  2:{ injection H as <-. right. left. exact (records_raises _ _ _ _ E). }
  rewrite bind_lift in H.
  destruct (Py.unpack3 (Py.zip_star rows)) as [[[a b] c]|e'] eqn:E'; cbn in H;
    [discriminate|].
  injection H as <-. left.
  destruct (Py.zip_star rows) as [|x [|y [|z [|w l]]]]; cbn in E';
    try discriminate; now inversion E'.
Qed.

Lemma load_barcodes_raises (dir : IO.Path) (s : IO.store) (e : exn) :
  fst (_load_barcodes dir s) = Raise e ->
  e = CsvError \/ collaborator_error (IO.fs s) dir e.
Proof.
  unfold _load_barcodes. intros H.
  apply bind_raise_inv in H as [H|(p & _ & H)].
  { right. exact (lookup_raises _ _ _ _ H). }
  apply bind_raise_inv in H as [H|(f & _ & H)].
  { right. right. right. exact (gzip_open_rt_raises _ _ _ H). }
  rewrite bind_lift in H.
  destruct (Csv.reader_rows TAB f) as [rows|e'] eqn:E; cbn in H; [discriminate|].
  injection H as <-. left. exact (records_raises _ _ _ _ E).
Qed.



(** ** Blank lines and the end of the probe-set file *)

Lemma blank_line_dropped (p : Tokenizer.parser) (crlf : bool) (rest : string) :
  Tokenizer.st p = Tokenizer.START_RECORD ->
  Tokenizer.run HASH p (line_end crlf ++ rest) = Tokenizer.run HASH p rest.
Proof.
  intros Hst.
  destruct crlf; cbn [line_end String.append Tokenizer.run];
    unfold Tokenizer.step; rewrite Hst; cbn; [|reflexivity].
  f_equal. destruct p; cbn in *. now subst.
Qed.



Lemma handle_eof_start (p : Tokenizer.parser) :
  Tokenizer.st p = Tokenizer.START_RECORD -> Tokenizer.handle_eof p = Ok p.
Proof. intros H. unfold Tokenizer.handle_eof. now rewrite H. Qed.

Lemma end_line_eof (p : Tokenizer.parser) :
  obind (obind (Tokenizer.end_line Tokenizer.START_RECORD p) Tokenizer.handle_eof)
        (fun p' => Ok (Tokenizer.lines p'))
  = obind (Tokenizer.end_line Tokenizer.START_RECORD p)
          (fun p' => Ok (Tokenizer.lines p')).
Proof.
  destruct (Tokenizer.end_line Tokenizer.START_RECORD p) as [p'|e] eqn:E;
    cbn [obind]; [|reflexivity].
  now rewrite (handle_eof_start p' (@end_line_state _ _ _ E)).
Qed.

(** At the end of the input the tokenizer does what a line break would
    have it do. *)
Lemma eof_as_line_break (p : Tokenizer.parser) :
  obind (obind (Tokenizer.step HASH p LF) Tokenizer.handle_eof)
        (fun p' => Ok (Tokenizer.lines p'))
  = obind (Tokenizer.handle_eof p) (fun p' => Ok (Tokenizer.lines p')).
Proof.
  unfold Tokenizer.step, Tokenizer.handle_eof at 2.
  destruct (Tokenizer.st p) eqn:Hst;
    unfold Tokenizer.start_record, Tokenizer.start_field, Tokenizer.in_field;
    cbn [Ascii.eqb LF CR QUOTE COMMA HASH Bool.eqb orb];
    try apply end_line_eof;
    try (cbn [obind]; unfold Tokenizer.handle_eof; cbn; rewrite ?Hst; reflexivity).
Qed.

(** X20. The last line of the probe-set file needs no line break: with or
    without a final LF the tokenizer produces the same lines (or the same
    error), and [load_prove_set_df] the same outcome. *)
Theorem final_line_break_optional (s s' : IO.store) (path : IO.Path)
        (content : string) :
  IO.text (IO.fs s) path = Ok content ->
  IO.text (IO.fs s') path = Ok (content ++ String LF EmptyString)%string ->
  Tokenizer.tokenize HASH (content ++ String LF EmptyString)%string
  = Tokenizer.tokenize HASH content
  /\ fst (load_prove_set_df path s') = fst (load_prove_set_df path s).
Proof.
  intros Ht Ht'.
  assert (Htok : Tokenizer.tokenize HASH (content ++ String LF EmptyString)%string
                 = Tokenizer.tokenize HASH content).
  { unfold Tokenizer.tokenize. rewrite run_app.
    destruct (Tokenizer.run HASH Tokenizer.init content) as [p|e]; cbn [obind];
      [|reflexivity].
    cbn [Tokenizer.run].
    destruct (Tokenizer.step HASH p LF) as [p'|e] eqn:E.
    - pose proof (eof_as_line_break p) as H. rewrite E in H. exact H.
    - pose proof (eof_as_line_break p) as H. rewrite E in H. exact H. }
  split; [exact Htok|].
  rewrite (@load_prove_set_df_text s path _ Ht), (@load_prove_set_df_text s' path _ Ht').
  unfold ReadCsv.read_csv. now rewrite Htok.
Qed.

Lemma final_line_break_optional_witness :
  fst (load_prove_set_df "probes.csv" (probe_fs Samples.probe_csv_plain))
  = fst (load_prove_set_df "probes.csv"
           (probe_fs (Samples.write_lines COMMA
                        [["gene_id"; "included"; "extra"]; ["G1"; "True"; "x"]]
                      ++ "G2,False,y"))).
Proof.
  refine (proj2
    (final_line_break_optional
       (probe_fs (Samples.write_lines COMMA
                    [["gene_id"; "included"; "extra"]; ["G1"; "True"; "x"]]
                  ++ "G2,False,y"))
       (probe_fs Samples.probe_csv_plain) "probes.csv"
       (Samples.write_lines COMMA
          [["gene_id"; "included"; "extra"]; ["G1"; "True"; "x"]]
        ++ "G2,False,y")
       eq_refl eq_refl)).
Defined.
